(** * The VT168 picture processing unit ([src/ppu.cpp]): a shallow embedding

    The C++ functions of [ppu.cpp] are transcribed as Rocq functions over [Z].
    - A [uintN_t] value is a [Z] in [0, 2^N); every assignment to such a
      variable that can leave the range is followed by the truncation the
      C++ conversion performs ([to_u8], [to_u16], [to_u32]).
    - [int] arithmetic is plain [Z] arithmetic: signed overflow is undefined
      in C++, so theorems that depend on it carry range hypotheses.
    - Arrays ([ppu_regs], [vram], [spram], layers, buffers) are lists read
      with stdpp's lookup; an access outside the array, undefined in C++,
      makes the enclosing function return [None], as does a failed [assert].
    - Globals of the translation unit are fields of a state record or
      explicit arguments. *)

From Stdlib Require Import ZArith Lia Bool.
From stdpp Require Import base option list.
From coqutil Require Import Z.bitblast.

Local Open Scope Z_scope.

(** ** Fixed-width integers *)

Module Int.

Definition to_u8 (z : Z) : Z := Z.land z 0xFF.
Definition to_u16 (z : Z) : Z := Z.land z 0xFFFF.
Definition to_u32 (z : Z) : Z := Z.land z 0xFFFFFFFF.

Definition is_u8 (z : Z) : Prop := 0 <= z < 2 ^ 8.
Definition is_u16 (z : Z) : Prop := 0 <= z < 2 ^ 16.
Definition is_u32 (z : Z) : Prop := 0 <= z < 2 ^ 32.

(** [x & mask] used as a C++ condition: true when some masked bit is set. *)
Definition tst (x mask : Z) : bool := negb (Z.land x mask =? 0).

End Int.

Import Int.

(** ** Pixel formats *)

Inductive ColourMode : Type := IDX_4 | IDX_16 | IDX_64 | IDX_256 | ARGB1555.

Definition ColourMode_eqb (a b : ColourMode) : bool :=
  match a, b with
  | IDX_4, IDX_4 | IDX_16, IDX_16 | IDX_64, IDX_64
  | IDX_256, IDX_256 | ARGB1555, ARGB1555 => true
  | _, _ => false
  end.

Definition is_indexed (fmt : ColourMode) : bool := negb (ColourMode_eqb fmt ARGB1555).

(** ** Colour arithmetic: [blend_argb1555], [c5_to_8], [argb1555_to_rgb8888] *)

(** Modelled from the spec: [get_bit] is declared in [util.hpp], which is not
    among the sources; the spec reads [get_bit(x, n)] as bit [n] of [x]
    ("returns bit 0 of register 0x00", "bits 1, 3, 4"). *)
Definition get_bit (x n : Z) : bool := Z.testbit x n.

(** [static inline uint16_t blend_argb1555(uint16_t a, uint16_t b)] *)
Definition blend_argb1555 (a b : Z) : Z :=
  if tst a 0x8000 then b
  else if tst b 0x8000 then a
  else
    let x := 0 in
    let x := to_u16 (Z.lor x (Z.land ((Z.land a 0x1F + Z.land b 0x1F) / 2) 0x1F)) in
    let x := to_u16 (Z.lor x (Z.shiftl
               (Z.land ((Z.land (Z.shiftr a 5) 0x1F + Z.land (Z.shiftr b 5) 0x1) / 2) 0x1F) 5)) in
    let x := to_u16 (Z.lor x (Z.shiftl
               (Z.land ((Z.land (Z.shiftr a 11) 0x1F + Z.land (Z.shiftr b 11) 0x1F) / 2) 0x1F) 10)) in
    x.

(** The three 5-bit channels of a TRGB1555 word, and the per-channel mean the
    specification describes for two solid operands. *)
Definition chan_r (c : Z) : Z := Z.land c 0x1F.
Definition chan_g (c : Z) : Z := Z.land (Z.shiftr c 5) 0x1F.
Definition chan_b (c : Z) : Z := Z.land (Z.shiftr c 10) 0x1F.

Definition mean_argb1555 (a b : Z) : Z :=
  Z.lor (Z.lor ((chan_r a + chan_r b) / 2)
               (Z.shiftl ((chan_g a + chan_g b) / 2) 5))
        (Z.shiftl ((chan_b a + chan_b b) / 2) 10).

(** [static inline uint8_t c5_to_8(uint8_t x)] *)
Definition c5_to_8 (x : Z) : Z :=
  let lsb := get_bit x 0 in
  to_u8 (Z.lor (Z.shiftl x 3) (if lsb then 0x7 else 0x0)).

(** [static inline uint32_t argb1555_to_rgb8888(uint16_t x)] *)
Definition argb1555_to_rgb8888 (x : Z) : Z :=
  let r := to_u8 (Z.land x 0x1F) in
  let g := to_u8 (Z.land (Z.shiftr x 5) 0x1F) in
  let b := to_u8 (Z.land (Z.shiftr x 10) 0x1F) in
  let a := get_bit x 15 in
  if a then 0xFF000000
  else
    let y := 0 in
    let y := to_u32 (Z.lor y 0xFF000000) in
    let y := to_u32 (Z.lor y (Z.shiftl (c5_to_8 r) 16)) in
    let y := to_u32 (Z.lor y (Z.shiftl (c5_to_8 g) 8)) in
    let y := to_u32 (Z.lor y (c5_to_8 b)) in
    y.

(** ** Character fetch: [get_char_data] *)

Definition bpp_of (fmt : ColourMode) : Z :=
  match fmt with
  | ARGB1555 => 16
  | IDX_256 => 8
  | IDX_64 => 6
  | IDX_16 => 4
  | IDX_4 => 2
  end.

(** The value of the local [spacing] when [pa] is computed. *)
Definition char_spacing (w h : Z) (fmt : ColourMode) (bmp : bool) : Z :=
  let spacing := if bmp || ColourMode_eqb fmt ARGB1555 then 16 * 16 else w * h in
  let bpp := bpp_of fmt in
  let spacing := if bpp =? 16 then spacing * 8 else spacing * bpp in
  Z.quot spacing 8.

(** [uint32_t pa = (seg << 13UL) + vector * spacing;] *)
Definition char_pa (seg vector w h : Z) (fmt : ColourMode) (bmp : bool) : Z :=
  to_u32 (Z.shiftl seg 13 + vector * char_spacing w h fmt bmp).

(** [int len = (w * h * bpp) / 8;] *)
Definition char_len (w h : Z) (fmt : ColourMode) : Z :=
  Z.quot (w * h * bpp_of fmt) 8.

(** [buf[i] = v] on a buffer: [None] outside the buffer. *)
Definition store (l : list Z) (i v : Z) : option (list Z) :=
  if (0 <=? i) && (i <? Z.of_nat (length l)) then Some (<[Z.to_nat i := v]> l)
  else None.

(** [p[i]] on a buffer: [None] outside the buffer. *)
Definition load (l : list Z) (i : Z) : option Z :=
  if 0 <=? i then l !! Z.to_nat i else None.

(** ** Loops

    [for (int i = i0; ...; i++) body] running [n] times from [i0], threading
    the variables the body updates; a body that fails stops the loop. *)
Fixpoint for_range {S : Type} (n : nat) (i : Z) (body : Z -> S -> option S) (s : S)
    : option S :=
  match n with
  | O => Some s
  | S n' => s' ← body i s; for_range n' (i + 1) body s'
  end.

(** The same, counting down: [for (int i = i0; ...; i--) body]. *)
Fixpoint for_down {S : Type} (n : nat) (i : Z) (body : Z -> S -> option S) (s : S)
    : option S :=
  match n with
  | O => Some s
  | S n' => s' ← body i s; for_down n' (i - 1) body s'
  end.

Section CharData.

(** [read_mem_physical] belongs to the memory management unit ([mmu.hpp]);
    the picture unit only calls it. *)
Variable read_mem_physical : Z -> Z.

Definition get_char_data (seg vector w h : Z) (fmt : ColourMode) (bmp : bool)
    (buf : list Z) : option (list Z) :=
  let pa := char_pa seg vector w h fmt bmp in
  let len := char_len w h fmt in
  for_range (Z.to_nat len) 0
    (fun i buf => store buf i (read_mem_physical (to_u32 (pa + i)))) buf.

End CharData.

(** The fetch base as the specification words it: the stride is the texel
    count scaled by [bpp / 8], with [16 * 16] texels for bitmap mode or
    ARGB1555. *)
Definition spec_spacing (w h : Z) (fmt : ColourMode) (bmp : bool) : Z :=
  (if bmp || ColourMode_eqb fmt ARGB1555 then 16 * 16 else w * h) * bpp_of fmt / 8.

Definition spec_pa (seg vector w h : Z) (fmt : ColourMode) (bmp : bool) : Z :=
  Z.shiftl seg 13 + vector * spec_spacing w h fmt bmp.

(** ** Machine state: registers, video memory, frame clock *)

(** [ppu_regs[256]], [vram[8192]], [spram[2048]], the tick counter [ticks]
    and the flag [render_ready] that wakes the render thread. *)
Record ppu_state : Type := mk_ppu {
  ppu_regs : list Z;
  vram : list Z;
  spram : list Z;
  ticks : Z;
  render_ready : bool
}.

Definition with_regs (st : ppu_state) (r : list Z) : ppu_state :=
  mk_ppu r (vram st) (spram st) (ticks st) (render_ready st).
Definition with_vram (st : ppu_state) (v : list Z) : ppu_state :=
  mk_ppu (ppu_regs st) v (spram st) (ticks st) (render_ready st).
Definition with_spram (st : ppu_state) (s : list Z) : ppu_state :=
  mk_ppu (ppu_regs st) (vram st) s (ticks st) (render_ready st).
Definition with_ticks (st : ppu_state) (t : Z) : ppu_state :=
  mk_ppu (ppu_regs st) (vram st) (spram st) t (render_ready st).
Definition with_render_ready (st : ppu_state) (b : bool) : ppu_state :=
  mk_ppu (ppu_regs st) (vram st) (spram st) (ticks st) b.

(** The arrays have their declared sizes and hold bytes; the counter is a
    [uint32_t]. *)
Definition wf_state (st : ppu_state) : Prop :=
  Z.of_nat (length (ppu_regs st)) = 256 /\ Forall is_u8 (ppu_regs st) /\
  Z.of_nat (length (vram st)) = 8192 /\ Z.of_nat (length (spram st)) = 2048.

#[global] Instance is_u8_dec (z : Z) : Decision (is_u8 z).
Proof. unfold is_u8. apply _. Defined.

#[global] Instance wf_state_dec (st : ppu_state) : Decision (wf_state st).
Proof. unfold wf_state. apply _. Defined.

(** The state of the zero-initialised statics. *)
Definition ppu_reset : ppu_state :=
  mk_ppu (replicate (Z.to_nat 256) 0) (replicate (Z.to_nat 8192) 0)
         (replicate (Z.to_nat 2048) 0) 0 false.

(** ** Frame pump: [ppu_tick], [ppu_is_vblank] *)

Definition vblank_start : Z := 0.
Definition vblank_len : Z := 22036.
Definition v_total : Z := 106392.

Definition ppu_tick (st : ppu_state) : ppu_state :=
  let st := with_ticks st (to_u32 (ticks st + 1)) in
  if v_total <=? ticks st then with_ticks st 0
  else if ticks st =? vblank_len then with_render_ready st true
  else st.

Definition ppu_is_vblank (st : ppu_state) : bool :=
  (vblank_start <=? ticks st) && (ticks st <? vblank_len).

(** [n] consecutive calls of [ppu_tick]. *)
Definition ppu_ticks (n : nat) (st : ppu_state) : ppu_state := Nat.iter n ppu_tick st.

(** ** Register port: [ppu_read], [ppu_write] *)

Definition reg_ppu_stat : Z := 0x01.
Definition reg_spram_addr_msb : Z := 0x02.
Definition reg_spram_addr_lsb : Z := 0x03.
Definition reg_spram_data : Z := 0x04.
Definition reg_vram_addr_msb : Z := 0x06.
Definition reg_vram_addr_lsb : Z := 0x05.
Definition reg_vram_data : Z := 0x07.

(** [uint16_t spram_addr = ((ppu_regs[reg_spram_addr_msb] & 0x07) << 8) |
    ppu_regs[reg_spram_addr_lsb];], the first statement of the SPRAM case of
    both [ppu_read] and [ppu_write]. *)
Definition spram_window (regs : list Z) : option Z :=
  msb ← load regs reg_spram_addr_msb;
  lsb ← load regs reg_spram_addr_lsb;
  Some (to_u16 (Z.lor (Z.shiftl (Z.land msb 0x07) 8) lsb)).

(** [uint16_t vram_addr = ((ppu_regs[reg_vram_addr_msb] & 0x1F) << 8) |
    ppu_regs[reg_vram_addr_lsb];], likewise for the VRAM case. *)
Definition vram_window (regs : list Z) : option Z :=
  msb ← load regs reg_vram_addr_msb;
  lsb ← load regs reg_vram_addr_lsb;
  Some (to_u16 (Z.lor (Z.shiftl (Z.land msb 0x1F) 8) lsb)).

(** [uint8_t ppu_read(uint8_t address)]: it changes no state. *)
Definition ppu_read (st : ppu_state) (address : Z) : option Z :=
  if address =? reg_spram_data then
    spram_addr ← spram_window (ppu_regs st);
    load (spram st) spram_addr
  else if address =? reg_vram_data then
    vram_addr ← vram_window (ppu_regs st);
    load (vram st) vram_addr
  else if address =? reg_ppu_stat then
    Some (to_u8 (Z.shiftl (Z.b2z (ppu_is_vblank st)) 7))
  else
    load (ppu_regs st) address.

(** [void ppu_write(uint8_t address, uint8_t data)] *)
Definition ppu_write (address data : Z) (st : ppu_state) : option ppu_state :=
  if address =? reg_spram_data then
    spram_addr ← spram_window (ppu_regs st);
    spram' ← store (spram st) spram_addr data;
    let spram_addr := to_u16 (spram_addr + 1) in
    let spram_addr :=
      if 6 <=? Z.land spram_addr 0x07
      then to_u16 (to_u16 (Z.land spram_addr (Z.lnot 0x07)) + 8)
      else spram_addr in
    regs' ← store (ppu_regs st) reg_spram_addr_msb (to_u8 (Z.land (Z.shiftr spram_addr 8) 0x07));
    regs'' ← store regs' reg_spram_addr_lsb (to_u8 (Z.land spram_addr 0xFF));
    Some (with_regs (with_spram st spram') regs'')
  else if address =? reg_vram_data then
    vram_addr ← vram_window (ppu_regs st);
    vram' ← store (vram st) vram_addr data;
    let vram_addr := to_u16 (vram_addr + 1) in
    regs' ← store (ppu_regs st) reg_vram_addr_msb (to_u8 (Z.land (Z.shiftr vram_addr 8) 0x1F));
    regs'' ← store regs' reg_vram_addr_lsb (to_u8 (Z.land vram_addr 0xFF));
    Some (with_regs (with_vram st vram') regs'')
  else
    regs' ← store (ppu_regs st) address data;
    Some (with_regs st regs').

(** A run of writes to the VRAM data port, one per byte of [bs]. *)
Fixpoint vram_port_writes (bs : list Z) (st : ppu_state) : option ppu_state :=
  match bs with
  | [] => Some st
  | b :: bs' => st' ← ppu_write reg_vram_data b st; vram_port_writes bs' st'
  end.

(** Pointing the VRAM window at [a]: the CPU writes the high byte to register
    0x06 and the low byte to register 0x05. *)
Definition set_vram_window (a : Z) (st : ppu_state) : option ppu_state :=
  st' ← ppu_write reg_vram_addr_msb (to_u8 (Z.shiftr a 8)) st;
  ppu_write reg_vram_addr_lsb (to_u8 a) st'.

(** The SPRAM address following [a] as the specification words it: one more,
    rounded up to the next multiple of 8 when the low three bits of the
    incremented address are 6 or 7. *)
Definition spec_spram_next (a : Z) : Z :=
  let a1 := a + 1 in
  if 6 <=? a1 mod 8 then 8 * (a1 / 8 + 1) else a1.

(** ** Tile map addressing: [get_tile_addr] *)

Inductive BkgScrollMode : Type := SCROLL_FIX | SCROLL_H | SCROLL_V | SCROLL_4P.

(** [tx % 32] is C++ remainder, [Z.rem]. A [bool] operand of [<<] or [==] is
    promoted to [int], [Z.b2z]. *)
Definition get_tile_addr (tx ty : Z) (y8 x8 : bool) (size : Z) (bmp : bool)
    (layer : Z) (scrl : BkgScrollMode) : option (Z * bool) :=
  if size =? 8 then
    let offset := to_u16 ((Z.rem tx 32 + 32 * Z.rem ty 32) * 2) in
    '(base, mapped) ←
      match scrl with
      | SCROLL_FIX =>
          Some (if (Z.b2z y8 =? 0) && (Z.b2z x8 =? 0) then 0x000 else 0x800,
                (tx <? 32) && (ty <? 32))
      | SCROLL_H =>
          Some (if negb (eqb (32 <? tx) x8) then 0x800 else 0x000, ty <? 32)
      | SCROLL_V =>
          Some (if negb (eqb (32 <? ty) y8) then 0x800 else 0x000, tx <? 32)
      | SCROLL_4P => None
      end;
    Some (to_u16 (base + offset), mapped)
  else if size =? 16 then
    let offset := to_u16 ((Z.rem tx 16 + 16 * Z.rem ty 16) * 2) in
    '(base, mapped) ←
      match scrl with
      | SCROLL_FIX =>
          Some (to_u16 (Z.lor (Z.lor (Z.shiftl layer 11) (Z.shiftl (Z.b2z y8) 10))
                              (Z.shiftl (Z.b2z x8) 9)),
                (tx <? 16) && (ty <? 16))
      | SCROLL_H =>
          let base := if negb (eqb (16 <? tx) x8) then 0x200 else 0x000 in
          let base := to_u16 (Z.lor base (Z.shiftl layer 11)) in
          Some (base, ty <? 16)
      | SCROLL_V =>
          let base := if negb (eqb (16 <? ty) y8) then 0x200 else 0x000 in
          let base := to_u16 (Z.lor base (Z.shiftl layer 11)) in
          Some (base, tx <? 16)
      | SCROLL_4P =>
          let base := if negb (eqb (16 <? tx) x8) then 0x200 else 0x000 in
          let base := to_u16 (Z.lor base (if negb (eqb (16 <? ty) y8) then 0x400 else 0x000)) in
          let base := to_u16 (Z.lor base (Z.shiftl layer 11)) in
          Some (base, true)
      end;
    Some (to_u16 (base + offset), mapped)
  else if bmp then
    if negb (layer =? 0) then None
    else
      let offset := to_u16 (Z.rem ty 256 * 2) in
      let '(base, mapped) :=
        match scrl with
        | SCROLL_FIX =>
            (to_u16 (Z.lor (Z.lor (Z.shiftl layer 11) (Z.shiftl (Z.b2z y8) 10))
                           (Z.shiftl (Z.b2z x8) 9)),
             (tx <? 1) && (ty <? 256))
        | SCROLL_H =>
            (if negb (eqb (1 <? tx) x8) then 0x200 else 0x000, ty <? 256)
        | SCROLL_V =>
            (if negb (eqb (256 <? ty) y8) then 0x200 else 0x000, tx <? 1)
        | SCROLL_4P =>
            let base := if negb (eqb (1 <? tx) x8) then 0x200 else 0x000 in
            let base := to_u16 (Z.lor base (if negb (eqb (256 <? ty) y8) then 0x400 else 0x000)) in
            (base, true)
        end in
      Some (to_u16 (base + offset), mapped)
  else None.

(** The tile map tables of the specification, for 8-pixel and 16-pixel
    tiles: base, offset within the base, and whether the tile exists. *)
Definition spec_base8 (scrl : BkgScrollMode) (tx ty : Z) (y8 x8 : bool) : Z :=
  match scrl with
  | SCROLL_FIX => if negb y8 && negb x8 then 0x000 else 0x800
  | SCROLL_H => if xorb (32 <? tx) x8 then 0x800 else 0x000
  | SCROLL_V => if xorb (32 <? ty) y8 then 0x800 else 0x000
  | SCROLL_4P => 0
  end.

Definition spec_mapped8 (scrl : BkgScrollMode) (tx ty : Z) : bool :=
  match scrl with
  | SCROLL_FIX => (tx <? 32) && (ty <? 32)
  | SCROLL_H => ty <? 32
  | SCROLL_V => tx <? 32
  | SCROLL_4P => false
  end.

Definition spec_offset8 (tx ty : Z) : Z := (tx mod 32 + 32 * (ty mod 32)) * 2.

Definition spec_base16 (scrl : BkgScrollMode) (layer tx ty : Z) (y8 x8 : bool) : Z :=
  match scrl with
  | SCROLL_FIX =>
      Z.lor (Z.lor (Z.shiftl layer 11) (Z.shiftl (Z.b2z y8) 10)) (Z.shiftl (Z.b2z x8) 9)
  | SCROLL_H =>
      Z.lor (Z.shiftl layer 11) (if xorb (16 <? tx) x8 then 0x200 else 0)
  | SCROLL_V =>
      Z.lor (Z.shiftl layer 11) (if xorb (16 <? ty) y8 then 0x200 else 0)
  | SCROLL_4P =>
      Z.lor (Z.lor (Z.shiftl layer 11) (if xorb (16 <? tx) x8 then 0x200 else 0))
            (if xorb (16 <? ty) y8 then 0x400 else 0)
  end.

Definition spec_mapped16 (scrl : BkgScrollMode) (tx ty : Z) : bool :=
  match scrl with
  | SCROLL_FIX => (tx <? 16) && (ty <? 16)
  | SCROLL_H => ty <? 16
  | SCROLL_V => tx <? 16
  | SCROLL_4P => true
  end.

Definition spec_offset16 (tx ty : Z) : Z := (tx mod 16 + 16 * (ty mod 16)) * 2.

(** The page bits of a 16-pixel base, below the layer bits. *)
Definition page16 (scrl : BkgScrollMode) (tx ty : Z) (y8 x8 : bool) : Z :=
  match scrl with
  | SCROLL_FIX => Z.b2z y8 * 1024 + Z.b2z x8 * 512
  | SCROLL_H => if xorb (16 <? tx) x8 then 512 else 0
  | SCROLL_V => if xorb (16 <? ty) y8 then 512 else 0
  | SCROLL_4P => (if xorb (16 <? tx) x8 then 512 else 0) + (if xorb (16 <? ty) y8 then 1024 else 0)
  end.

(** ** Blitter: [vt_blit] *)

(** The variables [vt_blit] updates while it walks the source: the read
    position [srcptr] (an index into [src]), the bit phase [src_bit], the
    destination layer, and the two samples [argb0], [argb1].

    The samples are declared without initialiser inside the inner loop and
    the indexed branch assigns [argb0] only when [pal0] is given (likewise
    [argb1]); a texel that assigns neither reads whatever their storage
    holds.  The model threads that storage through the loop, so such a read
    sees the value the previous texel left, and the first texel sees the
    arbitrary contents [junk0], [junk1] passed to [vt_blit]. *)
Record blit_state : Type := mk_blit {
  b_srcptr : Z;
  b_src_bit : Z;
  b_argb0 : Z;
  b_argb1 : Z;
  b_dst : list Z
}.

(** The indexed branch up to [raw]: the index, and the new [srcptr] and
    [src_bit]. *)
Definition decode_index (fmt : ColourMode) (src : list Z) (srcptr src_bit : Z)
    : option (Z * Z * Z) :=
  match fmt with
  | IDX_4 =>
      b ← load src srcptr;
      let raw := to_u8 (Z.land (Z.shiftr b src_bit) 0x03) in
      let src_bit := src_bit + 2 in
      if 8 <=? src_bit then Some (raw, srcptr + 1, 0) else Some (raw, srcptr, src_bit)
  | IDX_16 =>
      b ← load src srcptr;
      let raw := to_u8 (Z.land (Z.shiftr b src_bit) 0x0F) in
      let src_bit := src_bit + 4 in
      if 8 <=? src_bit then Some (raw, srcptr + 1, 0) else Some (raw, srcptr, src_bit)
  | IDX_64 =>
      if src_bit =? 0 then
        b ← load src srcptr;
        Some (to_u8 (Z.land b 0x3F), srcptr, 6)
      else if src_bit =? 2 then
        b ← load src srcptr;
        Some (to_u8 (Z.land (Z.shiftr b 2) 0x3F), srcptr + 1, 0)
      else if src_bit =? 4 then
        b ← load src srcptr;
        b1 ← load src (srcptr + 1);
        Some (to_u8 (Z.lor (Z.shiftr (Z.land b 0xF0) 4) (Z.shiftl (Z.land b1 0x03) 4)),
              srcptr + 1, 2)
      else if src_bit =? 6 then
        b ← load src srcptr;
        b1 ← load src (srcptr + 1);
        Some (to_u8 (Z.lor (Z.shiftr (Z.land b 0xC0) 6) (Z.shiftl (Z.land b1 0x0F) 2)),
              srcptr + 1, 4)
      else None
  | IDX_256 =>
      b ← load src srcptr;
      Some (b, srcptr + 1, src_bit)
  | ARGB1555 => None
  end.

(** [(pal[2 * raw + 1] << 8) | pal[2 * raw]] *)
Definition pal_entry (pal : list Z) (raw : Z) : option Z :=
  hi ← load pal (2 * raw + 1);
  lo ← load pal (2 * raw);
  Some (to_u16 (Z.lor (Z.shiftl hi 8) lo)).

(** Lines 49-109: the two samples of the next texel.  A palette that is a
    null pointer is [None]. *)
Definition sample_texel (src : list Z) (fmt : ColourMode) (pal0 pal1 : option (list Z))
    (s : blit_state) : option blit_state :=
  match fmt with
  | ARGB1555 =>
      hi ← load src (b_srcptr s + 1);
      lo ← load src (b_srcptr s);
      let argb0 := to_u16 (Z.lor (Z.shiftl hi 8) lo) in
      let argb1 := argb0 in
      Some (mk_blit (b_srcptr s + 2) (b_src_bit s) argb0 argb1 (b_dst s))
  | _ =>
      '(raw, srcptr, src_bit) ← decode_index fmt src (b_srcptr s) (b_src_bit s);
      if raw =? 0 then
        Some (mk_blit srcptr src_bit 0x8000 0x8000 (b_dst s))
      else
        argb0 ← match pal0 with
                 | Some pal => pal_entry pal raw
                 | None => Some (b_argb0 s)
                 end;
        argb1 ← match pal1 with
                 | Some pal => pal_entry pal raw
                 | None => Some (b_argb1 s)
                 end;
        Some (mk_blit srcptr src_bit argb0 argb1 (b_dst s))
  end.

(** Lines 110-119: the write of the two samples to the destination cell. *)
Definition put_texel (dst_width dst_height dst_stride dx dy argb0 argb1 : Z)
    (dst : list Z) : option (list Z) :=
  if (0 <=? dx) && (dx <? dst_width) && (0 <=? dy) && (dy <? dst_height) then
    dst ← (if negb (tst argb0 0x8000) then
             old ← load dst (dy * dst_stride + dx);
             store dst (dy * dst_stride + dx)
                   (to_u32 (Z.lor (Z.land old 0xFFFF0000) argb0))
           else Some dst);
    if negb (tst argb1 0x8000) then
      old ← load dst (dy * dst_stride + dx);
      store dst (dy * dst_stride + dx)
            (to_u32 (Z.lor (Z.land old 0x0000FFFF) (Z.shiftl argb1 16)))
    else Some dst
  else Some dst.

(** One turn of the inner loop. *)
Definition blit_texel (src : list Z) (fmt : ColourMode) (pal0 pal1 : option (list Z))
    (dst_width dst_height dst_stride dx dy : Z) (s : blit_state) : option blit_state :=
  s ← sample_texel src fmt pal0 pal1 s;
  dst ← put_texel dst_width dst_height dst_stride dx dy (b_argb0 s) (b_argb1 s) (b_dst s);
  Some (mk_blit (b_srcptr s) (b_src_bit s) (b_argb0 s) (b_argb1 s) dst).

Definition vt_blit (src_width src_height : Z) (src : list Z)
    (dst_width dst_height dst_stride dst_x dst_y : Z) (dst : list Z)
    (fmt : ColourMode) (pal0 pal1 : option (list Z)) (junk0 junk1 : Z)
    : option (list Z) :=
  s ← for_range (Z.to_nat src_height) 0 (fun sy s =>
         let dy := dst_y + sy in
         for_range (Z.to_nat src_width) 0 (fun sx s =>
           let dx := dst_x + sx in
           blit_texel src fmt pal0 pal1 dst_width dst_height dst_stride dx dy s) s)
       (mk_blit 0 0 junk0 junk1 dst);
  Some (b_dst s).

(** The two halves of a layer cell: the bank-0 sample and the bank-1 sample. *)
Definition cell_lo (c : Z) : Z := Z.land c 0xFFFF.
Definition cell_hi (c : Z) : Z := Z.land (Z.shiftr c 16) 0xFFFF.

(** ** Compositor: [merge_layers] *)

Definition reg_pal_sel : Z := 0x0E.

(** The loop over [l = 3 .. 0] for one pixel: the cell of each layer updates
    [pal0] and [pal1]. *)
Definition scan_layers (layers : list (list Z)) (layer_width x y : Z) : option (Z * Z) :=
  for_down 4 3 (fun l '(pal0, pal1) =>
      layer ← layers !! Z.to_nat l;
      raw ← load layer (y * layer_width + x);
      let pal0 := if negb (tst raw 0x8000) then to_u16 (Z.land raw 0xFFFF) else pal0 in
      let pal1 := if negb (tst raw 0x80000000)
                  then to_u16 (Z.land (Z.shiftr raw 16) 0xFFFF) else pal1 in
      Some (pal0, pal1))
    (0x8000, 0x8000).

(** The choice of [res] from the two scanned samples. *)
Definition merge_res (output_pal0 output_pal1 blend_pal : bool) (pal0 pal1 : Z) : Z :=
  let res := 0x8000 in
  let res := if blend_pal && output_pal0 && output_pal1
             then blend_argb1555 pal0 pal1 else res in
  let res := if output_pal0 && negb (tst pal0 0x8000) then pal0 else res in
  let res := if output_pal1 && negb (tst pal1 0x8000) then pal1 else res in
  res.

(** [static void merge_layers(bool lcd)]; the globals it reads are arguments
    and the output buffer is returned. *)
Definition merge_layers (ppu_regs_shadow : list Z) (layers : list (list Z))
    (layer_width out_width out_height : Z) (obuf : list Z) (lcd : bool)
    : option (list Z) :=
  pal_sel ← load ppu_regs_shadow reg_pal_sel;
  let output_pal0 := get_bit pal_sel (if lcd then 0 else 1) in
  let output_pal1 := get_bit pal_sel (if lcd then 2 else 3) in
  let blend_pal := get_bit pal_sel (if lcd then 5 else 4) in
  for_range (Z.to_nat out_height) 0 (fun y obuf =>
    for_range (Z.to_nat out_width) 0 (fun x obuf =>
      '(pal0, pal1) ← scan_layers layers layer_width x y;
      let res := merge_res output_pal0 output_pal1 blend_pal pal0 pal1 in
      store obuf (y * out_width + x) (argb1555_to_rgb8888 res)) obuf) obuf.

(** The cell of a layer under output pixel [(x, y)]. *)
Definition cell_at (layer : list Z) (lw x y : Z) : Z := layer !!! Z.to_nat (y * lw + x).

(** The compositor as the specification words it.  The sample a palette bank
    shows is the first solid one in the order layer 0, 1, 2, 3, transparent
    when no layer has one; the colour follows the priority pal1, pal0,
    blend, transparent. *)
Definition solid (c : Z) : bool := negb (Z.testbit c 15).

Fixpoint topmost (samples : list Z) : Z :=
  match samples with
  | [] => 0x8000
  | c :: rest => if solid c then c else topmost rest
  end.

Definition spec_colour (output_pal0 output_pal1 blend_pal : bool) (pal0 pal1 : Z) : Z :=
  if output_pal1 && solid pal1 then pal1
  else if output_pal0 && solid pal0 then pal0
  else if blend_pal && output_pal0 && output_pal1 then blend_argb1555 pal0 pal1
  else 0x8000.

(** ** More of the register port *)

(** A run of writes to the SPRAM data port, one per byte of [bs]. *)
Fixpoint spram_port_writes (bs : list Z) (st : ppu_state) : option ppu_state :=
  match bs with
  | [] => Some st
  | b :: bs' => st' ← ppu_write reg_spram_data b st; spram_port_writes bs' st'
  end.

(** [bool ppu_nmi_enabled()] *)
Definition ppu_nmi_enabled (st : ppu_state) : option bool :=
  r ← load (ppu_regs st) 0; Some (get_bit r 0).

(** ** The source of a blit as a bit string *)

(** The bytes of a buffer read as one little-endian number: byte [p] holds
    bits [8 p .. 8 p + 7]. *)
Fixpoint le_value (src : list Z) : Z :=
  match src with
  | [] => 0
  | b :: rest => b + 256 * le_value rest
  end.
(** The phases the cursor of a format can be in. *)
Definition phase_ok (fmt : ColourMode) (bit : Z) : Prop :=
  0 <= bit < 8 /\ bit mod Z.gcd (bpp_of fmt) 8 = 0.

(** [n] consecutive calls of [decode_index], as the inner loop of [vt_blit]
    makes them: the indices in order and the final cursor. *)
Fixpoint decode_run (fmt : ColourMode) (src : list Z) (n : nat) (p bit : Z)
    : option (list Z * Z * Z) :=
  match n with
  | O => Some ([], p, bit)
  | S n' =>
      '(raw, p1, bit1) ← decode_index fmt src p bit;
      '(raws, p2, bit2) ← decode_run fmt src n' p1 bit1;
      Some (raw :: raws, p2, bit2)
  end.

(** Fields of [w] bits packed into one number, first field lowest. *)
Fixpoint pack_fields (w : Z) (fields : list Z) : Z :=
  match fields with
  | [] => 0
  | f :: rest => f + 2 ^ w * pack_fields w rest
  end.

(** The cell a texel write leaves: each half is the sample if the sample is
    solid, the old half otherwise. *)
Definition mix_cell (argb0 argb1 old : Z) : Z :=
  (if solid argb0 then argb0 else cell_lo old)
  + 65536 * (if solid argb1 then argb1 else cell_hi old).

(** Whether [(dx, dy)] passes the bounds test of [vt_blit]. *)
Definition in_layer (dst_width dst_height dx dy : Z) : bool :=
  (0 <=? dx) && (dx <? dst_width) && (0 <=? dy) && (dy <? dst_height).

(** ** What a blit reads and writes, texel by texel *)

(** Texel [t] of a source: the [t]-th field of [bpp] bits. *)
Definition texel_field (fmt : ColourMode) (src : list Z) (t : Z) : Z :=
  (le_value src / 2 ^ (t * bpp_of fmt)) mod 2 ^ bpp_of fmt.

(** The sample texel [t] gives a bank whose palette is [pal]: the texel
    itself in ARGB1555, transparent for index 0, the palette entry
    otherwise. *)
Definition texel_sample (fmt : ColourMode) (src pal : list Z) (t : Z) : option Z :=
  match fmt with
  | ARGB1555 => Some (texel_field fmt src t)
  | _ => if texel_field fmt src t =? 0 then Some 0x8000
         else pal_entry pal (texel_field fmt src t)
  end.

(** Whether a bank's sample is determined by the source: always in
    ARGB1555, otherwise when its palette is given. *)
Definition bank_defined (fmt : ColourMode) (pal : option (list Z)) : bool :=
  match fmt, pal with
  | ARGB1555, _ => true
  | _, Some _ => true
  | _, None => false
  end.

(** A palette holds an entry for every index of the format. *)
Definition pal_fits (fmt : ColourMode) (pal : option (list Z)) : Prop :=
  match fmt, pal with
  | ARGB1555, _ => True
  | _, Some p => 2 * 2 ^ bpp_of fmt <= Z.of_nat (length p)
  | _, None => True
  end.

(** What texel [(sx, sy)] of a blit [sw] texels wide has done to its cell
    [c], which held [old]: a bank whose sample is defined took the sample
    if solid and kept its half otherwise. *)
Definition texel_done (fmt : ColourMode) (src : list Z) (pal0 pal1 : option (list Z))
    (sw sx sy old c : Z) : Prop :=
  (forall p, fmt = ARGB1555 \/ pal0 = Some p ->
     exists v, texel_sample fmt src p (sy * sw + sx) = Some v /\
               cell_lo c = (if solid v then v else cell_lo old)) /\
  (forall p, fmt = ARGB1555 \/ pal1 = Some p ->
     exists v, texel_sample fmt src p (sy * sw + sx) = Some v /\
               cell_hi c = (if solid v then v else cell_hi old)).

(** The state of a blit when [t] texels are done: the cursor is [t] fields
    into the source, the cells of the texels done are mixed, the others are
    as in [dst]. *)
Definition blit_inv (sw : Z) (src : list Z) (dw dh ds x y : Z) (dst : list Z)
    (fmt : ColourMode) (pal0 pal1 : option (list Z)) (t : Z) (s : blit_state) : Prop :=
  b_srcptr s = (t * bpp_of fmt) / 8 /\ b_src_bit s = (t * bpp_of fmt) mod 8 /\
  is_u16 (b_argb0 s) /\ is_u16 (b_argb1 s) /\
  length (b_dst s) = length dst /\ Forall is_u32 (b_dst s) /\
  (forall sx sy, 0 <= sy -> 0 <= sx < sw -> sy * sw + sx < t ->
     in_layer dw dh (x + sx) (y + sy) = true ->
     exists old c,
       dst !! Z.to_nat ((y + sy) * ds + (x + sx)) = Some old /\
       b_dst s !! Z.to_nat ((y + sy) * ds + (x + sx)) = Some c /\
       texel_done fmt src pal0 pal1 sw sx sy old c) /\
  (forall i : nat,
     (forall sx sy, 0 <= sy -> 0 <= sx < sw -> sy * sw + sx < t ->
        in_layer dw dh (x + sx) (y + sy) = true ->
        Z.of_nat i <> (y + sy) * ds + (x + sx)) ->
     b_dst s !! i = dst !! i).

(** ** The tile map in bitmap mode *)

(** Base and mapped flag of a bitmap line, read off the third branch of
    [get_tile_addr] for layer 0. *)
Definition bmp_base (scrl : BkgScrollMode) (tx ty : Z) (y8 x8 : bool) : Z :=
  match scrl with
  | SCROLL_FIX => Z.b2z y8 * 1024 + Z.b2z x8 * 512
  | SCROLL_H => if xorb (1 <? tx) x8 then 512 else 0
  | SCROLL_V => if xorb (256 <? ty) y8 then 512 else 0
  | SCROLL_4P => (if xorb (1 <? tx) x8 then 512 else 0)
                 + (if xorb (256 <? ty) y8 then 1024 else 0)
  end.

Definition bmp_mapped (scrl : BkgScrollMode) (tx ty : Z) : bool :=
  match scrl with
  | SCROLL_FIX => (tx <? 1) && (ty <? 256)
  | SCROLL_H => ty <? 256
  | SCROLL_V => tx <? 1
  | SCROLL_4P => true
  end.

(** ** Clearing the layers: [clear_layer], [clear_layers] *)

(** [fill(ptr, ptr + (w * h), 0x80008000)] *)
Definition clear_layer (ptr : list Z) (w h : Z) : option (list Z) :=
  for_range (Z.to_nat (w * h)) 0 (fun i b => store b i 0x80008000) ptr.

(** [for (int i = 0; i < 4; i++) clear_layer(layers[i], layer_width,
    layer_height);] *)
Definition clear_layers (layers : list (list Z)) (layer_width layer_height : Z)
    : option (list (list Z)) :=
  for_range 4 0 (fun i ls =>
      l ← ls !! Z.to_nat i;
      l' ← clear_layer l layer_width layer_height;
      Some (<[Z.to_nat i := l']> ls))
    layers.

(** ** Renderer: [render_sprites], [render_background], [do_render]

    The render thread reads [ppu_regs_shadow], [vram] and [spram] and draws
    into the four layers.  The memories are taken as they are when a
    function is called: writes the CPU thread makes while a frame is drawn
    are outside this model.  Locals the source leaves uninitialised
    ([tempbuf], [char_buf], and the samples of every [vt_blit] call) are
    arguments, so each theorem holds for whatever they contain. *)

Definition reg_sp_seg_lsb : Z := 0x1A.
Definition reg_sp_seg_msb : Z := 0x1B.
Definition reg_sp_ctrl : Z := 0x18.

Definition reg_bkg_x : list Z := [0x10; 0x14].
Definition reg_bkg_y : list Z := [0x11; 0x15].
Definition reg_bkg_ctrl1 : list Z := [0x12; 0x16].
Definition reg_bkg_ctrl2 : list Z := [0x13; 0x17].
Definition reg_bkg_pal_sel : Z := 0x0F.
Definition reg_bkg_seg_lsb : list Z := [0x1C; 0x1E].
Definition reg_bkg_seg_msb : list Z := [0x1D; 0x1F].

(** [for (int i = i0; i < stop; i += step) body] for a positive [step] the
    body does not change: the body runs for [i0], [i0 + step], ... below
    [stop]. *)
Definition for_step {St : Type} (i0 stop step : Z) (body : Z -> St -> option St) (s : St)
    : option St :=
  for_range (Z.to_nat ((stop - i0 + step - 1) / step)) 0 (fun k => body (i0 + k * step)) s.

(** [mem + off]: what a pointer into an array reaches at indices from 0. *)
Definition at_offset (mem : list Z) (off : Z) : list Z := drop (Z.to_nat off) mem.

(** [(BkgScrollMode)v] *)
Definition scroll_of (v : Z) : option BkgScrollMode :=
  if v =? 0 then Some SCROLL_FIX
  else if v =? 1 then Some SCROLL_H
  else if v =? 2 then Some SCROLL_V
  else if v =? 3 then Some SCROLL_4P
  else None.

(** The [switch (bkx_clr)] of [render_background]; it has no default, so any
    other value would leave [fmt] unset. *)
Definition fmt_of (bkx_clr : Z) : option ColourMode :=
  if bkx_clr =? 0 then Some IDX_4
  else if bkx_clr =? 1 then Some IDX_16
  else if bkx_clr =? 2 then Some IDX_64
  else if bkx_clr =? 3 then Some IDX_256
  else None.

(** [pal_bank] of [render_background], lines 393-404. *)
Definition tile_pal_bank (bkx_pal : bool) (fmt : ColourMode) (ctrl2 cell_pal_bk : Z) : Z :=
  if bkx_pal then
    to_u8 (match fmt with
           | IDX_16 => cell_pal_bk
           | IDX_64 => Z.shiftr cell_pal_bk 2
           | _ => 0
           end)
  else
    to_u8 (match fmt with
           | IDX_16 => Z.lor (Z.land (Z.shiftr ctrl2 4) 0x03) (Z.shiftr cell_pal_bk 2)
           | IDX_64 => Z.shiftr cell_pal_bk 2
           | _ => 0
           end).

(** [uint16_t palette_offset], lines 408-411. *)
Definition tile_palette_offset (fmt : ColourMode) (pal_bank : Z) : Z :=
  to_u16 (match fmt with
          | IDX_16 => pal_bank * 32
          | IDX_64 => pal_bank * 128
          | _ => 0
          end).

Section Render.

Variable read_mem_physical : Z -> Z.
Variables (ppu_regs_shadow vram spram : list Z) (layer_width layer_height : Z).

(** [ppu_regs_shadow[table[idx]]] *)
Definition shadow_reg (table : list Z) (idx : Z) : option Z :=
  r ← load table idx; load ppu_regs_shadow r.

(** One turn of the loop of [render_sprites]: entry [idx] of [spram].  The
    state is [tempbuf] and the layers; [junk] is what the samples of the
    [vt_blit] call hold before their first assignment. *)
Definition render_sprite (spalsel : bool) (sp_width sp_height sp_seg : Z)
    (junk : Z * Z) (idx : Z) (st : list Z * list (list Z))
    : option (list Z * list (list Z)) :=
  let spdata := 8 * idx in
  d1 ← load spram (spdata + 1);
  d0 ← load spram (spdata + 0);
  let vector := to_u16 (Z.lor (Z.shiftl (Z.land d1 0x0F) 8) d0) in
  if vector =? 0 then Some st
  else
    d3 ← load spram (spdata + 3);
    let layer := Z.land (Z.shiftr d3 3) 0x03 in
    let palette := Z.land (Z.shiftr d1 4) 0x0F in
    d5 ← load spram (spdata + 5);
    let psel := get_bit d5 1 in
    d2 ← load spram (spdata + 2);
    let x := d2 in
    let x := if get_bit d3 0 then x - 256 else x in
    d4 ← load spram (spdata + 4);
    let y := d4 in
    let y := if get_bit d5 0 then y - 256 else y in
    tempbuf ← get_char_data read_mem_physical sp_seg vector sp_width sp_height
                IDX_16 false (fst st);
    let pal0 := if spalsel || negb psel
                then Some (at_offset vram (0x1E00 + 32 * palette)) else None in
    let pal1 := if spalsel || psel
                then Some (at_offset vram (0x1C00 + 32 * palette)) else None in
    l ← snd st !! Z.to_nat layer;
    l' ← vt_blit sp_width sp_height tempbuf layer_width layer_height layer_width
           x y l IDX_16 pal0 pal1 (fst junk) (snd junk);
    Some (tempbuf, <[Z.to_nat layer := l']> (snd st)).

(** [static void render_sprites()] *)
Definition render_sprites (tempbuf : list Z) (junk : Z -> Z * Z) (layers : list (list Z))
    : option (list (list Z)) :=
  ctrl ← load ppu_regs_shadow reg_sp_ctrl;
  let sp_en := get_bit ctrl 2 in
  if negb sp_en then Some layers
  else
    let spalsel := get_bit ctrl 3 in
    let sp_size := Z.land ctrl 0x03 in
    let sp_width := if (sp_size =? 2) || (sp_size =? 3) then 16 else 8 in
    let sp_height := if (sp_size =? 1) || (sp_size =? 3) then 16 else 8 in
    msb ← load ppu_regs_shadow reg_sp_seg_msb;
    lsb ← load ppu_regs_shadow reg_sp_seg_lsb;
    let sp_seg := to_u16 (Z.lor (Z.shiftl (Z.land msb 0x0F) 8) lsb) in
    st ← for_down 240 239
           (fun idx => render_sprite spalsel sp_width sp_height sp_seg (junk idx) idx)
           (tempbuf, layers);
    Some (snd st).

(** The registers [render_background] reads before its loops. *)
Record bkg_setup : Type := mk_bkg {
  bk_pal : bool;
  bk_fmt : ColourMode;
  bk_x8 : bool;
  bk_y8 : bool;
  bk_render_pal0 : bool;
  bk_render_pal1 : bool;
  bk_xoff : Z;
  bk_yoff : Z;
  bk_bmp : bool;
  bk_scrl_mode : BkgScrollMode;
  bk_tile_height : Z;
  bk_tile_width : Z;
  bk_y0 : Z;
  bk_x0 : Z;
  bk_seg : Z
}.

(** Lines 316-370 of [render_background], once the layer is known to be
    enabled. *)
Definition bkg_registers (idx : Z) : option bkg_setup :=
  ctrl2 ← shadow_reg reg_bkg_ctrl2 idx;
  let bkx_pal := get_bit ctrl2 6 in
  hclr ← (if idx =? 0 then c ← shadow_reg reg_bkg_ctrl1 idx; Some (get_bit c 4)
          else Some false);
  let bkx_clr := Z.land (Z.shiftr ctrl2 2) 0x03 in
  fmt ← (if hclr : bool then Some ARGB1555 else fmt_of bkx_clr);
  ctrl1 ← shadow_reg reg_bkg_ctrl1 idx;
  let x8 := get_bit ctrl1 0 in
  let y8 := get_bit ctrl1 1 in
  pal_sel ← load ppu_regs_shadow reg_bkg_pal_sel;
  let render_pal0 := get_bit pal_sel (0 + 2 * idx) in
  let render_pal1 := get_bit pal_sel (1 + 2 * idx) in
  xoff ← shadow_reg reg_bkg_x idx;
  let xoff := if x8 then xoff - 256 else xoff in
  yoff ← shadow_reg reg_bkg_y idx;
  let yoff := if y8 then yoff - 256 else yoff in
  let bmp := if idx =? 0 then get_bit ctrl2 1 else false in
  scrl_mode ← scroll_of (Z.land (Z.shiftr ctrl1 2) 0x03);
  let bkx_size := get_bit ctrl2 0 in
  let tile_height := if bmp then 1 else if bkx_size then 16 else 8 in
  let tile_width := if bmp then 256 else if bkx_size then 16 else 8 in
  let y0 := if (match scrl_mode with SCROLL_V | SCROLL_4P => true | _ => false end)
               && negb bmp then -256 else 0 in
  let x0 := if (match scrl_mode with SCROLL_H | SCROLL_4P => true | _ => false end)
               && negb bmp then -256 else 0 in
  msb ← shadow_reg reg_bkg_seg_msb idx;
  lsb ← shadow_reg reg_bkg_seg_lsb idx;
  let seg := to_u16 (Z.lor (Z.shiftl (Z.land msb 0x0F) 8) lsb) in
  Some (mk_bkg bkx_pal fmt x8 y8 render_pal0 render_pal1 xoff yoff bmp scrl_mode
               tile_height tile_width y0 x0 seg).

(** The body of the two loops of [render_background]: the tile at [(x, y)].
    The state is [char_buf] and the layers. *)
Definition render_tile (idx : Z) (b : bkg_setup) (junk : Z * Z) (x y : Z)
    (st : list Z * list (list Z)) : option (list Z * list (list Z)) :=
  let lx := x + bk_xoff b in
  let ly := y + bk_yoff b in
  let tx := Z.quot (x - bk_x0 b) (bk_tile_width b) in
  let ty := Z.quot (y - bk_y0 b) (bk_tile_height b) in
  '(tile_addr, tile_mapped) ←
    get_tile_addr tx ty (bk_y8 b) (bk_x8 b) (bk_tile_width b) (bk_bmp b) idx (bk_scrl_mode b);
  if negb tile_mapped then Some st
  else
    hi ← load vram (tile_addr + 1);
    lo ← load vram tile_addr;
    let cell := to_u16 (Z.lor (Z.shiftl hi 8) lo) in
    let vector := to_u16 (Z.land cell 0xFFF) in
    let cell_pal_bk := to_u8 (Z.land (Z.shiftr cell 12) 0x0F) in
    if vector =? 0 then Some st
    else
      ctrl2 ← shadow_reg reg_bkg_ctrl2 idx;
      let fmt := bk_fmt b in
      let depth :=
        if bk_pal b then to_u8 (Z.land (Z.shiftr ctrl2 4) 0x03)
        else to_u8 (Z.land cell_pal_bk 0x03) in
      let pal_bank := tile_pal_bank (bk_pal b) fmt ctrl2 cell_pal_bk in
      char_buf ← get_char_data read_mem_physical (bk_seg b) vector
                   (bk_tile_width b) (bk_tile_height b) fmt (bk_bmp b) (fst st);
      let palette_offset := tile_palette_offset fmt pal_bank in
      let pal0 := if bk_render_pal0 b
                  then Some (at_offset vram (0x1E00 + palette_offset)) else None in
      let pal1 := if bk_render_pal1 b
                  then Some (at_offset vram (0x1C00 + palette_offset)) else None in
      let layer := Z.land depth 0x03 in
      l ← snd st !! Z.to_nat layer;
      l' ← vt_blit (bk_tile_width b) (bk_tile_height b) char_buf
             layer_width layer_height layer_width lx ly l fmt pal0 pal1
             (fst junk) (snd junk);
      Some (char_buf, <[Z.to_nat layer := l']> (snd st)).

(** [static void render_background(int idx)] *)
Definition render_background (idx : Z) (char_buf : list Z) (junk : Z -> Z -> Z * Z)
    (layers : list (list Z)) : option (list (list Z)) :=
  ctrl2 ← shadow_reg reg_bkg_ctrl2 idx;
  let en := get_bit ctrl2 7 in
  if negb en then Some layers
  else
    b ← bkg_registers idx;
    let yn := 256 in
    let xn := 256 in
    st ← for_step (bk_y0 b) yn (bk_tile_height b) (fun y =>
           for_step (bk_x0 b) xn (bk_tile_width b) (fun x =>
             render_tile idx b (junk x y) x y))
         (char_buf, layers);
    Some (snd st).

End Render.

(** What a frame leaves: the shadow registers, the layers, the output buffer
    and the flag [render_done]. *)
Record frame : Type := mk_frame {
  f_shadow : list Z;
  f_layers : list (list Z);
  f_obuf : list Z;
  f_render_done : bool
}.

(** The contents of the uninitialised locals of one frame: [tempbuf], the
    [char_buf] of each background, and the samples of each [vt_blit] call
    (by sprite, and by background and tile). *)
Record stale : Type := mk_stale {
  s_tempbuf : list Z;
  s_char_buf : Z -> list Z;
  s_sprite : Z -> Z * Z;
  s_tile : Z -> Z -> Z -> Z * Z
}.

(** [static void do_render()]; the arrays the globals point to are
    arguments. *)
Definition do_render (read_mem_physical : Z -> Z) (st : ppu_state)
    (layer_width layer_height out_width out_height : Z)
    (layers : list (list Z)) (obuf : list Z) (u : stale) : option frame :=
  let ppu_regs_shadow := ppu_regs st in
  layers ← clear_layers layers layer_width layer_height;
  layers ← for_down 2 1 (fun i layers =>
              render_background read_mem_physical ppu_regs_shadow (vram st)
                layer_width layer_height i (s_char_buf u i) (s_tile u i) layers)
            layers;
  layers ← render_sprites read_mem_physical ppu_regs_shadow (vram st) (spram st)
             layer_width layer_height (s_tempbuf u) (s_sprite u) layers;
  obuf ← merge_layers ppu_regs_shadow layers layer_width out_width out_height obuf false;
  Some (mk_frame ppu_regs_shadow layers obuf true).

(** Four layers, each of 32-bit cells and with room for [layer_height] rows
    of [layer_width] cells. *)
Definition layers_wf (layer_width layer_height : Z) (layers : list (list Z)) : Prop :=
  length layers = 4%nat /\
  Forall (fun l : list Z =>
            layer_height * layer_width <= Z.of_nat (length l) /\ Forall is_u32 l) layers.

(** The samples a [vt_blit] call starts with are 16-bit values. *)
Definition junk_wf (junk : Z * Z) : Prop := is_u16 (fst junk) /\ is_u16 (snd junk).

(** The invariant of both render loops, against the layers [ls0] at entry
    and a character buffer of [n] bytes. *)
Definition render_inv (layer_width layer_height n : Z) (ls0 : list (list Z))
    (st : list Z * list (list Z)) : Prop :=
  Z.of_nat (length (fst st)) = n /\ Forall is_u8 (fst st) /\
  layers_wf layer_width layer_height (snd st) /\ length <$> snd st = length <$> ls0.

(** Whether [render_background] reaches the [assert(false)] of
    [get_tile_addr]: the layer is enabled, not in bitmap mode, its tiles are
    8 pixels wide and its scroll mode is [SCROLL_4P]. *)
Definition bkg_stops (ppu_regs_shadow : list Z) (idx : Z) : bool :=
  match shadow_reg ppu_regs_shadow reg_bkg_ctrl1 idx,
        shadow_reg ppu_regs_shadow reg_bkg_ctrl2 idx with
  | Some ctrl1, Some ctrl2 =>
      get_bit ctrl2 7 && negb (get_bit ctrl2 0) && negb ((idx =? 0) && get_bit ctrl2 1)
      && (Z.land (Z.shiftr ctrl1 2) 0x03 =? 3)
  | _, _ => false
  end.

(** The uninitialised locals have their declared sizes and types. *)
Definition stale_wf (u : stale) : Prop :=
  Z.of_nat (length (s_tempbuf u)) = 256 /\ Forall is_u8 (s_tempbuf u) /\
  (forall i, Z.of_nat (length (s_char_buf u i)) = 512 /\ Forall is_u8 (s_char_buf u i)) /\
  (forall i, junk_wf (s_sprite u i)) /\
  (forall i x y, junk_wf (s_tile u i x y)).

(** * Properties *)

(** ** Fixed-width integers *)

Module IntFacts.

Lemma land_ones_mod (z n : Z) : 0 <= n -> Z.land z (2 ^ n - 1) = z mod 2 ^ n.
Proof.
  intros Hn. rewrite <- Z.land_ones by assumption.
  now rewrite Z.ones_equiv, Z.sub_1_r.
Qed.

Lemma to_u8_mod z : to_u8 z = z mod 2 ^ 8.
Proof. exact (land_ones_mod z 8 ltac:(lia)). Qed.

Lemma to_u16_mod z : to_u16 z = z mod 2 ^ 16.
Proof. exact (land_ones_mod z 16 ltac:(lia)). Qed.

Lemma to_u32_mod z : to_u32 z = z mod 2 ^ 32.
Proof. exact (land_ones_mod z 32 ltac:(lia)). Qed.

Lemma to_u16_range z : is_u16 (to_u16 z).
Proof. rewrite to_u16_mod. unfold is_u16. apply Z.mod_pos_bound. lia. Qed.

Lemma to_u16_id z : is_u16 z -> to_u16 z = z.
Proof. intros H. rewrite to_u16_mod. now apply Z.mod_small. Qed.

Lemma to_u32_id z : is_u32 z -> to_u32 z = z.
Proof. intros H. rewrite to_u32_mod. now apply Z.mod_small. Qed.

(** A high part shifted above a low part that fits below it: the two share
    no bit, so the bitwise or is the sum. *)
Lemma land_shiftl_low (hi lo n : Z) :
  0 <= n -> 0 <= lo < 2 ^ n -> Z.land (Z.shiftl hi n) lo = 0.
Proof.
  intros Hn Hlo. apply Z.bits_inj'. intros i Hi.
  rewrite Z.land_spec, Z.bits_0.
  destruct (Z.ltb_spec i n) as [Hlt | Hge].
  - now rewrite Z.shiftl_spec_low.
  - replace (Z.testbit lo i) with false; [apply andb_false_r |].
    symmetry. destruct (Z.eq_dec lo 0) as [-> | Hnz]; [apply Z.bits_0 |].
    apply Z.bits_above_log2; [lia |].
    apply Z.log2_lt_pow2; [lia |].
    apply Z.lt_le_trans with (2 ^ n); [lia |].
    apply Z.pow_le_mono_r; lia.
Qed.

Lemma lor_shiftl_add (hi lo n : Z) :
  0 <= n -> 0 <= lo < 2 ^ n -> Z.lor (Z.shiftl hi n) lo = hi * 2 ^ n + lo.
Proof.
  intros Hn Hlo.
  rewrite <- Z.shiftl_mul_pow2 by assumption.
  pose proof (land_shiftl_low hi lo n Hn Hlo) as H0.
  rewrite <- Z.lxor_lor by exact H0.
  symmetry. now apply Z.add_nocarry_lxor.
Qed.

Lemma tst_false_iff (x n : Z) :
  0 <= n -> tst x (2 ^ n) = false <-> Z.testbit x n = false.
Proof.
  intros Hn. unfold tst. rewrite negb_false_iff, Z.eqb_eq. split.
  - intros H. apply (f_equal (fun z => Z.testbit z n)) in H.
    rewrite Z.land_spec, Z.pow2_bits_eqb, Z.eqb_refl, andb_true_r, Z.bits_0 in H; trivial.
  - intros H. apply Z.bits_inj'. intros i Hi.
    rewrite Z.land_spec, Z.pow2_bits_eqb, Z.bits_0 by assumption.
    destruct (Z.eqb_spec n i) as [-> | Hne]; [now rewrite H | apply andb_false_r].
Qed.

Lemma tst_bit15 (x : Z) : tst x 0x8000 = Z.testbit x 15.
Proof.
  destruct (tst x 0x8000) eqn:E; symmetry.
  - apply not_false_iff_true. intros H.
    apply (tst_false_iff x 15) in H; [| lia]. change (2 ^ 15) with 0x8000 in H. congruence.
  - now apply (tst_false_iff x 15).
Qed.

Lemma tst_bit31 (x : Z) : tst x 0x80000000 = Z.testbit x 31.
Proof.
  destruct (tst x 0x80000000) eqn:E; symmetry.
  - apply not_false_iff_true. intros H.
    apply (tst_false_iff x 31) in H; [| lia]. change (2 ^ 31) with 0x80000000 in H. congruence.
  - now apply (tst_false_iff x 31).
Qed.

Lemma land_7_mod z : Z.land z 0x07 = z mod 8.
Proof. exact (land_ones_mod z 3 ltac:(lia)). Qed.

Lemma land_1F_mod z : Z.land z 0x1F = z mod 32.
Proof. exact (land_ones_mod z 5 ltac:(lia)). Qed.

Lemma land_FF_mod z : Z.land z 0xFF = z mod 256.
Proof. exact (land_ones_mod z 8 ltac:(lia)). Qed.

Lemma land_FFFF_mod z : Z.land z 0xFFFF = z mod 65536.
Proof. exact (land_ones_mod z 16 ltac:(lia)). Qed.

Lemma land_1F_range z : 0 <= Z.land z 0x1F < 32.
Proof. rewrite land_1F_mod. apply Z.mod_pos_bound. lia. Qed.

Lemma testbit_small (z n : Z) : 0 <= n -> 0 <= z < 2 ^ n -> Z.testbit z n = false.
Proof.
  intros Hn Hz. apply Z.testbit_false; [assumption |].
  now rewrite Z.div_small.
Qed.

Lemma to_u8_range z : is_u8 (to_u8 z).
Proof. rewrite to_u8_mod. unfold is_u8. apply Z.mod_pos_bound. lia. Qed.

Lemma to_u8_id z : is_u8 z -> to_u8 z = z.
Proof. intros H. rewrite to_u8_mod. now apply Z.mod_small. Qed.

Lemma land_range (z k : Z) : 0 <= k -> 0 <= Z.land z (2 ^ k - 1) < 2 ^ k.
Proof.
  intros Hk. rewrite land_ones_mod by assumption.
  apply Z.mod_pos_bound. apply Z.pow_pos_nonneg; lia.
Qed.

Lemma land_lnot_7 (a : Z) : Z.land a (Z.lnot 0x07) = 8 * (a / 8).
Proof.
  rewrite <- Z.ldiff_land. change 7 with (Z.ones 3).
  rewrite Z.ldiff_ones_r by lia.
  rewrite Z.shiftl_mul_pow2, Z.shiftr_div_pow2 by lia. change (2 ^ 3) with 8. lia.
Qed.

End IntFacts.

Import IntFacts.

(** ** Buffers and loops *)

(** Run one bind of the option monad whose first computation is known. *)
Ltac bind_with H := rewrite H; cbn [mbind option_bind].

Lemma store_Some (l : list Z) (i v : Z) :
  0 <= i < Z.of_nat (length l) -> store l i v = Some (<[Z.to_nat i := v]> l).
Proof.
  intros [H0 H1]. unfold store.
  apply Z.leb_le in H0. apply Z.ltb_lt in H1. now rewrite H0, H1.
Qed.

Lemma store_inv (l l' : list Z) (i v : Z) :
  store l i v = Some l' ->
  0 <= i < Z.of_nat (length l) /\ l' = <[Z.to_nat i := v]> l.
Proof.
  unfold store. destruct (0 <=? i) eqn:E0; [| discriminate].
  destruct (i <? Z.of_nat (length l)) eqn:E1; [| discriminate].
  simpl. intros [= <-]. apply Z.leb_le in E0. apply Z.ltb_lt in E1. auto.
Qed.

Lemma load_lookup (l : list Z) (i : Z) : 0 <= i -> load l i = l !! Z.to_nat i.
Proof. intros H. unfold load. apply Z.leb_le in H. now rewrite H. Qed.

Lemma load_Some (l : list Z) (i : Z) :
  0 <= i < Z.of_nat (length l) -> is_Some (load l i).
Proof.
  intros [H0 H1]. rewrite load_lookup by assumption.
  apply lookup_lt_is_Some. lia.
Qed.

(** A counting loop that stores [f i] at index [i]: it fills exactly the
    indices it visits. *)
Lemma for_range_store (f : Z -> Z) (n : nat) (i0 : Z) (buf : list Z) :
  0 <= i0 -> i0 + Z.of_nat n <= Z.of_nat (length buf) ->
  exists buf',
    for_range n i0 (fun i b => store b i (f i)) buf = Some buf' /\
    length buf' = length buf /\
    (forall k, i0 <= k < i0 + Z.of_nat n -> buf' !! Z.to_nat k = Some (f k)) /\
    (forall k : nat, ~ (i0 <= Z.of_nat k < i0 + Z.of_nat n) -> buf' !! k = buf !! k).
Proof.
  revert i0 buf. induction n as [| n IH]; intros i0 buf H0 Hlen.
  - exists buf. repeat split; trivial. intros k Hk. lia.
  - cbn [for_range]. rewrite store_Some by lia. cbn.
    destruct (IH (i0 + 1) (<[Z.to_nat i0 := f i0]> buf)) as (buf' & Hrun & Hl & Hin & Hout).
    { lia. } { rewrite length_insert. lia. }
    exists buf'. split; [exact Hrun |]. rewrite length_insert in Hl.
    split; [exact Hl |]. split.
    + intros k Hk. destruct (Z.eq_dec k i0) as [-> | Hne].
      * rewrite Hout by lia. apply list_lookup_insert_eq. lia.
      * apply Hin. lia.
    + intros k Hk. rewrite Hout by lia. apply list_lookup_insert_ne. lia.
Qed.

(** ** Colour blending *)

Lemma blend_argb1555_transparent_a (a b : Z) :
  Z.testbit a 15 = true -> blend_argb1555 a b = b.
Proof. intros H. unfold blend_argb1555. now rewrite tst_bit15, H. Qed.

Lemma blend_argb1555_transparent_b (a b : Z) :
  Z.testbit a 15 = false -> Z.testbit b 15 = true -> blend_argb1555 a b = a.
Proof. intros Ha Hb. unfold blend_argb1555. now rewrite !tst_bit15, Ha, Hb. Qed.

(** For two solid operands the result is three 5-bit fields packed below
    bit 15, and the red one is the mean of the operands' red channels. *)
Lemma blend_argb1555_solid_shape (a b : Z) :
  Z.testbit a 15 = false -> Z.testbit b 15 = false ->
  exists r g bl, 0 <= r < 32 /\ 0 <= g < 32 /\ 0 <= bl < 32 /\
    r = (chan_r a + chan_r b) / 2 /\
    blend_argb1555 a b = r + g * 32 + bl * 1024.
Proof.
  intros Ha Hb. unfold blend_argb1555. rewrite !tst_bit15, Ha, Hb.
  set (r := Z.land ((Z.land a 31 + Z.land b 31) / 2) 31).
  set (g := Z.land _ 31). set (bl := Z.land _ 31).
  exists r, g, bl.
  pose proof (land_1F_range ((Z.land a 31 + Z.land b 31) / 2)) as Hr. fold r in Hr.
  pose proof (land_1F_range
    ((Z.land (Z.shiftr a 5) 31 + Z.land (Z.shiftr b 5) 1) / 2)) as Hg. fold g in Hg.
  pose proof (land_1F_range
    ((Z.land (Z.shiftr a 11) 31 + Z.land (Z.shiftr b 11) 31) / 2)) as Hbl. fold bl in Hbl.
  repeat split; try lia.
  - unfold r, chan_r. rewrite (land_1F_mod (_ / 2)). apply Z.mod_small.
    pose proof (land_1F_range a). pose proof (land_1F_range b).
    split; [apply Z.div_pos; lia | apply Z.div_lt_upper_bound; lia].
  - rewrite Z.lor_0_l. rewrite (to_u16_id r) by (unfold is_u16; lia).
    rewrite (Z.lor_comm r), lor_shiftl_add by lia.
    rewrite (to_u16_id (g * 2 ^ 5 + r)) by (unfold is_u16; lia).
    rewrite (Z.lor_comm _ (Z.shiftl bl 10)), lor_shiftl_add by lia.
    rewrite to_u16_id by (unfold is_u16; lia). lia.
Qed.

Lemma blend_argb1555_solid (a b : Z) :
  Z.testbit a 15 = false -> Z.testbit b 15 = false ->
  Z.testbit (blend_argb1555 a b) 15 = false.
Proof.
  intros Ha Hb.
  destruct (blend_argb1555_solid_shape a b Ha Hb) as (r & g & bl & Hr & Hg & Hbl & _ & ->).
  apply testbit_small; lia.
Qed.

Lemma blend_argb1555_red (a b : Z) :
  Z.testbit a 15 = false -> Z.testbit b 15 = false ->
  chan_r (blend_argb1555 a b) = (chan_r a + chan_r b) / 2.
Proof.
  intros Ha Hb.
  destruct (blend_argb1555_solid_shape a b Ha Hb) as (r & g & bl & Hr & Hg & Hbl & <- & ->).
  unfold chan_r at 1. rewrite land_1F_mod.
  replace (r + g * 32 + bl * 1024) with (r + (g + bl * 32) * 32) by lia.
  rewrite Z.mod_add by lia. now apply Z.mod_small.
Qed.

(** C1. [blend_argb1555] is not the per-channel mean of two solid colours:
    its green term masks the second operand with [0x1] and its blue term
    shifts both operands by 11.  With [a = 0x0000] and [b = 0x03E0] (green
    31) the mean has green 15, [0x01E0], and the function returns 0; with
    [a = b = 0x0400] (blue 1) the mean is [0x0400] and the function
    returns 0. *)
Theorem blend_argb1555_green_blue_defect :
  blend_argb1555 0x0000 0x03E0 = 0x0000 /\ mean_argb1555 0x0000 0x03E0 = 0x01E0 /\
  chan_g (blend_argb1555 0x0000 0x03E0) <> (chan_g 0x0000 + chan_g 0x03E0) / 2 /\
  blend_argb1555 0x0400 0x0400 = 0x0000 /\ mean_argb1555 0x0400 0x0400 = 0x0400 /\
  chan_b (blend_argb1555 0x0400 0x0400) <> (chan_b 0x0400 + chan_b 0x0400) / 2.
Proof. repeat split; try reflexivity; vm_compute; discriminate. Qed.

(** ** Character fetch *)

Lemma char_spacing_design (w h : Z) (fmt : ColourMode) (bmp : bool) :
  0 <= w -> 0 <= h ->
  char_spacing w h fmt bmp =
    match fmt with
    | ARGB1555 => 16 * 16
    | _ => (if bmp then 16 * 16 else w * h) * bpp_of fmt / 8
    end.
Proof.
  intros Hw Hh. unfold char_spacing.
  destruct fmt, bmp; cbn -[Z.mul Z.quot Z.div];
    try reflexivity; apply Z.quot_div_nonneg; nia.
Qed.

(** C2, as the code has it.  For a 12-bit segment and vector and tile
    dimensions up to 256, [get_char_data] fills [buf[0 .. len)] with the
    bytes at physical addresses [(seg << 13) + vector * spacing + i], where
    [len = w * h * bpp / 8] and the spacing in bytes is [16 * 16 = 256] for
    ARGB1555 (the texel count is scaled by 8/8 there, not by bpp/8),
    [16 * 16 * bpp / 8] for bitmap mode in an indexed format, and
    [w * h * bpp / 8] otherwise. *)
Theorem get_char_data_fetch (mem : Z -> Z) (seg vector w h : Z)
    (fmt : ColourMode) (bmp : bool) (buf : list Z) :
  0 <= seg < 2 ^ 12 -> 0 <= vector < 2 ^ 12 ->
  0 <= w <= 256 -> 0 <= h <= 256 ->
  w * h * bpp_of fmt / 8 <= Z.of_nat (length buf) ->
  let spacing :=
    match fmt with
    | ARGB1555 => 16 * 16
    | _ => (if bmp then 16 * 16 else w * h) * bpp_of fmt / 8
    end in
  exists buf',
    get_char_data mem seg vector w h fmt bmp buf = Some buf' /\
    length buf' = length buf /\
    (forall i, 0 <= i < w * h * bpp_of fmt / 8 ->
       buf' !! Z.to_nat i = Some (mem (Z.shiftl seg 13 + vector * spacing + i))) /\
    (forall k : nat, w * h * bpp_of fmt / 8 <= Z.of_nat k -> buf' !! k = buf !! k).
Proof.
  intros Hseg Hvec Hw Hh Hlen spacing.
  assert (Hbpp : 2 <= bpp_of fmt <= 16) by (destruct fmt; cbn; lia).
  assert (Hwh : 0 <= w * h <= 65536) by nia.
  assert (Hl : char_len w h fmt = w * h * bpp_of fmt / 8).
  { unfold char_len. apply Z.quot_div_nonneg; nia. }
  assert (Hl0 : 0 <= w * h * bpp_of fmt / 8 <= 131072).
  { split; [apply Z.div_pos; nia | apply Z.div_le_upper_bound; nia]. }
  assert (Hsp : 0 <= spacing <= 131072).
  { subst spacing. destruct fmt; try lia; destruct bmp; cbn -[Z.mul Z.div];
      (split; [apply Z.div_pos; nia | apply Z.div_le_upper_bound; nia]). }
  assert (Hpa : char_pa seg vector w h fmt bmp = Z.shiftl seg 13 + vector * spacing).
  { unfold char_pa. rewrite char_spacing_design by lia. fold spacing.
    apply to_u32_id. unfold is_u32. rewrite Z.shiftl_mul_pow2 by lia. nia. }
  unfold get_char_data. rewrite Hl, Hpa.
  destruct (for_range_store
              (fun i => mem (to_u32 (Z.shiftl seg 13 + vector * spacing + i)))
              (Z.to_nat (w * h * bpp_of fmt / 8)) 0 buf)
    as (buf' & Hrun & Hlen' & Hin & Hout); [lia | lia |].
  exists buf'. split; [exact Hrun |]. split; [exact Hlen' |]. split.
  - intros i Hi. rewrite Hin by lia. f_equal. f_equal.
    apply to_u32_id. unfold is_u32. rewrite Z.shiftl_mul_pow2 by lia. nia.
  - intros k Hk. apply Hout. lia.
Qed.

Lemma get_char_data_fetch_witness :
  exists buf',
    get_char_data (fun a => a mod 256) 3 2 16 16 ARGB1555 false
                  (replicate (Z.to_nat 512) 0) = Some buf' /\
    buf' !! Z.to_nat 5 = Some ((Z.shiftl 3 13 + 2 * (16 * 16) + 5) mod 256).
Proof.
  destruct (get_char_data_fetch (fun a => a mod 256) 3 2 16 16 ARGB1555 false
              (replicate (Z.to_nat 512) 0))
    as (buf' & Hrun & _ & Hin & _); [lia | lia | lia | lia | vm_compute; discriminate |].
  exists buf'. split; [exact Hrun |]. apply (Hin 5). vm_compute. split; [discriminate | reflexivity].
Defined.

(** C2, as the specification has it, fails for ARGB1555: a 16-bpp stride of
    [16 * 16 * 16 / 8 = 512] bytes puts vector 1 of segment 0 at address 512,
    and the code fetches it from address 256. *)
Lemma get_char_data_argb1555_stride :
  let mem := fun a => a / 256 in
  spec_pa 0 1 16 16 ARGB1555 false = 512 /\
  char_pa 0 1 16 16 ARGB1555 false = 256 /\
  (buf ← get_char_data mem 0 1 16 16 ARGB1555 false (replicate (Z.to_nat 512) 0);
   buf !! 0%nat) = Some (mem 256) /\
  mem 256 <> mem (spec_pa 0 1 16 16 ARGB1555 false).
Proof. repeat split; vm_compute; discriminate. Qed.

(** ** Frame pump *)

Lemma ppu_ticks_S (n : nat) (st : ppu_state) :
  ppu_ticks (S n) st = ppu_tick (ppu_ticks n st).
Proof. reflexivity. Qed.

Lemma ppu_tick_below (st : ppu_state) :
  0 <= ticks st -> ticks st + 1 < v_total -> ticks (ppu_tick st) = ticks st + 1.
Proof.
  intros H0 H1. unfold ppu_tick, with_ticks, with_render_ready, v_total in *. cbn.
  rewrite to_u32_id by (unfold is_u32; lia).
  destruct (Z.leb_spec 106392 (ticks st + 1)); [lia |].
  now destruct (ticks st + 1 =? vblank_len).
Qed.

Lemma ppu_tick_wrap (st : ppu_state) :
  ticks st + 1 = v_total -> ticks (ppu_tick st) = 0.
Proof.
  intros H. unfold ppu_tick, with_ticks. cbn. rewrite H. reflexivity.
Qed.

Lemma ppu_ticks_count (n : nat) (st : ppu_state) :
  ticks st = 0 -> Z.of_nat n < v_total -> ticks (ppu_ticks n st) = Z.of_nat n.
Proof.
  intros H0. induction n as [| n IH]; intros Hn.
  - exact H0.
  - rewrite ppu_ticks_S, ppu_tick_below; rewrite IH; lia.
Qed.

(** C9. From [ticks = 0], each of the first [v_total - 1 = 106391] calls of
    [ppu_tick] leaves [ticks] equal to the number of calls made, hence not
    zero; call number [v_total = 106392] sets it to 0.  [ppu_is_vblank] holds
    exactly when [0 <= ticks < 22036]. *)
Theorem ppu_tick_period (st : ppu_state) :
  ticks st = 0 ->
  (forall n, 0 < n < 106392 ->
     ticks (ppu_ticks (Z.to_nat n) st) = n /\ ticks (ppu_ticks (Z.to_nat n) st) <> 0) /\
  ticks (ppu_ticks (Z.to_nat 106392) st) = 0 /\
  (forall s, ppu_is_vblank s = true <-> 0 <= ticks s < 22036).
Proof.
  intros H0. split; [| split].
  - intros n Hn. rewrite ppu_ticks_count; unfold v_total; lia.
  - replace (Z.to_nat 106392) with (S (Z.to_nat 106391)) by lia.
    rewrite ppu_ticks_S. apply ppu_tick_wrap.
    rewrite ppu_ticks_count; unfold v_total; lia.
  - intros s. unfold ppu_is_vblank, vblank_start, vblank_len.
    rewrite andb_true_iff, Z.leb_le, Z.ltb_lt. reflexivity.
Qed.

Lemma ppu_tick_period_witness :
  ticks (ppu_ticks (Z.to_nat 106392) ppu_reset) = 0 /\
  ticks (ppu_ticks (Z.to_nat 22036) ppu_reset) = 22036.
Proof.
  destruct (ppu_tick_period ppu_reset eq_refl) as (Hn & Hw & _).
  split; [exact Hw | apply (Hn 22036); lia].
Defined.

(** ** Register port *)

Lemma wf_reg (st : ppu_state) (r : Z) :
  wf_state st -> 0 <= r < 256 ->
  exists v, load (ppu_regs st) r = Some v /\ is_u8 v.
Proof.
  intros (Hlen & Hall & _) Hr.
  destruct (load_Some (ppu_regs st) r) as [v Hv]; [lia |].
  exists v. split; [exact Hv |].
  rewrite load_lookup in Hv by lia.
  exact (Forall_lookup_1 _ _ _ _ Hall Hv).
Qed.

(** An address window built from a masked high register and a low
    register. *)
Lemma window_value (msb lsb k : Z) :
  0 <= k <= 8 -> is_u8 lsb ->
  to_u16 (Z.lor (Z.shiftl (Z.land msb (2 ^ k - 1)) 8) lsb) = (msb mod 2 ^ k) * 256 + lsb.
Proof.
  intros Hk Hl. unfold is_u8 in Hl.
  rewrite land_ones_mod by lia.
  rewrite lor_shiftl_add by lia.
  pose proof (Z.mod_pos_bound msb (2 ^ k) ltac:(apply Z.pow_pos_nonneg; lia)) as Hm.
  assert (2 ^ k <= 2 ^ 8) by (apply Z.pow_le_mono_r; lia).
  apply to_u16_id. unfold is_u16. change (2 ^ 8) with 256 in *. nia.
Qed.

Lemma spram_window_value (st : ppu_state) :
  wf_state st ->
  exists msb lsb,
    load (ppu_regs st) reg_spram_addr_msb = Some msb /\
    load (ppu_regs st) reg_spram_addr_lsb = Some lsb /\ is_u8 lsb /\
    spram_window (ppu_regs st) = Some ((msb mod 8) * 256 + lsb).
Proof.
  intros Hwf.
  destruct (wf_reg st reg_spram_addr_msb Hwf) as (msb & Hm & _); [unfold reg_spram_addr_msb; lia |].
  destruct (wf_reg st reg_spram_addr_lsb Hwf) as (lsb & Hl & Hlu); [unfold reg_spram_addr_lsb; lia |].
  exists msb, lsb. split; [exact Hm |]. split; [exact Hl |]. split; [exact Hlu |].
  unfold spram_window. rewrite Hm, Hl. cbn. f_equal.
  exact (window_value msb lsb 3 ltac:(lia) Hlu).
Qed.

Lemma vram_window_value (st : ppu_state) :
  wf_state st ->
  exists msb lsb,
    load (ppu_regs st) reg_vram_addr_msb = Some msb /\
    load (ppu_regs st) reg_vram_addr_lsb = Some lsb /\ is_u8 lsb /\
    vram_window (ppu_regs st) = Some ((msb mod 32) * 256 + lsb).
Proof.
  intros Hwf.
  destruct (wf_reg st reg_vram_addr_msb Hwf) as (msb & Hm & _); [unfold reg_vram_addr_msb; lia |].
  destruct (wf_reg st reg_vram_addr_lsb Hwf) as (lsb & Hl & Hlu); [unfold reg_vram_addr_lsb; lia |].
  exists msb, lsb. split; [exact Hm |]. split; [exact Hl |]. split; [exact Hlu |].
  unfold vram_window. rewrite Hm, Hl. cbn. f_equal.
  exact (window_value msb lsb 5 ltac:(lia) Hlu).
Qed.

Lemma spram_window_range (st : ppu_state) :
  wf_state st -> exists a, spram_window (ppu_regs st) = Some a /\ 0 <= a < 2048.
Proof.
  intros Hwf. destruct (spram_window_value st Hwf) as (msb & lsb & _ & _ & Hl & ->).
  eexists. split; [reflexivity |]. unfold is_u8 in Hl.
  pose proof (Z.mod_pos_bound msb 8). lia.
Qed.

Lemma vram_window_range (st : ppu_state) :
  wf_state st -> exists a, vram_window (ppu_regs st) = Some a /\ 0 <= a < 8192.
Proof.
  intros Hwf. destruct (vram_window_value st Hwf) as (msb & lsb & _ & _ & Hl & ->).
  eexists. split; [reflexivity |]. unfold is_u8 in Hl.
  pose proof (Z.mod_pos_bound msb 32). lia.
Qed.

(** Writing the two address registers [hi] and [lo] of a window. *)
Lemma store_pair (regs : list Z) (hi lo vh vl : Z) :
  Z.of_nat (length regs) = 256 -> 0 <= hi < 256 -> 0 <= lo < 256 -> hi <> lo ->
  exists regs1 regs',
    store regs hi vh = Some regs1 /\ store regs1 lo vl = Some regs' /\
    length regs' = length regs /\
    load regs' hi = Some vh /\ load regs' lo = Some vl /\
    (forall r, r <> hi -> r <> lo -> load regs' r = load regs r) /\
    (Forall is_u8 regs -> is_u8 vh -> is_u8 vl -> Forall is_u8 regs').
Proof.
  intros Hlen Hhi Hlo Hne.
  exists (<[Z.to_nat hi := vh]> regs), (<[Z.to_nat lo := vl]> (<[Z.to_nat hi := vh]> regs)).
  split; [apply store_Some; lia |].
  split; [apply store_Some; rewrite length_insert; lia |]. rewrite !length_insert.
  split; [reflexivity |]. split; [| split; [| split]].
  - rewrite load_lookup by lia.
    rewrite list_lookup_insert_ne by lia. apply list_lookup_insert_eq. lia.
  - rewrite load_lookup by lia. apply list_lookup_insert_eq. rewrite length_insert. lia.
  - intros r Hr1 Hr2. unfold load. destruct (0 <=? r) eqn:E; [| reflexivity].
    apply Z.leb_le in E. rewrite !list_lookup_insert_ne by lia. reflexivity.
  - intros Hall Hvh Hvl. apply Forall_insert; [apply Forall_insert |]; assumption.
Qed.

Lemma split_window (n k : Z) :
  0 <= k -> ((n / 256) mod 2 ^ k) * 256 + n mod 256 = n mod (256 * 2 ^ k).
Proof.
  intros Hk. assert (0 < 2 ^ k) by (apply Z.pow_pos_nonneg; lia).
  rewrite Z.rem_mul_r by lia. lia.
Qed.

(** The window rebuilt from address registers that hold the two parts of [n]. *)
Lemma window_of_parts (n k : Z) :
  0 <= k <= 8 ->
  to_u16 (Z.lor (Z.shiftl (Z.land (to_u8 (Z.land (Z.shiftr n 8) (2 ^ k - 1))) (2 ^ k - 1)) 8)
                (to_u8 (Z.land n 0xFF)))
  = n mod (256 * 2 ^ k).
Proof.
  intros Hk. assert (0 < 2 ^ k) by (apply Z.pow_pos_nonneg; lia).
  assert (2 ^ k <= 2 ^ 8) by (apply Z.pow_le_mono_r; lia).
  rewrite (land_ones_mod (Z.shiftr n 8)) by lia.
  rewrite land_FF_mod, !to_u8_mod, Z.shiftr_div_pow2 by lia.
  change (2 ^ 8) with 256 in *.
  pose proof (Z.mod_pos_bound (n / 256) (2 ^ k) ltac:(lia)).
  pose proof (Z.mod_pos_bound n 256 ltac:(lia)).
  rewrite (Z.mod_small (_ mod 2 ^ k) 256) by lia.
  rewrite (Z.mod_small (n mod 256) 256) by lia.
  rewrite window_value by (unfold is_u8; change (2 ^ 8) with 256; lia).
  rewrite Z.mod_mod by lia. apply split_window. lia.
Qed.

Lemma spec_spram_next_code (a : Z) :
  0 <= a < 2048 ->
  (if 6 <=? Z.land (to_u16 (a + 1)) 0x07
   then to_u16 (to_u16 (Z.land (to_u16 (a + 1)) (Z.lnot 0x07)) + 8)
   else to_u16 (a + 1)) = spec_spram_next a.
Proof.
  intros Ha. unfold spec_spram_next. cbv zeta.
  rewrite (to_u16_id (a + 1)) by (unfold is_u16; lia).
  rewrite land_7_mod, land_lnot_7.
  destruct (6 <=? (a + 1) mod 8); [| reflexivity].
  assert (0 <= (a + 1) / 8 <= 256) by (split; [apply Z.div_pos | apply Z.div_le_upper_bound]; lia).
  rewrite (to_u16_id (8 * _)) by (unfold is_u16; lia).
  rewrite to_u16_id by (unfold is_u16; lia). lia.
Qed.

Lemma ppu_write_spram_eq (d : Z) (st : ppu_state) :
  ppu_write reg_spram_data d st =
    (spram_addr ← spram_window (ppu_regs st);
     spram' ← store (spram st) spram_addr d;
     let spram_addr := to_u16 (spram_addr + 1) in
     let spram_addr :=
       if 6 <=? Z.land spram_addr 0x07
       then to_u16 (to_u16 (Z.land spram_addr (Z.lnot 0x07)) + 8)
       else spram_addr in
     regs' ← store (ppu_regs st) reg_spram_addr_msb (to_u8 (Z.land (Z.shiftr spram_addr 8) 0x07));
     regs'' ← store regs' reg_spram_addr_lsb (to_u8 (Z.land spram_addr 0xFF));
     Some (with_regs (with_spram st spram') regs'')).
Proof. reflexivity. Qed.

Lemma ppu_write_vram_eq (d : Z) (st : ppu_state) :
  ppu_write reg_vram_data d st =
    (vram_addr ← vram_window (ppu_regs st);
     vram' ← store (vram st) vram_addr d;
     let vram_addr := to_u16 (vram_addr + 1) in
     regs' ← store (ppu_regs st) reg_vram_addr_msb (to_u8 (Z.land (Z.shiftr vram_addr 8) 0x1F));
     regs'' ← store regs' reg_vram_addr_lsb (to_u8 (Z.land vram_addr 0xFF));
     Some (with_regs (with_vram st vram') regs'')).
Proof. reflexivity. Qed.

(** One write to the SPRAM data port. *)
Lemma spram_write_step (st : ppu_state) (d : Z) :
  wf_state st ->
  exists a st',
    spram_window (ppu_regs st) = Some a /\ 0 <= a < 2048 /\
    ppu_write reg_spram_data d st = Some st' /\
    spram st' = <[Z.to_nat a := d]> (spram st) /\
    vram st' = vram st /\
    load (ppu_regs st') reg_spram_addr_msb = Some (Z.land (Z.shiftr (spec_spram_next a) 8) 0x07) /\
    load (ppu_regs st') reg_spram_addr_lsb = Some (Z.land (spec_spram_next a) 0xFF) /\
    spram_window (ppu_regs st') = Some (spec_spram_next a mod 2048) /\
    wf_state st'.
Proof.
  intros Hwf. destruct (spram_window_range st Hwf) as (a & Hwin & Ha).
  pose proof Hwf as (Hlen & Hall & Hvl & Hsl).
  rewrite ppu_write_spram_eq, Hwin. cbn [mbind option_bind].
  rewrite (store_Some (spram st) a d) by lia. cbn [mbind option_bind].
  cbv zeta. rewrite (spec_spram_next_code a Ha).
  destruct (store_pair (ppu_regs st) reg_spram_addr_msb reg_spram_addr_lsb
              (to_u8 (Z.land (Z.shiftr (spec_spram_next a) 8) 0x07))
              (to_u8 (Z.land (spec_spram_next a) 0xFF)))
    as (regs1 & regs' & Hst1 & Hst & Hl' & Hhi & Hlo & Hother & Hu8);
    [exact Hlen | unfold reg_spram_addr_msb; lia | unfold reg_spram_addr_lsb; lia
    | discriminate |].
  bind_with Hst1. bind_with Hst.
  exists a. eexists. split; [reflexivity |]. split; [exact Ha |].
  split; [reflexivity |].
  cbn [spram vram ppu_regs ticks render_ready with_regs with_spram with_vram].
  split; [reflexivity |]. split; [reflexivity |].
  pose proof (land_range (Z.shiftr (spec_spram_next a) 8) 3 ltac:(lia)) as R1.
  pose proof (land_range (spec_spram_next a) 8 ltac:(lia)) as R2.
  change (2 ^ 3 - 1) with 7 in R1. change (2 ^ 8 - 1) with 255 in R2.
  split; [| split; [| split]].
  - rewrite Hhi. f_equal. apply to_u8_id. unfold is_u8. lia.
  - rewrite Hlo. f_equal. apply to_u8_id. unfold is_u8. lia.
  - unfold spram_window. rewrite Hhi, Hlo. cbn [mbind option_bind]. f_equal.
    exact (window_of_parts (spec_spram_next a) 3 ltac:(lia)).
  - unfold wf_state;
      cbn [spram vram ppu_regs ticks render_ready with_regs with_spram with_vram].
    rewrite Hl', length_insert.
    repeat split; try assumption. apply Hu8; trivial; apply to_u8_range.
Qed.

(** One write to the VRAM data port. *)
Lemma vram_write_step (st : ppu_state) (d : Z) :
  wf_state st ->
  exists a st',
    vram_window (ppu_regs st) = Some a /\ 0 <= a < 8192 /\
    ppu_write reg_vram_data d st = Some st' /\
    vram st' = <[Z.to_nat a := d]> (vram st) /\
    spram st' = spram st /\
    vram_window (ppu_regs st') = Some ((a + 1) mod 8192) /\
    wf_state st'.
Proof.
  intros Hwf. destruct (vram_window_range st Hwf) as (a & Hwin & Ha).
  pose proof Hwf as (Hlen & Hall & Hvl & Hsl).
  rewrite ppu_write_vram_eq, Hwin. cbn [mbind option_bind].
  rewrite (store_Some (vram st) a d) by lia. cbn [mbind option_bind]. cbv zeta.
  rewrite (to_u16_id (a + 1)) by (unfold is_u16; lia).
  destruct (store_pair (ppu_regs st) reg_vram_addr_msb reg_vram_addr_lsb
              (to_u8 (Z.land (Z.shiftr (a + 1) 8) 0x1F)) (to_u8 (Z.land (a + 1) 0xFF)))
    as (regs1 & regs' & Hst1 & Hst & Hl' & Hhi & Hlo & Hother & Hu8);
    [exact Hlen | unfold reg_vram_addr_msb; lia | unfold reg_vram_addr_lsb; lia
    | discriminate |].
  bind_with Hst1. bind_with Hst.
  exists a. eexists. split; [reflexivity |]. split; [exact Ha |].
  split; [reflexivity |].
  cbn [spram vram ppu_regs ticks render_ready with_regs with_spram with_vram].
  split; [reflexivity |]. split; [reflexivity |]. split.
  - unfold vram_window. rewrite Hhi, Hlo. cbn [mbind option_bind]. f_equal.
    exact (window_of_parts (a + 1) 5 ltac:(lia)).
  - unfold wf_state;
      cbn [spram vram ppu_regs ticks render_ready with_regs with_spram with_vram].
    rewrite Hl', length_insert.
    repeat split; try assumption. apply Hu8; trivial; apply to_u8_range.
Qed.

Lemma ppu_write_plain (address d : Z) (st : ppu_state) :
  address <> reg_spram_data -> address <> reg_vram_data ->
  ppu_write address d st =
    (regs' ← store (ppu_regs st) address d; Some (with_regs st regs')).
Proof.
  intros H4 H7. unfold ppu_write.
  apply Z.eqb_neq in H4. apply Z.eqb_neq in H7. now rewrite H4, H7.
Qed.

Lemma ppu_read_vram_eq (st : ppu_state) :
  ppu_read st reg_vram_data =
    (vram_addr ← vram_window (ppu_regs st); load (vram st) vram_addr).
Proof. reflexivity. Qed.

Lemma ppu_read_spram_eq (st : ppu_state) :
  ppu_read st reg_spram_data =
    (spram_addr ← spram_window (ppu_regs st); load (spram st) spram_addr).
Proof. reflexivity. Qed.

(** Pointing the VRAM window at an address leaves the memories alone. *)
Lemma set_vram_window_spec (a : Z) (st : ppu_state) :
  wf_state st -> 0 <= a < 8192 ->
  exists sr,
    set_vram_window a st = Some sr /\ vram sr = vram st /\ spram sr = spram st /\
    vram_window (ppu_regs sr) = Some a.
Proof.
  intros (Hlen & Hall & Hvl & Hsl) Ha. unfold set_vram_window.
  destruct (store_pair (ppu_regs st) reg_vram_addr_msb reg_vram_addr_lsb
              (to_u8 (Z.shiftr a 8)) (to_u8 a))
    as (regs1 & regs' & Hst1 & Hst & Hl' & Hhi & Hlo & _ & _);
    [exact Hlen | unfold reg_vram_addr_msb; lia | unfold reg_vram_addr_lsb; lia
    | discriminate |].
  rewrite ppu_write_plain by discriminate. rewrite Hst1. cbn [mbind option_bind].
  rewrite ppu_write_plain by discriminate. cbn [ppu_regs with_regs].
  rewrite Hst. cbn [mbind option_bind].
  eexists. split; [reflexivity |]. cbn [vram spram ppu_regs with_regs].
  split; [reflexivity |]. split; [reflexivity |].
  unfold vram_window. rewrite Hhi, Hlo. cbn [mbind option_bind]. f_equal.
  rewrite (window_value _ _ 5) by (try apply to_u8_range; lia).
  rewrite !to_u8_mod, Z.shiftr_div_pow2 by lia.
  change (2 ^ 8) with 256. change (2 ^ 5) with 32.
  Z.div_mod_to_equations. lia.
Qed.

Lemma vram_port_writes_app (l1 l2 : list Z) (st : ppu_state) :
  vram_port_writes (l1 ++ l2) st = vram_port_writes l1 st ≫= vram_port_writes l2.
Proof.
  revert st. induction l1 as [| b l1 IH]; intros st; [reflexivity |].
  cbn [app vram_port_writes]. destruct (ppu_write reg_vram_data b st) as [st1 |]; cbn.
  - apply IH.
  - reflexivity.
Qed.

Lemma window_shift (a j : Z) :
  ((a + 1) mod 8192 + j) mod 8192 = (a + (j + 1)) mod 8192.
Proof. rewrite Zplus_mod_idemp_l. f_equal. lia. Qed.

Lemma window_no_lap (a j : Z) :
  0 <= a < 8192 -> 0 <= j < 8191 -> (a + (j + 1)) mod 8192 <> a.
Proof. intros Ha Hj. Z.div_mod_to_equations. lia. Qed.

(** A run of data-port writes from window address [a]: where the window
    ends, which cells hold the bytes, and which cells are left alone. *)
Lemma vram_port_writes_run (bs : list Z) :
  forall (st : ppu_state) (a : Z),
    wf_state st -> vram_window (ppu_regs st) = Some a ->
    exists st',
      vram_port_writes bs st = Some st' /\ wf_state st' /\
      vram_window (ppu_regs st') = Some ((a + Z.of_nat (length bs)) mod 8192) /\
      (forall (i : nat) b, bs !! i = Some b ->
         Z.of_nat (length bs) <= Z.of_nat i + 8192 ->
         vram st' !! Z.to_nat ((a + Z.of_nat i) mod 8192) = Some b) /\
      (forall k : nat,
         (forall j, 0 <= j < Z.of_nat (length bs) -> (a + j) mod 8192 <> Z.of_nat k) ->
         vram st' !! k = vram st !! k).
Proof.
  induction bs as [| b bs IH]; intros st a Hwf Hwin.
  - exists st. cbn [vram_port_writes length].
    destruct (vram_window_range st Hwf) as (a' & Hwin' & Ha).
    rewrite Hwin in Hwin'. injection Hwin' as <-.
    split; [reflexivity |]. split; [exact Hwf |]. split; [| split].
    + rewrite Hwin. f_equal. rewrite Z.add_0_r. symmetry. now apply Z.mod_small.
    + intros i b' Hi. now rewrite lookup_nil in Hi.
    + reflexivity.
  - destruct (vram_write_step st b Hwf) as (a' & st1 & Hwin' & Ha & Hw & Hv & _ & Hwin1 & Hwf1).
    rewrite Hwin in Hwin'. injection Hwin' as <-.
    destruct (IH st1 ((a + 1) mod 8192) Hwf1 Hwin1) as (st' & Hrun & Hwf' & Hwinf & Hin & Hout).
    exists st'. cbn [vram_port_writes]. rewrite Hw. cbn [mbind option_bind].
    split; [exact Hrun |]. split; [exact Hwf' |].
    assert (HS : Z.of_nat (length (b :: bs)) = Z.of_nat (length bs) + 1)
      by (cbn [length]; lia).
    rewrite HS. split; [| split].
    + rewrite Hwinf. f_equal. apply window_shift.
    + intros [| i] b' Hi Hn.
      * cbn in Hi. injection Hi as <-. cbn [Z.of_nat]. rewrite Z.add_0_r, Z.mod_small by lia.
        rewrite Hout.
        -- rewrite Hv. apply list_lookup_insert_eq.
           destruct Hwf as (_ & _ & Hvl & _). lia.
        -- intros j Hj. rewrite window_shift, Z2Nat.id by lia.
           apply window_no_lap; lia.
      * cbn in Hi. specialize (Hin i b' Hi ltac:(lia)).
        rewrite window_shift in Hin. rewrite <- Hin. do 3 f_equal. lia.
    + intros k Hk. rewrite Hout.
      * rewrite Hv. apply list_lookup_insert_ne.
        specialize (Hk 0 ltac:(lia)). rewrite Z.add_0_r, Z.mod_small in Hk by lia. lia.
      * intros j Hj. rewrite window_shift. apply Hk. lia.
Qed.

(** C10. In every state whose arrays have their declared sizes and whose
    registers hold bytes, the SPRAM window address is below 2048 and the
    VRAM window address is below 8192, whatever the address registers hold;
    reads and writes through ports 0x04 and 0x07 index the arrays at those
    addresses and stay inside them. *)
Theorem window_ports_in_bounds (st : ppu_state) (d : Z) :
  wf_state st ->
  (exists a,
     spram_window (ppu_regs st) = Some a /\
     0 <= a < 2048 /\ a < Z.of_nat (length (spram st)) /\
     ppu_read st 0x04 = load (spram st) a /\ is_Some (ppu_read st 0x04) /\
     exists st', ppu_write 0x04 d st = Some st' /\
                 spram st' = <[Z.to_nat a := d]> (spram st)) /\
  (exists a,
     vram_window (ppu_regs st) = Some a /\
     0 <= a < 8192 /\ a < Z.of_nat (length (vram st)) /\
     ppu_read st 0x07 = load (vram st) a /\ is_Some (ppu_read st 0x07) /\
     exists st', ppu_write 0x07 d st = Some st' /\
                 vram st' = <[Z.to_nat a := d]> (vram st)).
Proof.
  intros Hwf. pose proof Hwf as (_ & _ & Hvl & Hsl). split.
  - destruct (spram_write_step st d Hwf) as (a & st' & Hwin & Ha & Hw & Hs & _).
    exists a. split; [exact Hwin |]. split; [exact Ha |]. split; [lia |].
    change 0x04 with reg_spram_data. rewrite ppu_read_spram_eq, Hwin.
    cbn [mbind option_bind]. split; [reflexivity |].
    split; [apply load_Some; lia |]. exists st'. auto.
  - destruct (vram_write_step st d Hwf) as (a & st' & Hwin & Ha & Hw & Hv & _).
    exists a. split; [exact Hwin |]. split; [exact Ha |]. split; [lia |].
    change 0x07 with reg_vram_data. rewrite ppu_read_vram_eq, Hwin.
    cbn [mbind option_bind]. split; [reflexivity |].
    split; [apply load_Some; lia |]. exists st'. auto.
Qed.

Lemma window_ports_in_bounds_witness :
  is_Some (ppu_read ppu_reset 0x04) /\ is_Some (ppu_read ppu_reset 0x07).
Proof.
  assert (Hwf : wf_state ppu_reset) by (apply (bool_decide_unpack _); vm_compute; exact I).
  destruct (window_ports_in_bounds ppu_reset 0xAB Hwf)
    as ((a & _ & _ & _ & _ & Hs & _) & (a' & _ & _ & _ & _ & Hv & _)).
  split; assumption.
Defined.

(** C5. A write of [d] to port 0x04 stores [d] at the current 11-bit SPRAM
    address [a]; registers 0x02 and 0x03 then hold the high three and low
    eight bits of the next address, which is [a + 1], or the multiple of 8
    above it when the low three bits of [a + 1] are 6 or 7 (so its low three
    bits are 0); the address read back from the registers is that address
    in 11 bits. *)
Theorem spram_port_write (st : ppu_state) (d : Z) :
  wf_state st ->
  exists a st',
    spram_window (ppu_regs st) = Some a /\ 0 <= a < 2048 /\
    ppu_write 0x04 d st = Some st' /\
    spram st' = <[Z.to_nat a := d]> (spram st) /\
    load (ppu_regs st') 0x02 = Some (Z.land (Z.shiftr (spec_spram_next a) 8) 0x07) /\
    load (ppu_regs st') 0x03 = Some (Z.land (spec_spram_next a) 0xFF) /\
    spram_window (ppu_regs st') = Some (spec_spram_next a mod 2 ^ 11) /\
    (6 <= (a + 1) mod 8 ->
       spec_spram_next a mod 8 = 0 /\ a + 1 < spec_spram_next a <= a + 1 + 2) /\
    ((a + 1) mod 8 < 6 -> spec_spram_next a = a + 1).
Proof.
  intros Hwf.
  destruct (spram_write_step st d Hwf)
    as (a & st' & Hwin & Ha & Hw & Hs & _ & Hhi & Hlo & Hwin' & _).
  exists a, st'. repeat (split; [assumption |]).
  unfold spec_spram_next. cbv zeta. split; intros H6.
  - destruct (Z.leb_spec 6 ((a + 1) mod 8)); [| lia].
    rewrite Z.mul_comm, Z.mod_mul by lia. Z.div_mod_to_equations. lia.
  - destruct (Z.leb_spec 6 ((a + 1) mod 8)); [lia | reflexivity].
Qed.

Lemma spram_port_write_witness :
  exists st', ppu_write 0x04 0xAB ppu_reset = Some st' /\
              spram st' = <[Z.to_nat 0 := 0xAB]> (spram ppu_reset).
Proof.
  assert (Hwf : wf_state ppu_reset) by (apply (bool_decide_unpack _); vm_compute; exact I).
  destruct (spram_port_write ppu_reset 0xAB Hwf) as (a & st' & Hwin & _ & Hw & Hs & _).
  exists st'. split; [exact Hw |].
  vm_compute in Hwin. injection Hwin as <-. exact Hs.
Defined.

(** The address registers after a run, read off the window. *)
Lemma vram_window_regs (st : ppu_state) (n : Z) :
  wf_state st -> vram_window (ppu_regs st) = Some (n mod 8192) ->
  exists r5 r6,
    load (ppu_regs st) 0x05 = Some r5 /\ load (ppu_regs st) 0x06 = Some r6 /\
    Z.land r5 0xFF = Z.land n 0xFF /\
    Z.land r6 0x1F = Z.land (Z.shiftr n 8) 0x1F.
Proof.
  intros Hwf Hwin.
  destruct (vram_window_value st Hwf) as (msb & lsb & Hm & Hl & Hlu & Hv).
  rewrite Hwin in Hv. injection Hv as Hv.
  exists lsb, msb. split; [exact Hl |]. split; [exact Hm |].
  rewrite land_FF_mod, !land_1F_mod, land_FF_mod, Z.shiftr_div_pow2 by lia.
  unfold is_u8 in Hlu. change (2 ^ 8) with 256 in *.
  split; Z.div_mod_to_equations; lia.
Qed.

(** Reading the data port back through a window pointed at cell [a]. *)
Lemma vram_read_back (st : ppu_state) (a b : Z) :
  wf_state st -> 0 <= a < 8192 -> vram st !! Z.to_nat a = Some b ->
  exists sr, set_vram_window a st = Some sr /\ ppu_read sr 0x07 = Some b.
Proof.
  intros Hwf Ha Hb.
  destruct (set_vram_window_spec a st Hwf Ha) as (sr & Hset & Hv & _ & Hwin).
  exists sr. split; [exact Hset |].
  change 0x07 with reg_vram_data. rewrite ppu_read_vram_eq, Hwin.
  cbn [mbind option_bind]. rewrite load_lookup, Hv by lia. exact Hb.
Qed.

(** C4. Let [a] be the VRAM window address of a state and [bs] a sequence
    of [N] bytes written to port 0x07.  Write number [i] finds the window at
    [(a + i) mod 2^13], stores byte [b_i] there, and a read of port 0x07
    with the window pointed back at that address returns [b_i].  After the
    run the low 8 bits of register 0x05 are [(a + N) & 0xFF] and the low 5
    bits of register 0x06 are [((a + N) >> 8) & 0x1F]; every byte that no
    later write of the run has overwritten ([N <= i + 2^13]) is still in
    its cell and is returned by a read through the window. *)
Theorem vram_port_write_sequence (st : ppu_state) (bs : list Z) :
  wf_state st ->
  let N := Z.of_nat (length bs) in
  exists a st',
    vram_window (ppu_regs st) = Some a /\ 0 <= a < 8192 /\
    vram_port_writes bs st = Some st' /\
    (forall (i : nat) b, bs !! i = Some b ->
       exists s s' sr,
         vram_port_writes (take i bs) st = Some s /\
         vram_window (ppu_regs s) = Some ((a + Z.of_nat i) mod 8192) /\
         ppu_write 0x07 b s = Some s' /\
         vram s' = <[Z.to_nat ((a + Z.of_nat i) mod 8192) := b]> (vram s) /\
         set_vram_window ((a + Z.of_nat i) mod 8192) s' = Some sr /\
         ppu_read sr 0x07 = Some b) /\
    (exists r5 r6,
       load (ppu_regs st') 0x05 = Some r5 /\ load (ppu_regs st') 0x06 = Some r6 /\
       Z.land r5 0xFF = Z.land (a + N) 0xFF /\
       Z.land r6 0x1F = Z.land (Z.shiftr (a + N) 8) 0x1F) /\
    (forall (i : nat) b, bs !! i = Some b -> N <= Z.of_nat i + 8192 ->
       vram st' !! Z.to_nat ((a + Z.of_nat i) mod 8192) = Some b /\
       exists sr,
         set_vram_window ((a + Z.of_nat i) mod 8192) st' = Some sr /\
         ppu_read sr 0x07 = Some b).
Proof.
  intros Hwf N.
  destruct (vram_window_range st Hwf) as (a & Hwin & Ha).
  destruct (vram_port_writes_run bs st a Hwf Hwin) as (st' & Hrun & Hwf' & Hwin' & Hin & _).
  exists a, st'. split; [exact Hwin |]. split; [exact Ha |]. split; [exact Hrun |].
  assert (Hmod : forall z, 0 <= z mod 8192 < 8192) by (intros z; apply Z.mod_pos_bound; lia).
  split; [| split].
  - intros i b Hi.
    destruct (vram_port_writes_run (take i bs) st a Hwf Hwin) as (s & Hs & Hwfs & Hwins & _).
    assert (Hlt : (i < length bs)%nat) by (eapply lookup_lt_Some; exact Hi).
    rewrite length_take, Nat.min_l in Hwins by lia.
    destruct (vram_write_step s b Hwfs) as (ai & s' & Hwi & _ & Hw & Hv & _ & _ & Hwfs').
    rewrite Hwins in Hwi. injection Hwi as <-.
    destruct (vram_read_back s' ((a + Z.of_nat i) mod 8192) b Hwfs' (Hmod _)) as (sr & Hset & Hrd).
    { rewrite Hv. apply list_lookup_insert_eq.
      destruct Hwfs as (_ & _ & Hvl & _). specialize (Hmod (a + Z.of_nat i)). lia. }
    exists s, s', sr. auto 10.
  - exact (vram_window_regs st' (a + N) Hwf' Hwin').
  - intros i b Hi HN. specialize (Hin i b Hi HN). split; [exact Hin |].
    exact (vram_read_back st' _ b Hwf' (Hmod _) Hin).
Qed.

Lemma vram_port_write_sequence_witness :
  exists st', vram_port_writes [0xAB; 0xCD] ppu_reset = Some st' /\
              vram st' !! Z.to_nat 1 = Some 0xCD.
Proof.
  assert (Hwf : wf_state ppu_reset) by (apply (bool_decide_unpack _); vm_compute; exact I).
  destruct (vram_port_write_sequence ppu_reset [0xAB; 0xCD] Hwf)
    as (a & st' & Hwin & _ & Hrun & _ & _ & Hend).
  exists st'. split; [exact Hrun |].
  vm_compute in Hwin. injection Hwin as <-.
  exact (proj1 (Hend 1%nat 0xCD eq_refl ltac:(vm_compute; discriminate))).
Defined.

(** The rollover scenario of the specification: with the window at [0x1FFF]
    a write of [0xAB] lands in the last cell and both address registers
    wrap to 0. *)
Example vram_port_rollover :
  (st1 ← set_vram_window 0x1FFF ppu_reset;
   st2 ← ppu_write 0x07 0xAB st1;
   Some (vram st2 !! Z.to_nat 0x1FFF, load (ppu_regs st2) 0x05, load (ppu_regs st2) 0x06))
  = Some (Some 0xAB, Some 0x00, Some 0x00).
Proof. vm_compute. reflexivity. Qed.

(** ** Tile map addressing *)

Lemma layer_lor (layer c : Z) :
  0 <= c < 2048 -> Z.lor (Z.shiftl layer 11) c = layer * 2048 + c.
Proof. intros Hc. now rewrite lor_shiftl_add by lia. Qed.

Lemma offset8_code (tx ty : Z) :
  0 <= tx -> 0 <= ty ->
  to_u16 ((Z.rem tx 32 + 32 * Z.rem ty 32) * 2) = spec_offset8 tx ty /\
  0 <= spec_offset8 tx ty <= 2046.
Proof.
  intros Hx Hy. unfold spec_offset8. rewrite !Z.rem_mod_nonneg by lia.
  pose proof (Z.mod_pos_bound tx 32 ltac:(lia)). pose proof (Z.mod_pos_bound ty 32 ltac:(lia)).
  split; [apply to_u16_id; unfold is_u16 |]; lia.
Qed.

Lemma offset16_code (tx ty : Z) :
  0 <= tx -> 0 <= ty ->
  to_u16 ((Z.rem tx 16 + 16 * Z.rem ty 16) * 2) = spec_offset16 tx ty /\
  0 <= spec_offset16 tx ty <= 510.
Proof.
  intros Hx Hy. unfold spec_offset16. rewrite !Z.rem_mod_nonneg by lia.
  pose proof (Z.mod_pos_bound tx 16 ltac:(lia)). pose proof (Z.mod_pos_bound ty 16 ltac:(lia)).
  split; [apply to_u16_id; unfold is_u16 |]; lia.
Qed.

Lemma spec_base16_sum scrl layer tx ty y8 x8 :
  spec_base16 scrl layer tx ty y8 x8 = layer * 2048 + page16 scrl tx ty y8 x8 /\
  0 <= page16 scrl tx ty y8 x8 <= 1536.
Proof.
  unfold spec_base16, page16.
  destruct scrl, y8, x8, (16 <? tx), (16 <? ty); cbn [xorb Z.b2z];
    rewrite <- ?Z.lor_assoc;
    (split; [apply layer_lor; vm_compute; split; [discriminate | reflexivity]
            | vm_compute; split; discriminate]).
Qed.

Lemma get_tile_addr_16 (tx ty layer : Z) (y8 x8 bmp : bool) (scrl : BkgScrollMode) :
  0 <= tx -> 0 <= ty -> 0 <= layer < 32 ->
  get_tile_addr tx ty y8 x8 16 bmp layer scrl =
    Some (spec_base16 scrl layer tx ty y8 x8 + spec_offset16 tx ty, spec_mapped16 scrl tx ty).
Proof.
  intros Hx Hy Hl.
  destruct (offset16_code tx ty Hx Hy) as (Ho & Hob).
  destruct (spec_base16_sum scrl layer tx ty y8 x8) as (Hb & Hpb).
  unfold get_tile_addr. cbn [Z.eqb Pos.eqb]. rewrite Ho, Hb.
  assert (Hu : forall c, 0 <= c <= 1536 -> to_u16 (layer * 2048 + c) = layer * 2048 + c)
    by (intros c Hc; apply to_u16_id; unfold is_u16; lia).
  assert (Hs : forall c, 0 <= c <= 1536 ->
            to_u16 (layer * 2048 + c + spec_offset16 tx ty) = layer * 2048 + c + spec_offset16 tx ty)
    by (intros c Hc; apply to_u16_id; unfold is_u16; lia).
  unfold page16 in *.
  destruct scrl; cbn [mbind option_bind spec_mapped16].
  - rewrite <- Z.lor_assoc.
    destruct y8, x8; cbn [Z.b2z] in *;
      rewrite layer_lor by (vm_compute; split; [discriminate | reflexivity]);
      rewrite Hu by (vm_compute; split; discriminate);
      rewrite Hs by (vm_compute; split; discriminate); reflexivity.
  - rewrite Z.lor_comm.
    destruct x8, (16 <? tx); cbn [negb eqb xorb] in *;
      rewrite layer_lor by lia; rewrite Hu by lia; now rewrite Hs by lia.
  - rewrite Z.lor_comm.
    destruct y8, (16 <? ty); cbn [negb eqb xorb] in *;
      rewrite layer_lor by lia; rewrite Hu by lia; now rewrite Hs by lia.
  - rewrite Z.lor_comm.
    destruct x8, y8, (16 <? tx), (16 <? ty); cbn [negb eqb xorb] in *;
      rewrite layer_lor by (vm_compute; split; [discriminate | reflexivity]);
      rewrite Hu by (vm_compute; split; discriminate);
      rewrite Hs by (vm_compute; split; discriminate); reflexivity.
Qed.

Lemma get_tile_addr_8 (tx ty layer : Z) (y8 x8 bmp : bool) (scrl : BkgScrollMode) :
  0 <= tx -> 0 <= ty -> scrl <> SCROLL_4P ->
  get_tile_addr tx ty y8 x8 8 bmp layer scrl =
    Some (spec_base8 scrl tx ty y8 x8 + spec_offset8 tx ty, spec_mapped8 scrl tx ty).
Proof.
  intros Hx Hy H4.
  destruct (offset8_code tx ty Hx Hy) as (Ho & Hob).
  unfold get_tile_addr. cbn [Z.eqb Pos.eqb]. rewrite Ho.
  assert (Hs : forall c, 0 <= c <= 2048 ->
            to_u16 (c + spec_offset8 tx ty) = c + spec_offset8 tx ty)
    by (intros c Hc; apply to_u16_id; unfold is_u16; lia).
  destruct scrl; [| | | congruence]; cbn [mbind option_bind spec_mapped8 spec_base8].
  - destruct y8, x8; cbn; now rewrite Hs by lia.
  - destruct x8, (32 <? tx); cbn [negb eqb xorb]; now rewrite Hs by lia.
  - destruct y8, (32 <? ty); cbn [negb eqb xorb]; now rewrite Hs by lia.
Qed.

(** C7.  For tile indices [tx, ty >= 0] and a layer number below 32 (the
    renderer passes 0 or 1), [get_tile_addr] returns base plus offset and the
    mapped flag of the tile map tables.  8-pixel tiles: offset
    [((tx mod 32) + 32 * (ty mod 32)) * 2]; FIX has base 0 only when
    [x8 = y8 = 0] and is mapped iff [tx < 32] and [ty < 32]; H has base
    [0x800] exactly when [(tx > 32) xor x8] and is mapped iff [ty < 32]; V is
    the same in [ty], [y8] and mapped iff [tx < 32].  16-pixel tiles: offset
    [((tx mod 16) + 16 * (ty mod 16)) * 2], every base ors [layer << 11]; H
    sets [0x200] exactly when [(tx > 16) xor x8], mapped iff [ty < 16]; 4P
    ors both the [0x200] and the [0x400] page bit and is always mapped. *)
Theorem get_tile_addr_tables (tx ty layer : Z) (y8 x8 bmp : bool) (scrl : BkgScrollMode) :
  0 <= tx -> 0 <= ty -> 0 <= layer < 32 ->
  (scrl <> SCROLL_4P ->
   get_tile_addr tx ty y8 x8 8 bmp layer scrl =
     Some (spec_base8 scrl tx ty y8 x8 + spec_offset8 tx ty, spec_mapped8 scrl tx ty)) /\
  get_tile_addr tx ty y8 x8 16 bmp layer scrl =
    Some (spec_base16 scrl layer tx ty y8 x8 + spec_offset16 tx ty, spec_mapped16 scrl tx ty).
Proof.
  intros Hx Hy Hl. split.
  - intros H4. now apply get_tile_addr_8.
  - now apply get_tile_addr_16.
Qed.

Lemma get_tile_addr_tables_witness :
  get_tile_addr 33 5 false false 8 false 1 SCROLL_H = Some (0x800 + (1 + 32 * 5) * 2, true) /\
  get_tile_addr 17 20 true false 16 false 1 SCROLL_4P =
    Some (0x800 + 0x200 + (1 + 16 * 4) * 2, true).
Proof.
  destruct (get_tile_addr_tables 33 5 1 false false false SCROLL_H) as (H8 & _); [lia | lia | lia |].
  destruct (get_tile_addr_tables 17 20 1 true false false SCROLL_4P) as (_ & H16); [lia | lia | lia |].
  split; [exact (H8 ltac:(discriminate)) | exact H16].
Defined.

(** Four-pane scrolling with 8-pixel tiles stops at the assertion. *)
Example get_tile_addr_8_4P (tx ty layer : Z) (y8 x8 bmp : bool) :
  get_tile_addr tx ty y8 x8 8 bmp layer SCROLL_4P = None.
Proof. reflexivity. Qed.

(** ** Loops over rows and columns *)

Lemma for_range_ext {S : Type} (body1 body2 : Z -> S -> option S) (n : nat) (i : Z) (s : S) :
  (forall j t, body1 j t = body2 j t) ->
  for_range n i body1 s = for_range n i body2 s.
Proof.
  intros Hext. revert i s. induction n as [| n IH]; intros i s; [reflexivity |].
  cbn [for_range]. rewrite Hext. destruct (body2 i s); cbn; [apply IH | reflexivity].
Qed.

(** An invariant of the body is an invariant of the loop. *)
Lemma for_range_inv {S : Type} (P : S -> Prop) (body : Z -> S -> option S) :
  (forall j t t', P t -> body j t = Some t' -> P t') ->
  forall (n : nat) (i : Z) (s s' : S),
    P s -> for_range n i body s = Some s' -> P s'.
Proof.
  intros Hstep. induction n as [| n IH]; intros i s s' Hs Hrun.
  - injection Hrun as <-. exact Hs.
  - cbn [for_range] in Hrun. destruct (body i s) as [t |] eqn:Hb; [| discriminate].
    cbn in Hrun. eapply IH; [| exact Hrun]. eapply Hstep; eauto.
Qed.

(** A counting loop that computes a value for index [i] and stores it at
    [base + i]. *)
Lemma for_range_store_at (g : Z -> option Z) (f : Z -> Z) (base : Z) (n : nat) (i0 : Z)
    (buf : list Z) :
  0 <= base + i0 -> base + i0 + Z.of_nat n <= Z.of_nat (length buf) ->
  (forall k, i0 <= k < i0 + Z.of_nat n -> g k = Some (f k)) ->
  exists buf',
    for_range n i0 (fun i b => v ← g i; store b (base + i) v) buf = Some buf' /\
    length buf' = length buf /\
    (forall k, i0 <= k < i0 + Z.of_nat n -> buf' !! Z.to_nat (base + k) = Some (f k)) /\
    (forall j : nat, ~ (base + i0 <= Z.of_nat j < base + i0 + Z.of_nat n) -> buf' !! j = buf !! j).
Proof.
  revert i0 buf. induction n as [| n IH]; intros i0 buf H0 Hlen Hg.
  - exists buf. split; [reflexivity |]. split; [reflexivity |]. split; [intros k Hk; lia | auto].
  - cbn [for_range]. rewrite (Hg i0) by lia. cbn [mbind option_bind].
    rewrite store_Some by lia. cbn [mbind option_bind].
    destruct (IH (i0 + 1) (<[Z.to_nat (base + i0) := f i0]> buf))
      as (buf' & Hrun & Hl & Hin & Hout).
    { lia. } { rewrite length_insert. lia. } { intros k Hk. apply Hg. lia. }
    exists buf'. split; [exact Hrun |]. rewrite length_insert in Hl.
    split; [exact Hl |]. split.
    + intros k Hk. destruct (Z.eq_dec k i0) as [-> | Hne].
      * rewrite Hout by lia. apply list_lookup_insert_eq. lia.
      * apply Hin. lia.
    + intros j Hj. rewrite Hout by lia. apply list_lookup_insert_ne. lia.
Qed.

(** Rows of [w] cells filled one after the other: row [y] occupies
    [y * w .. y * w + w). *)
Lemma for_range_rows (row : Z -> list Z -> option (list Z)) (f : Z -> Z -> Z) (w : Z)
    (n : nat) (y0 : Z) (buf : list Z) :
  0 <= w -> 0 <= y0 -> (y0 + Z.of_nat n) * w <= Z.of_nat (length buf) ->
  (forall y b, y0 <= y < y0 + Z.of_nat n -> length b = length buf ->
     exists b', row y b = Some b' /\ length b' = length b /\
       (forall x, 0 <= x < w -> b' !! Z.to_nat (y * w + x) = Some (f y x)) /\
       (forall j : nat, ~ (y * w <= Z.of_nat j < y * w + w) -> b' !! j = b !! j)) ->
  exists buf',
    for_range n y0 row buf = Some buf' /\ length buf' = length buf /\
    (forall y x, y0 <= y < y0 + Z.of_nat n -> 0 <= x < w ->
       buf' !! Z.to_nat (y * w + x) = Some (f y x)) /\
    (forall j : nat, ~ (y0 * w <= Z.of_nat j < (y0 + Z.of_nat n) * w) -> buf' !! j = buf !! j).
Proof.
  intros Hw. revert y0 buf. induction n as [| n IH]; intros y0 buf Hy Hlen Hrow.
  - exists buf. split; [reflexivity |]. split; [reflexivity |]. split; [intros; lia | auto].
  - cbn [for_range].
    destruct (Hrow y0 buf ltac:(lia) eq_refl) as (b1 & Hr1 & Hl1 & Hin1 & Hout1).
    rewrite Hr1. cbn [mbind option_bind].
    destruct (IH (y0 + 1) b1) as (buf' & Hrun & Hl & Hin & Hout).
    { lia. } { rewrite Hl1. lia. }
    { intros y b Hyy Hb. apply Hrow; [lia | congruence]. }
    exists buf'. split; [exact Hrun |]. split; [congruence |]. split.
    + intros y x Hyy Hx. destruct (Z.eq_dec y y0) as [-> | Hne].
      * rewrite Hout by nia. now apply Hin1.
      * apply Hin; lia.
    + intros j Hj. rewrite Hout by nia. apply Hout1. nia.
Qed.

(** ** Blitter *)

Lemma cell_hi_keep (c a : Z) :
  is_u16 a -> cell_hi (to_u32 (Z.lor (Z.land c 0xFFFF0000) a)) = cell_hi c.
Proof.
  intros Ha. rewrite <- (to_u16_id a Ha).
  unfold cell_hi, to_u32, to_u16.
  change 0xFFFF with (Z.ones 16). change 0xFFFFFFFF with (Z.ones 32).
  change 0xFFFF0000 with (Z.shiftl (Z.ones 16) 16).
  Z.bitblast.
Qed.

Lemma cell_lo_keep (c a : Z) :
  cell_lo (to_u32 (Z.lor (Z.land c 0x0000FFFF) (Z.shiftl a 16))) = cell_lo c.
Proof.
  unfold cell_lo, to_u32.
  change 0xFFFF with (Z.ones 16). change 0xFFFFFFFF with (Z.ones 32).
  Z.bitblast. rewrite (Z.testbit_neg_r a l) by lia.
  now rewrite !andb_true_r, orb_false_r.

Qed.

Lemma pal_entry_u16 (pal : list Z) (raw v : Z) : pal_entry pal raw = Some v -> is_u16 v.
Proof.
  unfold pal_entry. destruct (load pal (2 * raw + 1)); [| discriminate].
  destruct (load pal (2 * raw)); [| discriminate]. cbn. intros [= <-]. apply to_u16_range.
Qed.

(** Sampling leaves the destination alone and yields 16-bit samples. *)
Lemma sample_texel_spec (src : list Z) (fmt : ColourMode) (pal0 pal1 : option (list Z))
    (s s1 : blit_state) :
  sample_texel src fmt pal0 pal1 s = Some s1 ->
  is_u16 (b_argb0 s) -> is_u16 (b_argb1 s) ->
  b_dst s1 = b_dst s /\ is_u16 (b_argb0 s1) /\ is_u16 (b_argb1 s1).
Proof.
  intros Hs H0 H1.
  assert (Hk : is_u16 0x8000) by (unfold is_u16; lia).
  assert (Hidx : forall r p b,
            (if r =? 0 then Some (mk_blit p b 0x8000 0x8000 (b_dst s))
             else argb0 ← match pal0 with
                          | Some pal => pal_entry pal r
                          | None => Some (b_argb0 s)
                          end;
                  argb1 ← match pal1 with
                          | Some pal => pal_entry pal r
                          | None => Some (b_argb1 s)
                          end;
                  Some (mk_blit p b argb0 argb1 (b_dst s))) = Some s1 ->
            b_dst s1 = b_dst s /\ is_u16 (b_argb0 s1) /\ is_u16 (b_argb1 s1)).
  { intros r p b. destruct (r =? 0).
    - intros [= <-]. cbn. auto.
    - destruct pal0 as [p0 |], pal1 as [p1 |]; cbn;
        repeat match goal with
        | |- context [pal_entry ?p ?r] =>
            let E := fresh "E" in
            destruct (pal_entry p r) eqn:E; cbn; [apply pal_entry_u16 in E | discriminate]
        end;
        intros [= <-]; cbn; auto. }
  unfold sample_texel in Hs.
  destruct fmt;
    try (destruct (decode_index _ src (b_srcptr s) (b_src_bit s)) as [[[r p] b] |];
         cbn in Hs; [exact (Hidx r p b Hs) | discriminate]).
  destruct (load src (b_srcptr s + 1)); [| discriminate].
  destruct (load src (b_srcptr s)); [| discriminate].
  cbn in Hs. injection Hs as <-. cbn. auto using to_u16_range.
Qed.

(** The write of one texel: the layer keeps its size, cells other than the
    addressed one are untouched, and a transparent sample keeps its half of
    the addressed cell. *)
Lemma put_texel_spec (dw dh ds dx dy a0 a1 : Z) (dst dst' : list Z) :
  put_texel dw dh ds dx dy a0 a1 dst = Some dst' ->
  is_u16 a0 -> is_u16 a1 ->
  length dst' = length dst /\
  forall (i : nat) c, dst !! i = Some c ->
    exists c', dst' !! i = Some c' /\
      (Z.testbit a0 15 = true -> cell_lo c' = cell_lo c) /\
      (Z.testbit a1 15 = true -> cell_hi c' = cell_hi c) /\
      (Z.of_nat i <> dy * ds + dx -> c' = c).
Proof.
  intros Hp H0 H1. unfold put_texel in Hp. rewrite !tst_bit15 in Hp.
  destruct ((0 <=? dx) && (dx <? dw) && (0 <=? dy) && (dy <? dh)).
  2: { injection Hp as <-. split; [reflexivity |]. intros i c Hc. exists c. auto. }
  set (k := dy * ds + dx) in *.
  destruct (Z.testbit a0 15) eqn:T0, (Z.testbit a1 15) eqn:T1; cbn in Hp.
  - injection Hp as <-. split; [reflexivity |]. intros i c Hc. exists c. auto.
  - destruct (load dst k) as [old |] eqn:Hold; [| discriminate]. cbn in Hp.
    apply store_inv in Hp as (Hk & ->). rewrite load_lookup in Hold by lia.
    rewrite length_insert. split; [reflexivity |]. intros i c Hc.
    destruct (Nat.eq_dec i (Z.to_nat k)) as [-> | Hne].
    + rewrite list_lookup_insert_eq by lia. eexists. split; [reflexivity |].
      rewrite Hold in Hc. injection Hc as <-.
      split; [intros _; apply cell_lo_keep |]. split; [discriminate | lia].
    + rewrite list_lookup_insert_ne by lia. exists c. auto.
  - destruct (load dst k) as [old |] eqn:Hold; [| discriminate]. cbn in Hp.
    destruct (store dst k _) as [dst1 |] eqn:Hs1; [| discriminate]. cbn in Hp.
    injection Hp as <-.
    apply store_inv in Hs1 as (Hk & ->). rewrite load_lookup in Hold by lia.
    rewrite length_insert. split; [reflexivity |]. intros i c Hc.
    destruct (Nat.eq_dec i (Z.to_nat k)) as [-> | Hne].
    + rewrite list_lookup_insert_eq by lia. eexists. split; [reflexivity |].
      rewrite Hold in Hc. injection Hc as <-.
      split; [discriminate |]. split; [intros _; now apply cell_hi_keep | lia].
    + rewrite list_lookup_insert_ne by lia. exists c. auto.
  - destruct (load dst k) as [old |] eqn:Hold; [| discriminate]. cbn in Hp.
    destruct (store dst k _) as [dst1 |] eqn:Hs1; [| discriminate]. cbn in Hp.
    apply store_inv in Hs1 as (Hk & ->).
    destruct (load (<[_ := _]> dst) k) as [old1 |] eqn:Hold1; [| discriminate]. cbn in Hp.
    apply store_inv in Hp as (_ & ->).
    rewrite !length_insert. split; [reflexivity |]. intros i c Hc.
    destruct (Nat.eq_dec i (Z.to_nat k)) as [-> | Hne].
    + rewrite list_lookup_insert_eq by (rewrite length_insert; lia).
      eexists. split; [reflexivity |]. repeat split; try discriminate. lia.
    + rewrite !list_lookup_insert_ne by lia. exists c. auto.
Qed.

Lemma put_texel_transparent (dw dh ds dx dy : Z) (dst : list Z) :
  put_texel dw dh ds dx dy 0x8000 0x8000 dst = Some dst.
Proof.
  unfold put_texel.
  now destruct ((0 <=? dx) && (dx <? dw) && (0 <=? dy) && (dy <? dh)).
Qed.

(** C6.  One texel of an indexed format that decodes to index 0 is blitted
    without any change to the destination layer, whatever the palettes.
    For any texel of any format, a sample with bit 15 set leaves its half of
    every cell as it was: the bank-0 sample the low 16 bits, the bank-1
    sample the high 16 bits. *)
Theorem vt_blit_transparent_texel (src : list Z) (fmt : ColourMode)
    (pal0 pal1 : option (list Z)) (dw dh ds dx dy : Z) (s : blit_state) :
  is_u16 (b_argb0 s) -> is_u16 (b_argb1 s) ->
  (is_indexed fmt = true ->
   forall p' bit',
     decode_index fmt src (b_srcptr s) (b_src_bit s) = Some (0, p', bit') ->
     blit_texel src fmt pal0 pal1 dw dh ds dx dy s =
       Some (mk_blit p' bit' 0x8000 0x8000 (b_dst s))) /\
  (forall s',
     blit_texel src fmt pal0 pal1 dw dh ds dx dy s = Some s' ->
     length (b_dst s') = length (b_dst s) /\
     forall (i : nat) c, b_dst s !! i = Some c ->
       exists c', b_dst s' !! i = Some c' /\
         (Z.testbit (b_argb0 s') 15 = true -> cell_lo c' = cell_lo c) /\
         (Z.testbit (b_argb1 s') 15 = true -> cell_hi c' = cell_hi c)).
Proof.
  intros H0 H1. split.
  - intros Hfmt p' bit' Hdec. unfold blit_texel, sample_texel.
    destruct fmt; try discriminate Hfmt; rewrite Hdec; cbn;
      now rewrite put_texel_transparent.
  - intros s' Hb. unfold blit_texel in Hb.
    destruct (sample_texel src fmt pal0 pal1 s) as [s1 |] eqn:Hs; [| discriminate].
    cbn in Hb.
    destruct (put_texel dw dh ds dx dy (b_argb0 s1) (b_argb1 s1) (b_dst s1))
      as [dst' |] eqn:Hp; [| discriminate].
    cbn in Hb. injection Hb as <-. cbn.
    destruct (sample_texel_spec _ _ _ _ _ _ Hs H0 H1) as (Hd & U0 & U1).
    destruct (put_texel_spec _ _ _ _ _ _ _ _ _ Hp U0 U1) as (Hlen & Hcells).
    rewrite Hd in *. split; [exact Hlen |].
    intros i c Hc. destruct (Hcells i c Hc) as (c' & Hc' & Hlo & Hhi & _).
    exists c'. auto.
Qed.

Lemma vt_blit_transparent_texel_witness :
  blit_texel [0x10] IDX_16 None (Some [0; 0; 0x1F; 0]) 2 1 2 0 0
             (mk_blit 0 0 0 0 [0x12345678; 0x80008000])
  = Some (mk_blit 0 4 0x8000 0x8000 [0x12345678; 0x80008000]).
Proof.
  refine (proj1 (vt_blit_transparent_texel [0x10] IDX_16 None (Some [0; 0; 0x1F; 0])
                   2 1 2 0 0 (mk_blit 0 0 0 0 [0x12345678; 0x80008000]) _ _)
                eq_refl 0 4 eq_refl);
    (vm_compute; split; [discriminate | reflexivity]).
Defined.

(** With no bank-0 palette an indexed texel either decodes to index 0 or
    leaves [argb0] as the previous texel left it. *)
Lemma sample_texel_null_pal0 (src : list Z) (fmt : ColourMode) (pal1 : option (list Z))
    (s s1 : blit_state) :
  is_indexed fmt = true ->
  sample_texel src fmt None pal1 s = Some s1 ->
  b_argb0 s1 = 0x8000 \/ b_argb0 s1 = b_argb0 s.
Proof.
  intros Hfmt Hs. unfold sample_texel in Hs.
  destruct fmt; try discriminate Hfmt;
    (destruct (decode_index _ src (b_srcptr s) (b_src_bit s)) as [[[r p] b] |];
     cbn in Hs; [| discriminate]);
    (destruct (r =? 0); [injection Hs as <-; now left |]);
    (destruct pal1 as [p1 |]; cbn in Hs;
     [destruct (pal_entry p1 r); cbn in Hs; [| discriminate] |]);
    injection Hs as <-; now right.
Qed.

Lemma sample_texel_null_pal1 (src : list Z) (fmt : ColourMode) (pal0 : option (list Z))
    (s s1 : blit_state) :
  is_indexed fmt = true ->
  sample_texel src fmt pal0 None s = Some s1 ->
  b_argb1 s1 = 0x8000 \/ b_argb1 s1 = b_argb1 s.
Proof.
  intros Hfmt Hs. unfold sample_texel in Hs.
  destruct fmt; try discriminate Hfmt;
    (destruct (decode_index _ src (b_srcptr s) (b_src_bit s)) as [[[r p] b] |];
     cbn in Hs; [| discriminate]);
    (destruct (r =? 0); [injection Hs as <-; now left |]);
    (destruct pal0 as [p0 |]; cbn in Hs;
     [destruct (pal_entry p0 r); cbn in Hs; [| discriminate] |]);
    injection Hs as <-; now right.
Qed.

(** What the missing palette is meant to achieve does hold when the storage
    of [argb0] starts out transparent: the whole blit keeps the bank-0 half
    of every cell. *)
Lemma vt_blit_null_pal0_stale_transparent (sw sh : Z) (src : list Z)
    (dw dh ds x y : Z) (dst dst' : list Z) (fmt : ColourMode) (pal1 : option (list Z))
    (junk0 junk1 : Z) :
  is_indexed fmt = true ->
  is_u16 junk0 -> is_u16 junk1 -> Z.testbit junk0 15 = true ->
  vt_blit sw sh src dw dh ds x y dst fmt None pal1 junk0 junk1 = Some dst' ->
  length dst' = length dst /\
  forall (i : nat) c, dst !! i = Some c ->
    exists c', dst' !! i = Some c' /\ cell_lo c' = cell_lo c.
Proof.
  intros Hfmt U0 U1 T0 Hb. unfold vt_blit in Hb.
  set (P := fun t : blit_state =>
    is_u16 (b_argb0 t) /\ is_u16 (b_argb1 t) /\ Z.testbit (b_argb0 t) 15 = true /\
    length (b_dst t) = length dst /\
    forall (i : nat) c, dst !! i = Some c ->
      exists c', b_dst t !! i = Some c' /\ cell_lo c' = cell_lo c).
  assert (Hstep : forall dx dy t t',
            P t -> blit_texel src fmt None pal1 dw dh ds dx dy t = Some t' -> P t').
  { intros dx dy t t' (V0 & V1 & B0 & Hl & Hc) Ht. unfold blit_texel in Ht.
    destruct (sample_texel src fmt None pal1 t) as [t1 |] eqn:Hs; [| discriminate].
    cbn in Ht.
    destruct (put_texel dw dh ds dx dy (b_argb0 t1) (b_argb1 t1) (b_dst t1))
      as [d' |] eqn:Hp; [| discriminate].
    cbn in Ht. injection Ht as <-. unfold P. cbn.
    destruct (sample_texel_spec _ _ _ _ _ _ Hs V0 V1) as (Hd & W0 & W1).
    assert (B1 : Z.testbit (b_argb0 t1) 15 = true).
    { destruct (sample_texel_null_pal0 _ _ _ _ _ Hfmt Hs) as [-> | ->]; [reflexivity | exact B0]. }
    destruct (put_texel_spec _ _ _ _ _ _ _ _ _ Hp W0 W1) as (Hlen & Hcells).
    rewrite Hd in *.
    split; [exact W0 |]. split; [exact W1 |]. split; [exact B1 |]. split; [now rewrite Hlen |].
    intros i c Hi. destruct (Hc i c Hi) as (c1 & Hc1 & E1).
    destruct (Hcells i c1 Hc1) as (c2 & Hc2 & E2 & _).
    exists c2. split; [exact Hc2 |]. rewrite E2 by exact B1. exact E1. }
  destruct (for_range _ 0 _ _) as [t |] eqn:Hrun; [| discriminate].
  cbn in Hb. injection Hb as <-.
  assert (HP : P t).
  { eapply (for_range_inv P); [| | exact Hrun].
    - intros sy t0 t0' Ht0 Hrow. cbv zeta in Hrow.
      eapply (for_range_inv P); [| exact Ht0 | exact Hrow].
      intros sx u u' Hu Hpx. exact (Hstep _ _ _ _ Hu Hpx).
    - unfold P. cbn.
      split; [exact U0 |]. split; [exact U1 |]. split; [exact T0 |]. split; [reflexivity |].
      intros i c Hi. exists c. auto. }
  destruct HP as (_ & _ & _ & Hl & Hc). auto.
Qed.

(** C3.  The guarantee fails on the code.  [vt_blit] declares [argb0] and
    [argb1] without initialiser and assigns [argb0] only when [pal0] is not
    null, so with [pal0] null a texel of nonzero index tests and writes
    whatever the storage of [argb0] holds.  One IDX_256 texel of index 1,
    [pal0] null, storage holding [0x0000]: the low half of the cell goes
    from [0x8000] to [0x0000].  Symmetrically for [pal1] and the high
    half. *)
Theorem vt_blit_null_pal0_overwrites :
  vt_blit 1 1 [0x01] 1 1 1 0 0 [0x80008000] IDX_256 None (Some [0; 0; 0x1F; 0]) 0x0000 0x0000
    = Some [0x001F0000] /\
  decode_index IDX_256 [0x01] 0 0 = Some (1, 1, 0) /\
  cell_lo 0x001F0000 <> cell_lo 0x80008000 /\
  vt_blit 1 1 [0x01] 1 1 1 0 0 [0x80008000] IDX_256 (Some [0; 0; 0x1F; 0]) None 0x0000 0x0000
    = Some [0x0000001F] /\
  cell_hi 0x0000001F <> cell_hi 0x80008000.
Proof. repeat split; vm_compute; discriminate. Qed.

(** ** Compositor *)

Lemma solid_cell_lo (c : Z) : solid (cell_lo c) = negb (tst c 0x8000).
Proof.
  rewrite tst_bit15. unfold solid, cell_lo. f_equal.
  change 0xFFFF with (Z.ones 16). rewrite Z.land_spec, Z.testbit_ones_nonneg by lia.
  apply andb_true_r.
Qed.

Lemma solid_cell_hi (c : Z) : solid (cell_hi c) = negb (tst c 0x80000000).
Proof.
  rewrite tst_bit31. unfold solid, cell_hi. f_equal.
  change 0xFFFF with (Z.ones 16).
  rewrite Z.land_spec, Z.testbit_ones_nonneg, Z.shiftr_spec by lia.
  apply andb_true_r.
Qed.

Lemma to_u16_land (z : Z) : to_u16 (Z.land z 0xFFFF) = Z.land z 0xFFFF.
Proof. unfold to_u16. now rewrite <- Z.land_assoc, Z.land_diag. Qed.

(** The scan of one pixel: each bank keeps the sample of the lowest-numbered
    layer that is solid there. *)
Lemma scan_layers_topmost (l0 l1 l2 l3 : list Z) (lw x y c0 c1 c2 c3 : Z) :
  load l0 (y * lw + x) = Some c0 -> load l1 (y * lw + x) = Some c1 ->
  load l2 (y * lw + x) = Some c2 -> load l3 (y * lw + x) = Some c3 ->
  scan_layers [l0; l1; l2; l3] lw x y =
    Some (topmost [cell_lo c0; cell_lo c1; cell_lo c2; cell_lo c3],
          topmost [cell_hi c0; cell_hi c1; cell_hi c2; cell_hi c3]).
Proof.
  intros H0 H1 H2 H3. unfold scan_layers. cbn [for_down].
  change (Z.to_nat 3) with 3%nat. change (Z.to_nat (3 - 1)) with 2%nat.
  change (Z.to_nat (3 - 1 - 1)) with 1%nat. change (Z.to_nat (3 - 1 - 1 - 1)) with 0%nat.
  cbn [lookup list_lookup mbind option_bind].
  bind_with H3. bind_with H2. bind_with H1. bind_with H0. cbn [topmost].
  rewrite !solid_cell_lo, !solid_cell_hi, !to_u16_land. fold (cell_lo c0) (cell_lo c1)
    (cell_lo c2) (cell_lo c3) (cell_hi c0) (cell_hi c1) (cell_hi c2) (cell_hi c3).
  destruct (tst c0 0x8000), (tst c0 0x80000000), (tst c1 0x8000), (tst c1 0x80000000),
    (tst c2 0x8000), (tst c2 0x80000000), (tst c3 0x8000), (tst c3 0x80000000);
    reflexivity.
Qed.

Lemma merge_res_spec (o0 o1 bl : bool) (pal0 pal1 : Z) :
  merge_res o0 o1 bl pal0 pal1 = spec_colour o0 o1 bl pal0 pal1.
Proof.
  unfold merge_res, spec_colour, solid. rewrite !tst_bit15.
  destruct o0, o1, bl, (Z.testbit pal0 15), (Z.testbit pal1 15); reflexivity.
Qed.

Lemma load_cell_at (layer : list Z) (lw x y : Z) :
  0 <= y * lw + x < Z.of_nat (length layer) ->
  load layer (y * lw + x) = Some (cell_at layer lw x y).
Proof.
  intros H. rewrite load_lookup by lia. unfold cell_at.
  apply list_lookup_lookup_total_lt. lia.
Qed.

(** C8.  Every output pixel [(x, y)] receives the conversion of the colour
    the specification describes.  Per palette bank the scan of layers 3
    down to 0 ends with the sample of the lowest-numbered layer that is
    solid there ([topmost] over layers 0, 1, 2, 3), or [0x8000] when none
    is; the colour is [pal1] if [output_pal1] is set and [pal1] is solid,
    else [pal0] if [output_pal0] is set and [pal0] is solid, else
    [blend_argb1555 pal0 pal1] if [blend_pal], [output_pal0] and
    [output_pal1] are all set, else [0x8000]. *)
Theorem merge_layers_pixels (regs l0 l1 l2 l3 obuf : list Z) (lw ow oh pal_sel : Z)
    (lcd : bool) :
  load regs reg_pal_sel = Some pal_sel ->
  0 <= ow <= lw -> 0 <= oh ->
  Forall (fun l : list Z => oh * lw <= Z.of_nat (length l)) [l0; l1; l2; l3] ->
  oh * ow <= Z.of_nat (length obuf) ->
  let output_pal0 := get_bit pal_sel (if lcd then 0 else 1) in
  let output_pal1 := get_bit pal_sel (if lcd then 2 else 3) in
  let blend_pal := get_bit pal_sel (if lcd then 5 else 4) in
  exists obuf',
    merge_layers regs [l0; l1; l2; l3] lw ow oh obuf lcd = Some obuf' /\
    length obuf' = length obuf /\
    forall x y, 0 <= x < ow -> 0 <= y < oh ->
      let pal0 := topmost (map (fun l => cell_lo (cell_at l lw x y)) [l0; l1; l2; l3]) in
      let pal1 := topmost (map (fun l => cell_hi (cell_at l lw x y)) [l0; l1; l2; l3]) in
      obuf' !! Z.to_nat (y * ow + x) =
        Some (argb1555_to_rgb8888 (spec_colour output_pal0 output_pal1 blend_pal pal0 pal1)).
Proof.
  intros Hsel Hw Hh Hlay Hob o0 o1 bl.
  rewrite !Forall_cons in Hlay. destruct Hlay as (L0 & L1 & L2 & L3 & _).
  unfold merge_layers. rewrite Hsel. cbn [mbind option_bind]. fold o0 o1 bl.
  set (f := fun y x =>
    argb1555_to_rgb8888 (spec_colour o0 o1 bl
      (topmost (map (fun l => cell_lo (cell_at l lw x y)) [l0; l1; l2; l3]))
      (topmost (map (fun l => cell_hi (cell_at l lw x y)) [l0; l1; l2; l3])))).
  edestruct (for_range_rows
               (fun y obuf => for_range (Z.to_nat ow) 0 (fun x obuf =>
                  '(pal0, pal1) ← scan_layers [l0; l1; l2; l3] lw x y;
                  let res := merge_res o0 o1 bl pal0 pal1 in
                  store obuf (y * ow + x) (argb1555_to_rgb8888 res)) obuf)
               f ow (Z.to_nat oh) 0 obuf)
    as (obuf' & Hrun & Hlen & Hin & _); [lia | lia | lia | |].
  - intros y b Hy Hb.
    rewrite (for_range_ext _
      (fun x b => v ← ('(pal0, pal1) ← scan_layers [l0; l1; l2; l3] lw x y;
                       Some (argb1555_to_rgb8888 (merge_res o0 o1 bl pal0 pal1)));
                  store b (y * ow + x) v)).
    2: { intros j t. now destruct (scan_layers [l0; l1; l2; l3] lw j y) as [[p0 p1] |]. }
    destruct (for_range_store_at
                (fun x => '(pal0, pal1) ← scan_layers [l0; l1; l2; l3] lw x y;
                          Some (argb1555_to_rgb8888 (merge_res o0 o1 bl pal0 pal1)))
                (f y) (y * ow) (Z.to_nat ow) 0 b)
      as (b' & Hr & Hl & Hi & Ho); [nia | rewrite Hb; nia | |].
    + intros k Hk.
      rewrite (scan_layers_topmost l0 l1 l2 l3 lw k y
                 (cell_at l0 lw k y) (cell_at l1 lw k y) (cell_at l2 lw k y) (cell_at l3 lw k y))
        by (apply load_cell_at; nia).
      cbn [mbind option_bind]. now rewrite merge_res_spec.
    + exists b'. split; [exact Hr |]. split; [exact Hl |]. split.
      * intros x Hx. apply Hi. lia.
      * intros j Hj. apply Ho. lia.
  - exists obuf'. split; [exact Hrun |]. split; [exact Hlen |].
    intros x y Hx Hy. cbv zeta. apply (Hin y x); lia.
Qed.

Lemma merge_layers_pixels_witness :
  exists obuf',
    merge_layers (<[14%nat := 0x0A]> (replicate 32 0))
                 [[0x8000001F]; [0x03E08000]; [0x7C007C00]; [0]] 1 1 1 [0] false
      = Some obuf' /\
    obuf' !! 0%nat = Some 0xFF00FF00.
Proof.
  destruct (merge_layers_pixels (<[14%nat := 0x0A]> (replicate 32 0))
              [0x8000001F] [0x03E08000] [0x7C007C00] [0] [0] 1 1 1 0x0A false)
    as (obuf' & Hrun & _ & Hpix);
    [vm_compute; reflexivity | lia | lia | repeat constructor; cbn; lia | cbn; lia |].
  exists obuf'. split; [exact Hrun |].
  exact (Hpix 0 0 ltac:(lia) ltac:(lia)).
Defined.

(** * Further properties *)

(** ** Colour conversion *)

(** A value whose low [n] bits are clear, or-ed with one that fits in [n]
    bits. *)
Lemma lor_add_disjoint (a b n : Z) :
  0 <= n -> a mod 2 ^ n = 0 -> 0 <= b < 2 ^ n -> Z.lor a b = a + b.
Proof.
  intros Hn Ha Hb.
  assert (H2 : 0 < 2 ^ n) by (apply Z.pow_pos_nonneg; lia).
  assert (E : a = Z.shiftl (a / 2 ^ n) n).
  { rewrite Z.shiftl_mul_pow2 by assumption.
    pose proof (Z.div_mod a (2 ^ n) ltac:(lia)). lia. }
  rewrite E at 1. rewrite lor_shiftl_add by assumption.
  pose proof (Z.div_mod a (2 ^ n) ltac:(lia)). lia.
Qed.

Lemma c5_to_8_expand (x : Z) :
  0 <= x < 32 ->
  c5_to_8 x = 8 * x + (if Z.odd x then 7 else 0) /\
  0 <= c5_to_8 x < 256 /\
  Z.shiftr (c5_to_8 x) 3 = x.
Proof.
  intros Hx. unfold c5_to_8, get_bit. cbv zeta. rewrite Z.bit0_odd.
  assert (E : Z.lor (Z.shiftl x 3) (if Z.odd x then 7 else 0)
              = 8 * x + (if Z.odd x then 7 else 0)).
  { rewrite lor_shiftl_add by (destruct (Z.odd x); lia). change (2 ^ 3) with 8. lia. }
  rewrite E.
  assert (R : 0 <= 8 * x + (if Z.odd x then 7 else 0) < 256) by (destruct (Z.odd x); lia).
  rewrite to_u8_id by exact R.
  split; [reflexivity |]. split; [exact R |].
  rewrite Z.shiftr_div_pow2 by lia. change (2 ^ 3) with 8.
  destruct (Z.odd x); Z.div_mod_to_equations; lia.
Qed.

(** X1.  [c5_to_8] widens a 5-bit channel to 8 bits by shifting it left by three
    and filling the three new low bits with copies of its lowest bit; the
    result fits a byte and its top five bits give the channel back. *)
Theorem c5_to_8_value (x : Z) :
  0 <= x < 32 ->
  c5_to_8 x = 8 * x + (if Z.odd x then 7 else 0) /\
  0 <= c5_to_8 x < 256 /\
  Z.shiftr (c5_to_8 x) 3 = x.
Proof. exact (c5_to_8_expand x). Qed.

Lemma c5_to_8_value_witness : c5_to_8 31 = 255 /\ Z.shiftr (c5_to_8 31) 3 = 31.
Proof.
  destruct (c5_to_8_value 31) as (E & _ & S); [lia |]. split; [exact E | exact S].
Defined.

Lemma argb1555_to_rgb8888_transparent (x : Z) :
  Z.testbit x 15 = true -> argb1555_to_rgb8888 x = 0xFF000000.
Proof. intros H. unfold argb1555_to_rgb8888, get_bit. cbv zeta. now rewrite H. Qed.

Lemma argb1555_to_rgb8888_solid (x : Z) :
  Z.testbit x 15 = false ->
  argb1555_to_rgb8888 x =
    0xFF000000 + c5_to_8 (chan_r x) * 65536 + c5_to_8 (chan_g x) * 256 + c5_to_8 (chan_b x).
Proof.
  intros H. unfold argb1555_to_rgb8888, get_bit. cbv zeta. rewrite H.
  fold (chan_r x) (chan_g x) (chan_b x).
  pose proof (land_1F_range x) as Hr. fold (chan_r x) in Hr.
  pose proof (land_1F_range (Z.shiftr x 5)) as Hg. fold (chan_g x) in Hg.
  pose proof (land_1F_range (Z.shiftr x 10)) as Hb. fold (chan_b x) in Hb.
  rewrite !(to_u8_id (chan_r x)), !(to_u8_id (chan_g x)), !(to_u8_id (chan_b x))
    by (unfold is_u8; lia).
  destruct (c5_to_8_expand _ Hr) as (_ & Rr & _).
  destruct (c5_to_8_expand _ Hg) as (_ & Rg & _).
  destruct (c5_to_8_expand _ Hb) as (_ & Rb & _).
  set (r := c5_to_8 (chan_r x)) in *. set (g := c5_to_8 (chan_g x)) in *.
  set (b := c5_to_8 (chan_b x)) in *.
  change (to_u32 (Z.lor 0 0xFF000000)) with 0xFF000000.
  rewrite (Z.shiftl_mul_pow2 r), (Z.shiftl_mul_pow2 g) by lia.
  change (2 ^ 16) with 65536. change (2 ^ 8) with 256.
  rewrite (lor_add_disjoint 0xFF000000 (r * 65536) 24) by (try reflexivity; lia).
  rewrite (to_u32_id (_ + r * 65536)) by (unfold is_u32; lia).
  rewrite (lor_add_disjoint (_ + r * 65536) (g * 256) 16);
    [| lia | change (2 ^ 16) with 65536; Z.div_mod_to_equations; lia | lia].
  rewrite (to_u32_id (_ + g * 256)) by (unfold is_u32; lia).
  rewrite (lor_add_disjoint (_ + g * 256) b 8);
    [| lia | change (2 ^ 8) with 256; Z.div_mod_to_equations; lia | lia].
  apply to_u32_id. unfold is_u32. lia.
Qed.

Lemma solid_u16_small (x : Z) : is_u16 x -> Z.testbit x 15 = false -> 0 <= x < 32768.
Proof.
  intros Hx Hb. unfold is_u16 in Hx.
  destruct (Z.testbit_false x 15 ltac:(lia)) as [Hf _]. specialize (Hf Hb).
  change (2 ^ 15) with 32768 in Hf. change (2 ^ 16) with 65536 in Hx.
  Z.div_mod_to_equations. lia.
Qed.

Lemma chan_sum (x : Z) :
  0 <= x < 32768 -> x = chan_r x + 32 * chan_g x + 1024 * chan_b x.
Proof.
  intros Hx. unfold chan_r, chan_g, chan_b.
  rewrite !land_1F_mod, !Z.shiftr_div_pow2 by lia.
  change (2 ^ 5) with 32. change (2 ^ 10) with 1024.
  Z.div_mod_to_equations. lia.
Qed.

Lemma chan_range (x : Z) :
  0 <= chan_r x < 32 /\ 0 <= chan_g x < 32 /\ 0 <= chan_b x < 32.
Proof. unfold chan_r, chan_g, chan_b. auto using land_1F_range. Qed.

Lemma argb1555_to_rgb8888_shape (x : Z) :
  is_u32 (argb1555_to_rgb8888 x) /\
  Z.shiftr (argb1555_to_rgb8888 x) 24 = 0xFF /\
  (Z.testbit x 15 = true -> argb1555_to_rgb8888 x = 0xFF000000) /\
  (Z.testbit x 15 = false ->
     Z.land (Z.shiftr (argb1555_to_rgb8888 x) 16) 0xFF = c5_to_8 (chan_r x) /\
     Z.land (Z.shiftr (argb1555_to_rgb8888 x) 8) 0xFF = c5_to_8 (chan_g x) /\
     Z.land (argb1555_to_rgb8888 x) 0xFF = c5_to_8 (chan_b x)).
Proof.
  destruct (chan_range x) as (Hr & Hg & Hb).
  destruct (c5_to_8_expand _ Hr) as (_ & Rr & _).
  destruct (c5_to_8_expand _ Hg) as (_ & Rg & _).
  destruct (c5_to_8_expand _ Hb) as (_ & Rb & _).
  destruct (Z.testbit x 15) eqn:T.
  - rewrite argb1555_to_rgb8888_transparent by exact T.
    repeat split; try discriminate; vm_compute; congruence.
  - rewrite argb1555_to_rgb8888_solid by exact T.
    rewrite !land_FF_mod, !Z.shiftr_div_pow2 by lia.
    change (2 ^ 24) with 16777216. change (2 ^ 16) with 65536. change (2 ^ 8) with 256.
    unfold is_u32. change (2 ^ 32) with 4294967296.
    repeat split; try discriminate; intros; Z.div_mod_to_equations; lia.
Qed.

(** X2.  Every value [argb1555_to_rgb8888] returns is a 32-bit word with alpha
    [0xFF]; a transparent sample gives black, a solid one puts the widened
    bits 0-4 of the sample in bits 16-23, bits 5-9 in bits 8-15 and bits
    10-14 in bits 0-7. *)
Theorem argb1555_to_rgb8888_layout (x : Z) :
  is_u32 (argb1555_to_rgb8888 x) /\
  Z.shiftr (argb1555_to_rgb8888 x) 24 = 0xFF /\
  (Z.testbit x 15 = true -> argb1555_to_rgb8888 x = 0xFF000000) /\
  (Z.testbit x 15 = false ->
     Z.land (Z.shiftr (argb1555_to_rgb8888 x) 16) 0xFF = c5_to_8 (chan_r x) /\
     Z.land (Z.shiftr (argb1555_to_rgb8888 x) 8) 0xFF = c5_to_8 (chan_g x) /\
     Z.land (argb1555_to_rgb8888 x) 0xFF = c5_to_8 (chan_b x)).
Proof. exact (argb1555_to_rgb8888_shape x). Qed.

(** X3.  Two solid 16-bit samples that convert to the same output pixel are the
    same sample: the conversion loses no colour. *)
Theorem argb1555_to_rgb8888_solid_injective (x x' : Z) :
  is_u16 x -> is_u16 x' -> Z.testbit x 15 = false -> Z.testbit x' 15 = false ->
  argb1555_to_rgb8888 x = argb1555_to_rgb8888 x' -> x = x'.
Proof.
  intros Ux Ux' Tx Tx' E.
  rewrite !argb1555_to_rgb8888_solid in E by assumption.
  destruct (chan_range x) as (Hr & Hg & Hb). destruct (chan_range x') as (Hr' & Hg' & Hb').
  destruct (c5_to_8_expand _ Hr) as (_ & Rr & Sr). destruct (c5_to_8_expand _ Hr') as (_ & Rr' & Sr').
  destruct (c5_to_8_expand _ Hg) as (_ & Rg & Sg). destruct (c5_to_8_expand _ Hg') as (_ & Rg' & Sg').
  destruct (c5_to_8_expand _ Hb) as (_ & Rb & Sb). destruct (c5_to_8_expand _ Hb') as (_ & Rb' & Sb').
  assert (Er : c5_to_8 (chan_r x) = c5_to_8 (chan_r x')) by lia.
  assert (Eg : c5_to_8 (chan_g x) = c5_to_8 (chan_g x')) by lia.
  assert (Eb : c5_to_8 (chan_b x) = c5_to_8 (chan_b x')) by lia.
  rewrite Er in Sr. rewrite Eg in Sg. rewrite Eb in Sb.
  rewrite (chan_sum x), (chan_sum x') by (apply solid_u16_small; assumption).
  congruence.
Qed.

Lemma argb1555_to_rgb8888_solid_injective_witness :
  Z.lor 0x001F 0x0000 = 0x001F.
Proof.
  apply (argb1555_to_rgb8888_solid_injective (Z.lor 0x001F 0x0000) 0x001F);
    try reflexivity; (unfold is_u16; vm_compute; split; [discriminate | reflexivity]).
Defined.

(** X4.  [blend_argb1555] returns the other sample when one is transparent; for
    two solid samples it returns, in bits 0-4, the mean of the two low
    fields, in bits 5-9 half of the first sample's second field plus the
    lowest bit of the other's, and in bits 10-14 the mean of bits 11-15 of
    the two samples; the result is solid. *)
Theorem blend_argb1555_cases (a b : Z) :
  (Z.testbit a 15 = true -> blend_argb1555 a b = b) /\
  (Z.testbit a 15 = false -> Z.testbit b 15 = true -> blend_argb1555 a b = a) /\
  (Z.testbit a 15 = false -> Z.testbit b 15 = false ->
     blend_argb1555 a b =
       (chan_r a + chan_r b) / 2
       + 32 * ((chan_g a + chan_g b mod 2) / 2)
       + 1024 * ((Z.land (Z.shiftr a 11) 0x1F + Z.land (Z.shiftr b 11) 0x1F) / 2) /\
     Z.testbit (blend_argb1555 a b) 15 = false).
Proof.
  split; [apply blend_argb1555_transparent_a |].
  split; [apply blend_argb1555_transparent_b |].
  intros Ha Hb. split; [| now apply blend_argb1555_solid].
  unfold blend_argb1555. rewrite !tst_bit15, Ha, Hb. cbv zeta.
  fold (chan_r a) (chan_r b) (chan_g a).
  pose proof (chan_range a) as (Ra & Ga & _). pose proof (chan_range b) as (Rb & Gb & _).
  pose proof (land_1F_range (Z.shiftr a 11)) as Ba.
  pose proof (land_1F_range (Z.shiftr b 11)) as Bb.
  assert (E1 : Z.land (Z.shiftr b 5) 1 = chan_g b mod 2).
  { unfold chan_g. rewrite land_1F_mod. change 1 with (2 ^ 1 - 1) at 1.
    rewrite land_ones_mod by lia. change (2 ^ 1) with 2.
    Z.div_mod_to_equations. lia. }
  rewrite E1.
  pose proof (Z.mod_pos_bound (chan_g b) 2 ltac:(lia)) as G2.
  set (r := (chan_r a + chan_r b) / 2).
  set (g := (chan_g a + chan_g b mod 2) / 2).
  set (bl := (Z.land (Z.shiftr a 11) 31 + Z.land (Z.shiftr b 11) 31) / 2).
  assert (Hr : 0 <= r < 32) by (subst r; Z.div_mod_to_equations; lia).
  assert (Hg : 0 <= g < 32) by (subst g; Z.div_mod_to_equations; lia).
  assert (Hbl : 0 <= bl < 32) by (subst bl; Z.div_mod_to_equations; lia).
  rewrite !land_1F_mod, !(Z.mod_small _ 32) by assumption.
  rewrite Z.lor_0_l, (to_u16_id r) by (unfold is_u16; lia).
  rewrite (Z.lor_comm r), lor_shiftl_add by lia.
  rewrite (to_u16_id (g * 2 ^ 5 + r)) by (unfold is_u16; lia).
  rewrite (Z.lor_comm _ (Z.shiftl bl 10)), lor_shiftl_add by lia.
  rewrite to_u16_id by (unfold is_u16; lia). lia.
Qed.

(** ** More of the register port *)

Lemma ppu_read_plain (st : ppu_state) (address : Z) :
  address <> reg_spram_data -> address <> reg_vram_data -> address <> reg_ppu_stat ->
  ppu_read st address = load (ppu_regs st) address.
Proof.
  intros H4 H7 H1. unfold ppu_read.
  apply Z.eqb_neq in H4. apply Z.eqb_neq in H7. apply Z.eqb_neq in H1.
  now rewrite H4, H7, H1.
Qed.

Lemma ppu_read_stat (st : ppu_state) :
  ppu_read st reg_ppu_stat = Some (if ppu_is_vblank st then 0x80 else 0x00).
Proof. unfold ppu_read. cbn [Z.eqb reg_ppu_stat reg_spram_data reg_vram_data Pos.eqb].
  now destruct (ppu_is_vblank st). Qed.

(** The state a plain register write produces. *)
Lemma ppu_write_plain_step (st : ppu_state) (address d : Z) :
  wf_state st -> 0 <= address < 256 -> is_u8 d ->
  address <> 0x04 -> address <> 0x07 ->
  ppu_write address d st = Some (with_regs st (<[Z.to_nat address := d]> (ppu_regs st))) /\
  wf_state (with_regs st (<[Z.to_nat address := d]> (ppu_regs st))).
Proof.
  intros (Hlen & Hall & Hvl & Hsl) Ha Hd H4 H7.
  rewrite ppu_write_plain by assumption.
  rewrite store_Some by lia. cbn [mbind option_bind]. split; [reflexivity |].
  unfold wf_state. cbn [ppu_regs vram spram with_regs]. rewrite length_insert.
  repeat split; try assumption. now apply Forall_insert.
Qed.

(** X5.  A write to a plain register is read back, is seen by no other register,
    and leaves both memories and the frame clock alone.  Register 0x01 is
    the exception on the read side: its reads return the status, whatever
    was written. *)
Theorem ppu_write_plain_register (st : ppu_state) (address d : Z) :
  wf_state st -> 0 <= address < 256 -> is_u8 d ->
  address <> 0x04 -> address <> 0x07 ->
  exists st',
    ppu_write address d st = Some st' /\
    load (ppu_regs st') address = Some d /\
    (address <> 0x01 -> ppu_read st' address = Some d) /\
    ppu_read st' 0x01 = ppu_read st 0x01 /\
    (forall r, r <> address -> load (ppu_regs st') r = load (ppu_regs st) r) /\
    vram st' = vram st /\ spram st' = spram st.
Proof.
  intros Hwf Ha Hd H4 H7.
  destruct (ppu_write_plain_step st address d Hwf Ha Hd H4 H7) as (Hw & _).
  destruct Hwf as (Hlen & _).
  eexists. split; [exact Hw |]. cbn [ppu_regs vram spram with_regs].
  assert (Hrd : load (<[Z.to_nat address := d]> (ppu_regs st)) address = Some d).
  { rewrite load_lookup by lia. apply list_lookup_insert_eq. lia. }
  split; [exact Hrd |]. split; [| split; [| split]].
  - intros H1. rewrite ppu_read_plain by assumption. exact Hrd.
  - change 0x01 with reg_ppu_stat. now rewrite !ppu_read_stat.
  - intros r Hr. unfold load. destruct (0 <=? r) eqn:E; [| reflexivity].
    apply Z.leb_le in E. apply list_lookup_insert_ne. lia.
  - auto.
Qed.

Lemma ppu_write_plain_register_witness :
  exists st', ppu_write 0x18 0x04 ppu_reset = Some st' /\ ppu_read st' 0x18 = Some 0x04.
Proof.
  assert (Hwf : wf_state ppu_reset) by (apply (bool_decide_unpack _); vm_compute; exact I).
  destruct (ppu_write_plain_register ppu_reset 0x18 0x04 Hwf)
    as (st' & Hw & _ & Hr & _);
    [lia | unfold is_u8; lia | discriminate | discriminate |].
  exists st'. split; [exact Hw | apply Hr; discriminate].
Defined.

(** X6.  Every register write succeeds and keeps the state well formed; none
    touches the frame clock. *)
Theorem ppu_write_wf (st : ppu_state) (address d : Z) :
  wf_state st -> 0 <= address < 256 -> is_u8 d ->
  exists st',
    ppu_write address d st = Some st' /\ wf_state st' /\
    ticks st' = ticks st /\ render_ready st' = render_ready st /\
    (address <> 0x07 -> vram st' = vram st) /\
    (address <> 0x04 -> spram st' = spram st).
Proof.
  intros Hwf Ha Hd.
  destruct (Z.eq_dec address 0x04) as [-> | H4]; [| destruct (Z.eq_dec address 0x07) as [-> | H7]].
  - destruct (spram_write_step st d Hwf) as (a & st' & _ & _ & Hw & _ & Hv & _ & _ & _ & Hwf').
    exists st'. split; [exact Hw |]. split; [exact Hwf' |].
    rewrite ppu_write_spram_eq in Hw.
    destruct (spram_window (ppu_regs st)); [| discriminate]. cbn in Hw.
    destruct (store (spram st) _ d); [| discriminate]. cbn in Hw.
    destruct (store (ppu_regs st) _ _); [| discriminate]. cbn in Hw.
    destruct (store _ reg_spram_addr_lsb _); [| discriminate]. cbn in Hw.
    injection Hw as <-. cbn. repeat split; try reflexivity; intros; congruence.
  - destruct (vram_write_step st d Hwf) as (a & st' & _ & _ & Hw & _ & Hs & _ & Hwf').
    exists st'. split; [exact Hw |]. split; [exact Hwf' |].
    rewrite ppu_write_vram_eq in Hw.
    destruct (vram_window (ppu_regs st)); [| discriminate]. cbn in Hw.
    destruct (store (vram st) _ d); [| discriminate]. cbn in Hw.
    destruct (store (ppu_regs st) _ _); [| discriminate]. cbn in Hw.
    destruct (store _ reg_vram_addr_lsb _); [| discriminate]. cbn in Hw.
    injection Hw as <-. cbn. repeat split; try reflexivity; intros; congruence.
  - destruct (ppu_write_plain_step st address d Hwf Ha Hd H4 H7) as (Hw & Hwf').
    eexists. split; [exact Hw |]. split; [exact Hwf' |]. cbn. auto.
Qed.

Lemma ppu_write_wf_witness :
  exists st', ppu_write 0x07 0xAB ppu_reset = Some st' /\ wf_state st'.
Proof.
  assert (Hwf : wf_state ppu_reset) by (apply (bool_decide_unpack _); vm_compute; exact I).
  destruct (ppu_write_wf ppu_reset 0x07 0xAB Hwf) as (st' & Hw & Hwf' & _);
    [lia | unfold is_u8; lia |].
  exists st'. split; assumption.
Defined.

(** X7.  A run of SPRAM port writes that stays inside the six defined bytes of
    one sprite entry stores its bytes at consecutive addresses; if it ends
    on byte 5 the window moves to the next entry, skipping bytes 6 and 7. *)
Theorem spram_port_writes_in_entry (bs : list Z) :
  forall (st : ppu_state) (a : Z),
    wf_state st -> spram_window (ppu_regs st) = Some a ->
    a mod 8 <= 5 -> a mod 8 + Z.of_nat (length bs) <= 6 ->
    exists st',
      spram_port_writes bs st = Some st' /\ wf_state st' /\
      spram_window (ppu_regs st') =
        Some (if a mod 8 + Z.of_nat (length bs) =? 6
              then (a - a mod 8 + 8) mod 2048
              else a + Z.of_nat (length bs)) /\
      (forall (j : nat) b, bs !! j = Some b ->
         spram st' !! Z.to_nat (a + Z.of_nat j) = Some b) /\
      (forall k : nat, ~ (a <= Z.of_nat k < a + Z.of_nat (length bs)) ->
         spram st' !! k = spram st !! k) /\
      vram st' = vram st.
Proof.
  induction bs as [| b bs IH]; intros st a Hwf Hwin Ho Hlen.
  - exists st. cbn [spram_port_writes]. change (Z.of_nat (length (@nil Z))) with 0 in *.
    split; [reflexivity |]. split; [exact Hwf |]. split; [| split; [| split]].
    + rewrite Hwin. destruct (Z.eqb_spec (a mod 8 + 0) 6); [lia | f_equal; lia].
    + intros j b Hj. now rewrite lookup_nil in Hj.
    + reflexivity.
    + reflexivity.
  - destruct (spram_write_step st b Hwf)
      as (a' & st1 & Hwin' & Ha & Hw & Hs & Hv & _ & _ & Hwin1 & Hwf1).
    rewrite Hwin in Hwin'. injection Hwin' as <-.
    assert (HS : Z.of_nat (length (b :: bs)) = Z.of_nat (length bs) + 1)
      by (cbn [length]; lia).
    rewrite HS in *. cbn [spram_port_writes]. bind_with Hw.
    assert (Hsl : Z.of_nat (length (spram st)) = 2048) by (destruct Hwf as (_ & _ & _ & H); exact H).
    unfold spec_spram_next in Hwin1. cbv zeta in Hwin1.
    destruct (Z.leb_spec 6 ((a + 1) mod 8)) as [H6 | H6].
    + (* the write was to byte 5: the run ends here *)
      assert (Ho5 : a mod 8 = 5) by (Z.div_mod_to_equations; lia).
      assert (Hnil : bs = []) by (destruct bs; [reflexivity | cbn [length] in Hlen; lia]).
      subst bs. cbn [spram_port_writes] in *. change (Z.of_nat (length (@nil Z))) with 0 in *.
      exists st1. split; [reflexivity |]. split; [exact Hwf1 |]. split; [| split; [| split]].
      * rewrite Hwin1. destruct (Z.eqb_spec (a mod 8 + (0 + 1)) 6); [| lia].
        do 2 f_equal. Z.div_mod_to_equations. lia.
      * intros [| j] b' Hj; cbn in Hj; [| discriminate].
        injection Hj as <-. rewrite Hs, Z.add_0_r. apply list_lookup_insert_eq. lia.
      * intros k Hk. rewrite Hs. apply list_lookup_insert_ne. lia.
      * exact Hv.
    + assert (Ho4 : a mod 8 <= 4) by (Z.div_mod_to_equations; lia).
      assert (Hsm : (a + 1) mod 2048 = a + 1)
        by (apply Z.mod_small; Z.div_mod_to_equations; lia).
      rewrite Hsm in Hwin1.
      assert (Hm1 : (a + 1) mod 8 = a mod 8 + 1) by (Z.div_mod_to_equations; lia).
      destruct (IH st1 (a + 1) Hwf1 Hwin1) as (st' & Hrun & Hwf' & Hwinf & Hin & Hout & Hv');
        [lia | lia |].
      exists st'. split; [exact Hrun |]. split; [exact Hwf' |]. split; [| split; [| split]].
      * rewrite Hwinf, Hm1.
        replace (a mod 8 + 1 + Z.of_nat (length bs)) with (a mod 8 + (Z.of_nat (length bs) + 1)) by lia.
        replace (a + 1 - (a mod 8 + 1) + 8) with (a - a mod 8 + 8) by lia.
        replace (a + 1 + Z.of_nat (length bs)) with (a + (Z.of_nat (length bs) + 1)) by lia.
        reflexivity.
      * intros [| j] b' Hj; cbn in Hj.
        -- injection Hj as <-. rewrite Hout by lia.
           rewrite Hs, Z.add_0_r. apply list_lookup_insert_eq. lia.
        -- specialize (Hin j b' Hj). rewrite <- Hin. do 2 f_equal. lia.
      * intros k Hk. rewrite Hout by lia. rewrite Hs. apply list_lookup_insert_ne. lia.
      * congruence.
Qed.

Lemma spram_port_writes_in_entry_witness :
  exists st',
    spram_port_writes [1; 2; 3; 4; 5; 6] ppu_reset = Some st' /\
    spram_window (ppu_regs st') = Some 8.
Proof.
  assert (Hwf : wf_state ppu_reset) by (apply (bool_decide_unpack _); vm_compute; exact I).
  destruct (spram_port_writes_in_entry [1; 2; 3; 4; 5; 6] ppu_reset 0 Hwf eq_refl)
    as (st' & Hrun & _ & Hwin & _); [vm_compute; discriminate | vm_compute; discriminate |].
  exists st'. split; [exact Hrun | exact Hwin].
Defined.

Lemma load_store_other (l l' : list Z) (i j v : Z) :
  store l i v = Some l' -> i <> j -> load l' j = load l j.
Proof.
  intros Hs Hne. apply store_inv in Hs. destruct Hs as (Hi & ->).
  unfold load. destruct (0 <=? j) eqn:E; [| reflexivity].
  apply Z.leb_le in E. apply list_lookup_insert_ne. lia.
Qed.

(** X8.  The NMI enable flag is bit 0 of what was last written to register 0:
    a write to register 0 sets it to the lowest bit of the data, and no
    write to another address, the two data ports included, changes it. *)
Theorem ppu_nmi_enabled_write (st : ppu_state) (address d : Z) :
  wf_state st -> 0 <= address < 256 -> is_u8 d ->
  exists st',
    ppu_write address d st = Some st' /\
    ppu_nmi_enabled st' =
      (if address =? 0 then Some (Z.odd d) else ppu_nmi_enabled st).
Proof.
  intros Hwf Ha Hd. unfold ppu_nmi_enabled.
  destruct (Z.eq_dec address 0x04) as [-> | H4]; [| destruct (Z.eq_dec address 0x07) as [-> | H7]].
  - destruct (spram_write_step st d Hwf) as (a & st' & _ & _ & Hw & _).
    exists st'. split; [exact Hw |]. cbn [Z.eqb].
    rewrite ppu_write_spram_eq in Hw.
    destruct (spram_window (ppu_regs st)); [| discriminate]. cbn in Hw.
    destruct (store (spram st) _ d); [| discriminate]. cbn in Hw.
    destruct (store (ppu_regs st) _ _) as [r1 |] eqn:S1; [| discriminate]. cbn in Hw.
    destruct (store r1 reg_spram_addr_lsb _) as [r2 |] eqn:S2; [| discriminate]. cbn in Hw.
    injection Hw as <-. cbn [ppu_regs with_regs with_spram with_vram].
    rewrite (load_store_other _ _ _ 0 _ S2) by discriminate.
    now rewrite (load_store_other _ _ _ 0 _ S1) by discriminate.
  - destruct (vram_write_step st d Hwf) as (a & st' & _ & _ & Hw & _).
    exists st'. split; [exact Hw |]. cbn [Z.eqb].
    rewrite ppu_write_vram_eq in Hw.
    destruct (vram_window (ppu_regs st)); [| discriminate]. cbn in Hw.
    destruct (store (vram st) _ d); [| discriminate]. cbn in Hw.
    destruct (store (ppu_regs st) _ _) as [r1 |] eqn:S1; [| discriminate]. cbn in Hw.
    destruct (store r1 reg_vram_addr_lsb _) as [r2 |] eqn:S2; [| discriminate]. cbn in Hw.
    injection Hw as <-. cbn [ppu_regs with_regs with_spram with_vram].
    rewrite (load_store_other _ _ _ 0 _ S2) by discriminate.
    now rewrite (load_store_other _ _ _ 0 _ S1) by discriminate.
  - destruct (ppu_write_plain_step st address d Hwf Ha Hd H4 H7) as (Hw & _).
    eexists. split; [exact Hw |]. cbn [ppu_regs with_regs].
    destruct Hwf as (Hlen & _).
    destruct (Z.eqb_spec address 0) as [-> | H0].
    + rewrite load_lookup by lia. rewrite list_lookup_insert_eq by lia.
      cbn [mbind option_bind]. unfold get_bit. now rewrite Z.bit0_odd.
    + rewrite (load_store_other (ppu_regs st) _ address 0 d); [reflexivity | | exact H0].
      apply store_Some. lia.
Qed.

Lemma ppu_nmi_enabled_write_witness :
  exists st', ppu_write 0x00 0x81 ppu_reset = Some st' /\ ppu_nmi_enabled st' = Some true.
Proof.
  assert (Hwf : wf_state ppu_reset) by (apply (bool_decide_unpack _); vm_compute; exact I).
  destruct (ppu_nmi_enabled_write ppu_reset 0x00 0x81 Hwf) as (st' & Hw & Hn);
    [lia | unfold is_u8; lia |].
  exists st'. split; [exact Hw | exact Hn].
Defined.

(** ** More of the frame pump *)

Lemma ppu_tick_step (st : ppu_state) :
  0 <= ticks st < v_total ->
  ticks (ppu_tick st) = (ticks st + 1) mod v_total /\
  render_ready (ppu_tick st) = render_ready st || (ticks st + 1 =? vblank_len) /\
  ppu_regs (ppu_tick st) = ppu_regs st /\
  vram (ppu_tick st) = vram st /\ spram (ppu_tick st) = spram st.
Proof.
  intros Ht. unfold ppu_tick, with_ticks, with_render_ready, v_total, vblank_len in *.
  cbn [ticks ppu_regs vram spram render_ready].
  rewrite to_u32_id by (unfold is_u32; lia).
  destruct (Z.leb_spec 106392 (ticks st + 1)) as [Hw | Hw];
    cbn [ticks ppu_regs vram spram render_ready].
  - assert (E : ticks st + 1 = 106392) by lia. rewrite E, Z.mod_same by lia.
    cbn. rewrite orb_false_r. auto.
  - rewrite Z.mod_small by lia.
    destruct (Z.eqb_spec (ticks st + 1) 22036);
      cbn [ticks ppu_regs vram spram render_ready];
      rewrite ?orb_true_r, ?orb_false_r; auto.
Qed.

Lemma ppu_ticks_run (n : nat) (st : ppu_state) :
  ticks st = 0 ->
  ticks (ppu_ticks n st) = Z.of_nat n mod v_total /\
  render_ready (ppu_ticks n st) = render_ready st || (vblank_len <=? Z.of_nat n) /\
  ppu_regs (ppu_ticks n st) = ppu_regs st /\
  vram (ppu_ticks n st) = vram st /\ spram (ppu_ticks n st) = spram st.
Proof.
  intros H0. induction n as [| n (IHt & IHr & IHg & IHv & IHs)].
  - cbn. rewrite H0, orb_false_r. auto.
  - rewrite ppu_ticks_S.
    assert (Hb : 0 <= ticks (ppu_ticks n st) < v_total)
      by (rewrite IHt; apply Z.mod_pos_bound; reflexivity).
    destruct (ppu_tick_step _ Hb) as (Et & Er & Eg & Ev & Es).
    rewrite Et, Er, Eg, Ev, Es, IHt, IHr.
    split; [| split; [| auto]].
    + rewrite Zplus_mod_idemp_l. f_equal. lia.
    + rewrite <- orb_assoc. f_equal. unfold vblank_len, v_total.
      destruct (Z.leb_spec 22036 (Z.of_nat n)) as [H | H]; cbn [orb].
      * symmetry. apply Z.leb_le. lia.
      * rewrite Z.mod_small by lia.
        destruct (Z.eqb_spec (Z.of_nat n + 1) 22036), (Z.leb_spec 22036 (Z.of_nat (S n)));
          try reflexivity; lia.
Qed.

(** X9.  From [ticks = 0], after [n] calls of [ppu_tick] the counter is
    [n mod v_total], the status register reads [0x80] exactly during the
    first [vblank_len] ticks of each period, and the memories and registers
    are as before. *)
Theorem ppu_ticks_timeline (n : nat) (st : ppu_state) :
  ticks st = 0 ->
  ticks (ppu_ticks n st) = Z.of_nat n mod 106392 /\
  ppu_read (ppu_ticks n st) 0x01 =
    Some (if Z.of_nat n mod 106392 <? 22036 then 0x80 else 0x00) /\
  ppu_regs (ppu_ticks n st) = ppu_regs st /\
  vram (ppu_ticks n st) = vram st /\ spram (ppu_ticks n st) = spram st.
Proof.
  intros H0. destruct (ppu_ticks_run n st H0) as (Et & _ & Eg & Ev & Es).
  split; [exact Et |]. split; [| auto].
  change 0x01 with reg_ppu_stat. rewrite ppu_read_stat.
  unfold ppu_is_vblank, vblank_start, vblank_len. rewrite Et. unfold v_total.
  pose proof (Z.mod_pos_bound (Z.of_nat n) 106392 ltac:(lia)) as Hb.
  destruct (Z.leb_spec 0 (Z.of_nat n mod 106392)); [| lia]. reflexivity.
Qed.

Lemma ppu_ticks_timeline_witness :
  ppu_read (ppu_ticks (Z.to_nat 22036) ppu_reset) 0x01 = Some 0x00.
Proof.
  destruct (ppu_ticks_timeline (Z.to_nat 22036) ppu_reset eq_refl) as (_ & Hr & _).
  rewrite Hr. rewrite Z2Nat.id by lia. reflexivity.
Defined.

(** X10.  [ppu_tick] wakes the renderer at the end of VBLANK and never withdraws
    the request: from [ticks = 0] the flag [render_ready] is the initial
    flag until call number [vblank_len = 22036] and set from then on. *)
Theorem ppu_ticks_render_ready (n : nat) (st : ppu_state) :
  ticks st = 0 ->
  render_ready (ppu_ticks n st) = render_ready st || (22036 <=? Z.of_nat n).
Proof. intros H0. exact (proj1 (proj2 (ppu_ticks_run n st H0))). Qed.

Lemma ppu_ticks_render_ready_witness :
  render_ready (ppu_ticks (Z.to_nat 22035) ppu_reset) = false /\
  render_ready (ppu_ticks (Z.to_nat 22036) ppu_reset) = true.
Proof.
  split.
  - rewrite (ppu_ticks_render_ready (Z.to_nat 22035) ppu_reset eq_refl).
    rewrite Z2Nat.id by lia. reflexivity.
  - rewrite (ppu_ticks_render_ready (Z.to_nat 22036) ppu_reset eq_refl).
    rewrite Z2Nat.id by lia. reflexivity.
Defined.

(** ** The index decoder *)

Lemma le_value_nonneg (src : list Z) : Forall is_u8 src -> 0 <= le_value src.
Proof.
  induction 1 as [| b rest Hb _ IH]; cbn [le_value]; [lia |].
  unfold is_u8 in Hb. lia.
Qed.

(** The number splits at any byte boundary. *)
Lemma le_value_split (p : nat) (src : list Z) :
  Forall is_u8 src ->
  le_value src = le_value (take p src) + 2 ^ (8 * Z.of_nat p) * le_value (drop p src) /\
  0 <= le_value (take p src) < 2 ^ (8 * Z.of_nat p).
Proof.
  revert src. induction p as [| p IH]; intros src Hsrc.
  - rewrite take_0, drop_0. cbn [le_value]. change (2 ^ (8 * Z.of_nat 0)) with 1. lia.
  - destruct Hsrc as [| b rest Hb Hrest].
    + rewrite take_nil, drop_nil. cbn [le_value].
      assert (0 < 2 ^ (8 * Z.of_nat (S p))) by (apply Z.pow_pos_nonneg; lia). lia.
    + cbn [take drop le_value]. destruct (IH rest Hrest) as (E & R).
      replace (8 * Z.of_nat (S p)) with (8 + 8 * Z.of_nat p) by lia.
      rewrite Z.pow_add_r by lia. change (2 ^ 8) with 256.
      unfold is_u8 in Hb. change (2 ^ 8) with 256 in Hb.
      set (q := 2 ^ (8 * Z.of_nat p)) in *. split; nia.
Qed.

(** The bits from byte [p] on are the number of the rest of the buffer. *)
Lemma le_value_shift (p : nat) (src : list Z) :
  Forall is_u8 src ->
  le_value src / 2 ^ (8 * Z.of_nat p) = le_value (drop p src).
Proof.
  intros Hsrc. destruct (le_value_split p src Hsrc) as (E & R).
  assert (0 < 2 ^ (8 * Z.of_nat p)) by (apply Z.pow_pos_nonneg; lia).
  rewrite E, Z.mul_comm, Z.div_add by lia. rewrite Z.div_small by lia. lia.
Qed.

(** The sixteen bits at byte [p]: the byte and its successor, 0 past the
    end. *)
Lemma le_value_at (p : nat) (src : list Z) (b : Z) :
  Forall is_u8 src -> src !! p = Some b ->
  exists rest, 0 <= rest /\ is_u8 b /\
    le_value src / 2 ^ (8 * Z.of_nat p) = b + 256 * rest /\
    (forall b1, src !! S p = Some b1 ->
       exists rest', 0 <= rest' /\ is_u8 b1 /\ rest = b1 + 256 * rest').
Proof.
  intros Hsrc Hb. rewrite le_value_shift by assumption.
  assert (Hd : Forall is_u8 (drop p src)) by now apply Forall_drop.
  destruct (drop p src) as [| b' tl] eqn:Ed.
  { apply (f_equal (fun l => l !! 0%nat)) in Ed. rewrite lookup_drop, Nat.add_0_r, Hb in Ed.
    discriminate. }
  assert (b' = b).
  { apply (f_equal (fun l => l !! 0%nat)) in Ed. rewrite lookup_drop, Nat.add_0_r, Hb in Ed.
    cbn in Ed. congruence. }
  subst b'. apply Forall_cons in Hd as (Ub & Utl).
  exists (le_value tl). split; [now apply le_value_nonneg |]. split; [exact Ub |].
  split; [reflexivity |].
  intros b1 Hb1.
  assert (E1 : tl !! 0%nat = Some b1).
  { apply (f_equal (fun l => l !! 1%nat)) in Ed. rewrite lookup_drop in Ed.
    replace (p + 1)%nat with (S p) in Ed by lia. rewrite Hb1 in Ed. cbn in Ed. exact (eq_sym Ed). }
  destruct tl as [| b1' tl']; [discriminate |]. cbn in E1. injection E1 as ->.
  apply Forall_cons in Utl as (Ub1 & Utl').
  exists (le_value tl'). split; [now apply le_value_nonneg |]. split; [exact Ub1 |]. reflexivity.
Qed.

Lemma shiftr_land_F0 (b : Z) : Z.shiftr (Z.land b 0xF0) 4 = Z.land (Z.shiftr b 4) 0x0F.
Proof.
  change 0xF0 with (Z.shiftl (Z.ones 4) 4). change 0x0F with (Z.ones 4). Z.bitblast.
Qed.

Lemma shiftr_land_C0 (b : Z) : Z.shiftr (Z.land b 0xC0) 6 = Z.land (Z.shiftr b 6) 0x03.
Proof.
  change 0xC0 with (Z.shiftl (Z.ones 2) 6). change 0x03 with (Z.ones 2). Z.bitblast.
Qed.

Lemma shiftr_land (b s n : Z) :
  0 <= s -> 0 <= n -> Z.land (Z.shiftr b s) (2 ^ n - 1) = (b / 2 ^ s) mod 2 ^ n.
Proof. intros Hs Hn. now rewrite land_ones_mod, Z.shiftr_div_pow2. Qed.

(** Closing one phase of one format: evaluate the branch, then compare the
    three components by arithmetic. *)
Ltac field_arith :=
  repeat match goal with
         | |- context [2 ^ ?k] => let v := eval cbv in (2 ^ k) in change (2 ^ k) with v
         end;
  Z.div_mod_to_equations; lia.

Ltac field_case :=
  try match goal with
      | |- (if ?c then _ else _) = _ => let v := eval cbv in c in change c with v; cbv iota
      end;
  apply f_equal; apply f_equal2; [apply f_equal2 |]; field_arith.

Lemma decode_index_bits (fmt : ColourMode) (src : list Z) (p bit : Z) :
  is_indexed fmt = true -> Forall is_u8 src ->
  0 <= p -> phase_ok fmt bit ->
  8 * p + bit + bpp_of fmt <= 8 * Z.of_nat (length src) ->
  decode_index fmt src p bit =
    Some ((le_value src / 2 ^ (8 * p + bit)) mod 2 ^ bpp_of fmt,
          (8 * p + bit + bpp_of fmt) / 8,
          (8 * p + bit + bpp_of fmt) mod 8).
Proof.
  intros Hfmt Hsrc Hp (Hbit & Hph) Hlen.
  assert (Hbpp : 2 <= bpp_of fmt <= 8) by (destruct fmt; try discriminate Hfmt; cbn; lia).
  destruct (lookup_lt_is_Some_2 src (Z.to_nat p) ltac:(lia)) as [b Hb].
  destruct (le_value_at _ _ _ Hsrc Hb) as (rest & Hrest & Ub & Hv & Hnext).
  rewrite Z2Nat.id in Hv by lia.
  rewrite Z.pow_add_r, <- Z.div_div, Hv by (try apply Z.pow_pos_nonneg; lia).
  assert (Hl : load src p = Some b) by (rewrite load_lookup by lia; exact Hb).
  assert (Hl1 : 8 < bit + bpp_of fmt ->
            exists b1 rest', load src (p + 1) = Some b1 /\ is_u8 b1 /\ 0 <= rest' /\
                             rest = b1 + 256 * rest').
  { intros Hs. destruct (lookup_lt_is_Some_2 src (S (Z.to_nat p)) ltac:(lia)) as [b1 Hb1].
    destruct (Hnext b1 Hb1) as (rest' & Hr' & Ub1 & Er).
    exists b1, rest'. rewrite load_lookup by lia.
    replace (Z.to_nat (p + 1)) with (S (Z.to_nat p)) by lia. auto. }
  unfold is_u8 in Ub. change (2 ^ 8) with 256 in Ub.
  unfold decode_index.
  destruct fmt; try discriminate Hfmt; cbn [bpp_of] in *;
    rewrite Hl; cbn [mbind option_bind].
  - (* IDX_4 *)
    change (Z.gcd 2 8) with 2 in Hph.
    change 0x03 with (2 ^ 2 - 1). rewrite shiftr_land by lia.
    assert (Hr : 0 <= (b / 2 ^ bit) mod 2 ^ 2 < 4) by (apply Z.mod_pos_bound; lia).
    rewrite to_u8_id by (unfold is_u8; lia).
    assert (Hc : bit = 0 \/ bit = 2 \/ bit = 4 \/ bit = 6) by (Z.div_mod_to_equations; lia).
    destruct Hc as [-> | [-> | [-> | ->]]]; field_case.
  - (* IDX_16 *)
    change (Z.gcd 4 8) with 4 in Hph.
    change 0x0F with (2 ^ 4 - 1). rewrite shiftr_land by lia.
    assert (Hr : 0 <= (b / 2 ^ bit) mod 2 ^ 4 < 16) by (apply Z.mod_pos_bound; lia).
    rewrite to_u8_id by (unfold is_u8; lia).
    assert (Hc : bit = 0 \/ bit = 4) by (Z.div_mod_to_equations; lia).
    destruct Hc as [-> | ->]; field_case.
  - (* IDX_64 *)
    change (Z.gcd 6 8) with 2 in Hph.
    assert (Hc : bit = 0 \/ bit = 2 \/ bit = 4 \/ bit = 6) by (Z.div_mod_to_equations; lia).
    destruct Hc as [-> | [-> | [-> | ->]]]; cbn [Z.eqb Pos.eqb].
    + change 0x3F with (2 ^ 6 - 1). rewrite land_ones_mod by lia.
      assert (Hr : 0 <= b mod 2 ^ 6 < 64) by (apply Z.mod_pos_bound; lia).
      rewrite to_u8_id by (unfold is_u8; lia). field_case.
    + change 0x3F with (2 ^ 6 - 1). rewrite shiftr_land by lia.
      assert (Hr : 0 <= (b / 2 ^ 2) mod 2 ^ 6 < 64) by (apply Z.mod_pos_bound; lia).
      rewrite to_u8_id by (unfold is_u8; lia). field_case.
    + destruct Hl1 as (b1 & rest' & Hl1 & Ub1 & Hr' & ->); [lia |].
      rewrite Hl1. cbn [mbind option_bind].
      rewrite shiftr_land_F0. change 0x0F with (2 ^ 4 - 1). change 0x03 with (2 ^ 2 - 1).
      rewrite shiftr_land, land_ones_mod by lia.
      assert (H1 : 0 <= (b / 2 ^ 4) mod 2 ^ 4 < 2 ^ 4) by (apply Z.mod_pos_bound; lia).
      assert (H2 : 0 <= b1 mod 2 ^ 2 < 4) by (apply Z.mod_pos_bound; lia).
      rewrite Z.lor_comm, lor_shiftl_add by lia.
      rewrite to_u8_id by (unfold is_u8; lia). field_case.
    + destruct Hl1 as (b1 & rest' & Hl1 & Ub1 & Hr' & ->); [lia |].
      rewrite Hl1. cbn [mbind option_bind].
      rewrite shiftr_land_C0. change 0x0F with (2 ^ 4 - 1). change 0x03 with (2 ^ 2 - 1).
      rewrite shiftr_land, land_ones_mod by lia.
      assert (H1 : 0 <= (b / 2 ^ 6) mod 2 ^ 2 < 2 ^ 2) by (apply Z.mod_pos_bound; lia).
      assert (H2 : 0 <= b1 mod 2 ^ 4 < 16) by (apply Z.mod_pos_bound; lia).
      rewrite Z.lor_comm, lor_shiftl_add by lia.
      rewrite to_u8_id by (unfold is_u8; lia). field_case.
  - (* IDX_256 *)
    change (Z.gcd 8 8) with 8 in Hph.
    assert (bit = 0) as -> by (Z.div_mod_to_equations; lia). field_case.
Qed.

(** X11.  [decode_index] reads the source as a little-endian bit string: with the
    cursor at bit [8 p + bit] it returns the [bpp] bits that start there
    and moves the cursor [bpp] bits on.  It needs the bytes that hold those
    bits and no others. *)
Theorem decode_index_field (fmt : ColourMode) (src : list Z) (p bit : Z) :
  is_indexed fmt = true -> Forall is_u8 src ->
  0 <= p -> phase_ok fmt bit ->
  8 * p + bit + bpp_of fmt <= 8 * Z.of_nat (length src) ->
  decode_index fmt src p bit =
    Some ((le_value src / 2 ^ (8 * p + bit)) mod 2 ^ bpp_of fmt,
          (8 * p + bit + bpp_of fmt) / 8,
          (8 * p + bit + bpp_of fmt) mod 8).
Proof. exact (decode_index_bits fmt src p bit). Qed.

Lemma decode_index_field_witness :
  decode_index IDX_64 [0xC1; 0x0F; 0x00] 0 6 = Some (0x3F, 1, 4).
Proof.
  rewrite (decode_index_field IDX_64 [0xC1; 0x0F; 0x00] 0 6 eq_refl);
    [reflexivity | | lia | | cbn; lia].
  - repeat constructor; unfold is_u8; lia.
  - split; [lia | reflexivity].
Defined.

(** The cursor after [t] texels. *)
Lemma phase_ok_mul (fmt : ColourMode) (t : Z) :
  is_indexed fmt = true -> phase_ok fmt ((t * bpp_of fmt) mod 8).
Proof.
  intros Hfmt. split; [apply Z.mod_pos_bound; lia |].
  destruct fmt; try discriminate Hfmt; cbn [bpp_of];
    [change (Z.gcd 2 8) with 2 | change (Z.gcd 4 8) with 4
    | change (Z.gcd 6 8) with 2 | change (Z.gcd 8 8) with 8];
    Z.div_mod_to_equations; lia.
Qed.

Lemma cursor_eq (k : Z) : 8 * (k / 8) + k mod 8 = k.
Proof. Z.div_mod_to_equations. lia. Qed.

(** A run of [n] decodes from texel [t] on. *)
Lemma decode_run_fields (fmt : ColourMode) (src : list Z) (n : nat) :
  forall t : Z,
    is_indexed fmt = true -> Forall is_u8 src -> 0 <= t ->
    (t + Z.of_nat n) * bpp_of fmt <= 8 * Z.of_nat (length src) ->
    exists raws,
      decode_run fmt src n ((t * bpp_of fmt) / 8) ((t * bpp_of fmt) mod 8) =
        Some (raws, ((t + Z.of_nat n) * bpp_of fmt) / 8,
                    ((t + Z.of_nat n) * bpp_of fmt) mod 8) /\
      length raws = n /\
      (forall (j : nat) r, raws !! j = Some r ->
         r = (le_value src / 2 ^ ((t + Z.of_nat j) * bpp_of fmt)) mod 2 ^ bpp_of fmt) /\
      pack_fields (bpp_of fmt) raws =
        (le_value src / 2 ^ (t * bpp_of fmt)) mod 2 ^ (Z.of_nat n * bpp_of fmt).
Proof.
  induction n as [| n IH]; intros t Hfmt Hsrc Ht Hlen.
  - exists []. cbn [decode_run length pack_fields]. rewrite Z.add_0_r.
    split; [reflexivity |]. split; [reflexivity |]. split.
    + intros j r Hj. now rewrite lookup_nil in Hj.
    + change (Z.of_nat 0 * bpp_of fmt) with 0. now rewrite Z.mod_1_r.
  - assert (Hbpp : 2 <= bpp_of fmt <= 8) by (destruct fmt; try discriminate Hfmt; cbn; lia).
    cbn [decode_run].
    rewrite decode_index_bits;
      [ | assumption | assumption | apply Z.div_pos; nia | now apply phase_ok_mul
        | rewrite cursor_eq; nia ].
    cbn [mbind option_bind]. rewrite cursor_eq.
    replace (t * bpp_of fmt + bpp_of fmt) with ((t + 1) * bpp_of fmt) by lia.
    destruct (IH (t + 1) Hfmt Hsrc ltac:(lia) ltac:(nia)) as (raws & Hrun & Hl & Hf & Hp).
    rewrite Hrun. cbn [mbind option_bind].
    replace (t + 1 + Z.of_nat n) with (t + Z.of_nat (S n)) in * by lia.
    eexists. split; [reflexivity |]. split; [cbn [length]; now rewrite Hl |]. split.
    + intros [| j] r Hj; cbn in Hj.
      * injection Hj as <-. now rewrite Z.add_0_r.
      * rewrite (Hf j r Hj). do 3 f_equal. lia.
    + cbn [pack_fields]. rewrite Hp.
      set (v := le_value src).
      assert (Ha : 0 < 2 ^ bpp_of fmt) by (apply Z.pow_pos_nonneg; lia).
      assert (Hb : 0 < 2 ^ (Z.of_nat n * bpp_of fmt)) by (apply Z.pow_pos_nonneg; nia).
      replace (Z.of_nat (S n) * bpp_of fmt) with (bpp_of fmt + Z.of_nat n * bpp_of fmt) by lia.
      replace ((t + 1) * bpp_of fmt) with (t * bpp_of fmt + bpp_of fmt) by lia.
      rewrite !Z.pow_add_r by nia.
      rewrite <- Z.div_div by (try apply Z.pow_pos_nonneg; nia).
      symmetry. apply Z.rem_mul_r; lia.
Qed.

(** X12.  Unpacking a whole buffer and packing the indices again gives the buffer
    back: the decoder loses and invents no bit. *)
Theorem decode_run_pack (fmt : ColourMode) (src : list Z) (n : nat) :
  is_indexed fmt = true -> Forall is_u8 src ->
  Z.of_nat n * bpp_of fmt = 8 * Z.of_nat (length src) ->
  exists raws,
    decode_run fmt src n 0 0 = Some (raws, Z.of_nat (length src), 0) /\
    length raws = n /\
    Forall (fun r => 0 <= r < 2 ^ bpp_of fmt) raws /\
    pack_fields (bpp_of fmt) raws = le_value src.
Proof.
  intros Hfmt Hsrc Hn.
  destruct (decode_run_fields fmt src n 0 Hfmt Hsrc ltac:(lia) ltac:(lia))
    as (raws & Hrun & Hl & Hf & Hp).
  rewrite Z.mul_0_l, Z.add_0_l, Hn in Hrun. rewrite Z.mul_0_l, Hn in Hp.
  change (0 / 8) with 0 in Hrun.
  change (0 mod 8) with 0 in Hrun.
  rewrite (Z.mul_comm 8), Z.div_mul, Z.mod_mul in Hrun by lia.
  exists raws. split; [exact Hrun |]. split; [exact Hl |]. split.
  - apply Forall_lookup. intros j r Hj. rewrite (Hf j r Hj).
    apply Z.mod_pos_bound. apply Z.pow_pos_nonneg; [lia |].
    destruct fmt; cbn; lia.
  - rewrite Hp. change (2 ^ 0) with 1. rewrite Z.div_1_r.
    destruct (le_value_split (length src) src Hsrc) as (_ & R).
    rewrite firstn_all in R. now apply Z.mod_small.
Qed.

Lemma decode_run_pack_witness :
  exists raws,
    decode_run IDX_64 [0xC1; 0x0F; 0x80] 4 0 0 = Some (raws, 3, 0) /\
    pack_fields 6 raws = 0xC1 + 256 * (0x0F + 256 * (0x80 + 256 * 0)).
Proof.
  destruct (decode_run_pack IDX_64 [0xC1; 0x0F; 0x80] 4 eq_refl) as (raws & Hrun & _ & _ & Hp).
  - repeat constructor; unfold is_u8; lia.
  - reflexivity.
  - exists raws. split; [exact Hrun | exact Hp].
Defined.

(** ** The texel write *)

Lemma cell_range (c : Z) : 0 <= cell_lo c < 65536 /\ 0 <= cell_hi c < 65536.
Proof.
  unfold cell_lo, cell_hi. rewrite !land_FFFF_mod.
  split; apply Z.mod_pos_bound; lia.
Qed.

Lemma cell_halves (c : Z) : is_u32 c -> c = cell_lo c + 65536 * cell_hi c.
Proof.
  intros Hc. unfold is_u32 in Hc. change (2 ^ 32) with 4294967296 in Hc.
  unfold cell_lo, cell_hi. rewrite !land_FFFF_mod, Z.shiftr_div_pow2 by lia.
  change (2 ^ 16) with 65536. Z.div_mod_to_equations. lia.
Qed.

Lemma land_high_half (c : Z) : Z.land c 0xFFFF0000 = Z.shiftl (cell_hi c) 16.
Proof.
  unfold cell_hi. change 0xFFFF0000 with (Z.shiftl (Z.ones 16) 16).
  change 0xFFFF with (Z.ones 16). Z.bitblast.
Qed.

Lemma write_lo (old a : Z) :
  is_u16 a -> to_u32 (Z.lor (Z.land old 0xFFFF0000) a) = a + 65536 * cell_hi old.
Proof.
  intros Ha. unfold is_u16 in Ha. rewrite land_high_half, lor_shiftl_add by lia.
  pose proof (cell_range old) as (_ & Hh). change (2 ^ 16) with 65536 in *.
  rewrite to_u32_id by (unfold is_u32; lia). lia.
Qed.

Lemma write_hi (old a : Z) :
  is_u16 a -> to_u32 (Z.lor (Z.land old 0x0000FFFF) (Z.shiftl a 16)) = cell_lo old + 65536 * a.
Proof.
  intros Ha. unfold is_u16 in Ha. fold (cell_lo old).
  pose proof (cell_range old) as (Hl & _).
  rewrite Z.lor_comm, lor_shiftl_add by (change (2 ^ 16) with 65536; lia).
  change (2 ^ 16) with 65536 in *.
  rewrite to_u32_id by (unfold is_u32; lia). lia.
Qed.

Lemma cell_lo_sum (l h : Z) : 0 <= l < 65536 -> cell_lo (l + 65536 * h) = l.
Proof.
  intros Hl. unfold cell_lo. rewrite land_FFFF_mod.
  rewrite Z.mul_comm, Z.mod_add by lia. now apply Z.mod_small.
Qed.

Lemma cell_hi_sum (l h : Z) :
  0 <= l < 65536 -> 0 <= h < 65536 -> cell_hi (l + 65536 * h) = h.
Proof.
  intros Hl Hh. unfold cell_hi. rewrite land_FFFF_mod, Z.shiftr_div_pow2 by lia.
  change (2 ^ 16) with 65536. Z.div_mod_to_equations. lia.
Qed.

Lemma mix_cell_halves (a0 a1 old : Z) :
  is_u16 a0 -> is_u16 a1 ->
  cell_lo (mix_cell a0 a1 old) = (if solid a0 then a0 else cell_lo old) /\
  cell_hi (mix_cell a0 a1 old) = (if solid a1 then a1 else cell_hi old) /\
  is_u32 (mix_cell a0 a1 old).
Proof.
  intros H0 H1. unfold mix_cell, is_u16 in *. change (2 ^ 16) with 65536 in *.
  pose proof (cell_range old) as (Hl & Hh).
  assert (R0 : 0 <= (if solid a0 then a0 else cell_lo old) < 65536) by (destruct (solid a0); lia).
  assert (R1 : 0 <= (if solid a1 then a1 else cell_hi old) < 65536) by (destruct (solid a1); lia).
  rewrite cell_lo_sum, cell_hi_sum by assumption.
  split; [reflexivity |]. split; [reflexivity |]. unfold is_u32. lia.
Qed.

Lemma put_texel_mix (dw dh ds dx dy a0 a1 old : Z) (dst : list Z) :
  is_u16 a0 -> is_u16 a1 ->
  (in_layer dw dh dx dy = false -> put_texel dw dh ds dx dy a0 a1 dst = Some dst) /\
  (in_layer dw dh dx dy = true ->
   load dst (dy * ds + dx) = Some old -> is_u32 old ->
   put_texel dw dh ds dx dy a0 a1 dst =
     Some (<[Z.to_nat (dy * ds + dx) := mix_cell a0 a1 old]> dst)).
Proof.
  intros H0 H1. unfold put_texel, in_layer. split; intros Hin; rewrite Hin; [reflexivity |].
  intros Hold Uold. set (k := dy * ds + dx) in *.
  assert (Hk : 0 <= k < Z.of_nat (length dst)).
  { unfold load in Hold. destruct (Z.leb_spec 0 k); [| discriminate].
    apply lookup_lt_Some in Hold. lia. }
  rewrite load_lookup in Hold by lia.
  rewrite !tst_bit15. unfold mix_cell, solid.
  destruct (Z.testbit a0 15) eqn:T0, (Z.testbit a1 15) eqn:T1; cbn [negb mbind option_bind].
  - rewrite <- cell_halves by assumption. now rewrite list_insert_id.
  - rewrite load_lookup, Hold by lia. cbn [mbind option_bind].
    rewrite store_Some by lia. now rewrite write_hi.
  - rewrite load_lookup, Hold by lia. cbn [mbind option_bind].
    rewrite store_Some by lia. cbn [mbind option_bind]. now rewrite write_lo.
  - rewrite load_lookup, Hold by lia. cbn [mbind option_bind].
    rewrite store_Some by lia. cbn [mbind option_bind].
    rewrite load_lookup by lia. rewrite list_lookup_insert_eq by lia. cbn [mbind option_bind].
    rewrite store_Some by (rewrite length_insert; lia).
    rewrite list_insert_insert_eq, write_lo, write_hi by assumption.
    unfold is_u16 in H0. change (2 ^ 16) with 65536 in H0.
    now rewrite cell_lo_sum by lia.
Qed.

(** X13.  The write of one texel.  Outside the layer nothing is written.  Inside,
    the addressed cell takes each solid sample into its half and keeps the
    other half; no other cell changes. *)
Theorem put_texel_cell (dw dh ds dx dy a0 a1 old : Z) (dst : list Z) :
  is_u16 a0 -> is_u16 a1 ->
  (in_layer dw dh dx dy = false -> put_texel dw dh ds dx dy a0 a1 dst = Some dst) /\
  (in_layer dw dh dx dy = true ->
   load dst (dy * ds + dx) = Some old -> is_u32 old ->
   put_texel dw dh ds dx dy a0 a1 dst =
     Some (<[Z.to_nat (dy * ds + dx) := mix_cell a0 a1 old]> dst)).
Proof. exact (put_texel_mix dw dh ds dx dy a0 a1 old dst). Qed.

Lemma put_texel_cell_witness :
  put_texel 2 2 2 1 1 0x001F 0x8000 [0; 0; 0; 0x7C008000] = Some [0; 0; 0; 0x7C00001F].
Proof.
  exact (proj2 (put_texel_cell 2 2 2 1 1 0x001F 0x8000 0x7C008000 [0; 0; 0; 0x7C008000]
                  ltac:(unfold is_u16; lia) ltac:(unfold is_u16; lia))
               eq_refl eq_refl ltac:(unfold is_u32; lia)).
Defined.

(** ** Loops with an invariant that follows the index *)

Lemma for_range_ind {St : Type} (P : Z -> St -> Prop) (body : Z -> St -> option St)
    (n : nat) (i0 : Z) (s : St) :
  P i0 s ->
  (forall i t, i0 <= i < i0 + Z.of_nat n -> P i t ->
     exists t', body i t = Some t' /\ P (i + 1) t') ->
  exists s', for_range n i0 body s = Some s' /\ P (i0 + Z.of_nat n) s'.
Proof.
  revert i0 s. induction n as [| n IH]; intros i0 s Hs Hstep.
  - exists s. rewrite Z.add_0_r. auto.
  - cbn [for_range]. destruct (Hstep i0 s ltac:(lia) Hs) as (t & Hb & Ht).
    rewrite Hb. cbn [mbind option_bind].
    destruct (IH (i0 + 1) t Ht) as (s' & Hrun & Hs').
    { intros i u Hi Hu. apply Hstep; [lia | exact Hu]. }
    exists s'. split; [exact Hrun |].
    replace (i0 + Z.of_nat (S n)) with (i0 + 1 + Z.of_nat n) by lia. exact Hs'.
Qed.

(** Two nested counting loops as one loop over [t = sy * w + sx]. *)
Lemma for_range_nest {St : Type} (Q : Z -> St -> Prop) (body : Z -> Z -> St -> option St)
    (w h : nat) (s : St) :
  Q 0 s ->
  (forall sy sx t, 0 <= sy < Z.of_nat h -> 0 <= sx < Z.of_nat w ->
     Q (sy * Z.of_nat w + sx) t ->
     exists t', body sy sx t = Some t' /\ Q (sy * Z.of_nat w + sx + 1) t') ->
  exists s',
    for_range h 0 (fun sy s => for_range w 0 (fun sx s => body sy sx s) s) s = Some s' /\
    Q (Z.of_nat h * Z.of_nat w) s'.
Proof.
  intros H0 Hstep.
  destruct (for_range_ind (fun sy s => Q (sy * Z.of_nat w) s)
              (fun sy s => for_range w 0 (fun sx s => body sy sx s) s) h 0 s)
    as (s' & Hrun & Hs'); [exact H0 | | eauto].
  intros sy t Hsy Ht.
  destruct (for_range_ind (fun sx s => Q (sy * Z.of_nat w + sx) s)
              (fun sx s => body sy sx s) w 0 t)
    as (t' & Hrow & Ht'); [now rewrite Z.add_0_r | | ].
  - intros sx u Hsx Hu.
    destruct (Hstep sy sx u ltac:(lia) ltac:(lia) Hu) as (u' & Hb & Hu').
    exists u'. split; [exact Hb |].
    replace (sy * Z.of_nat w + (sx + 1)) with (sy * Z.of_nat w + sx + 1) by lia. exact Hu'.
  - exists t'. split; [exact Hrow |].
    replace ((sy + 1) * Z.of_nat w) with (sy * Z.of_nat w + (0 + Z.of_nat w)) by lia.
    exact Ht'.
Qed.

(** ** The blit, texel by texel *)

Lemma pal_entry_Some (pal : list Z) (raw : Z) :
  0 <= raw -> 2 * raw + 1 < Z.of_nat (length pal) ->
  exists v, pal_entry pal raw = Some v /\ is_u16 v.
Proof.
  intros Hr Hl. unfold pal_entry.
  destruct (load_Some pal (2 * raw + 1) ltac:(lia)) as [hi Hhi].
  destruct (load_Some pal (2 * raw) ltac:(lia)) as [lo Hlo].
  rewrite Hhi, Hlo. cbn [mbind option_bind]. eexists. split; [reflexivity | apply to_u16_range].
Qed.

(** The sample a bank takes at a texel of nonzero index [raw]. *)
Lemma bank_sample (fmt : ColourMode) (pal : option (list Z)) (raw stale : Z) :
  is_indexed fmt = true -> pal_fits fmt pal ->
  0 <= raw < 2 ^ bpp_of fmt -> is_u16 stale ->
  exists v,
    match pal with
    | Some p => pal_entry p raw
    | None => Some stale
    end = Some v /\ is_u16 v /\
    (forall p, pal = Some p -> pal_entry p raw = Some v).
Proof.
  intros Hfmt Hfit Hraw Hst. destruct pal as [p |].
  - assert (Hl : 2 * 2 ^ bpp_of fmt <= Z.of_nat (length p))
      by (destruct fmt; try discriminate Hfmt; exact Hfit).
    destruct (pal_entry_Some p raw ltac:(lia) ltac:(lia)) as (v & Hv & Uv).
    exists v. split; [exact Hv |]. split; [exact Uv |]. now intros p' [= <-].
  - exists stale. split; [reflexivity |]. split; [exact Hst |]. discriminate.
Qed.

(** Sampling texel [t] with the cursor where [t] texels leave it. *)
Lemma sample_texel_at (fmt : ColourMode) (src : list Z) (pal0 pal1 : option (list Z))
    (t : Z) (s : blit_state) :
  Forall is_u8 src -> 0 <= t ->
  (t + 1) * bpp_of fmt <= 8 * Z.of_nat (length src) ->
  pal_fits fmt pal0 -> pal_fits fmt pal1 ->
  b_srcptr s = (t * bpp_of fmt) / 8 -> b_src_bit s = (t * bpp_of fmt) mod 8 ->
  is_u16 (b_argb0 s) -> is_u16 (b_argb1 s) ->
  exists s1,
    sample_texel src fmt pal0 pal1 s = Some s1 /\
    b_srcptr s1 = ((t + 1) * bpp_of fmt) / 8 /\
    b_src_bit s1 = ((t + 1) * bpp_of fmt) mod 8 /\
    b_dst s1 = b_dst s /\
    is_u16 (b_argb0 s1) /\ is_u16 (b_argb1 s1) /\
    (forall p, fmt = ARGB1555 \/ pal0 = Some p ->
       texel_sample fmt src p t = Some (b_argb0 s1)) /\
    (forall p, fmt = ARGB1555 \/ pal1 = Some p ->
       texel_sample fmt src p t = Some (b_argb1 s1)).
Proof.
  intros Hsrc Ht Hlen F0 F1 Hp Hbit U0 U1.
  destruct (ColourMode_eqb fmt ARGB1555) eqn:Ef.
  - (* direct colour *)
    assert (fmt = ARGB1555) as -> by (destruct fmt; try discriminate Ef; reflexivity).
    cbn [bpp_of] in *. unfold sample_texel, texel_sample, texel_field. cbn [bpp_of].
    assert (Ep : b_srcptr s = 2 * t) by (rewrite Hp; Z.div_mod_to_equations; lia).
    assert (Eb : b_src_bit s = 0) by (rewrite Hbit; Z.div_mod_to_equations; lia).
    destruct (lookup_lt_is_Some_2 src (Z.to_nat (2 * t)) ltac:(lia)) as [lo Hlo].
    destruct (lookup_lt_is_Some_2 src (S (Z.to_nat (2 * t))) ltac:(lia)) as [hi Hhi].
    destruct (le_value_at _ _ _ Hsrc Hlo) as (rest & Hrest & Ulo & Hv & Hnext).
    destruct (Hnext hi Hhi) as (rest' & Hrest' & Uhi & ->).
    rewrite Z2Nat.id in Hv by lia.
    rewrite Ep, !load_lookup by lia.
    replace (Z.to_nat (2 * t + 1)) with (S (Z.to_nat (2 * t))) by lia.
    rewrite Hhi, Hlo. cbn [mbind option_bind].
    unfold is_u8 in Ulo, Uhi. change (2 ^ 8) with 256 in *.
    assert (Ev : to_u16 (Z.lor (Z.shiftl hi 8) lo)
                 = (le_value src / 2 ^ (t * 16)) mod 2 ^ 16).
    { rewrite lor_shiftl_add by (change (2 ^ 8) with 256; lia).
      rewrite to_u16_id by (unfold is_u16; change (2 ^ 8) with 256; lia).
      replace (t * 16) with (8 * (2 * t)) by lia. rewrite Hv.
      change (2 ^ 8) with 256. change (2 ^ 16) with 65536.
      Z.div_mod_to_equations. lia. }
    eexists. split; [reflexivity |]. cbn [b_srcptr b_src_bit b_dst b_argb0 b_argb1].
    rewrite Ev, Eb.
    split; [Z.div_mod_to_equations; lia |]. split; [Z.div_mod_to_equations; lia |].
    split; [reflexivity |].
    assert (Uf : is_u16 ((le_value src / 2 ^ (t * 16)) mod 2 ^ 16))
      by (apply Z.mod_pos_bound; lia).
    auto 10.
  - (* indexed *)
    assert (Hfmt : is_indexed fmt = true) by (unfold is_indexed; now rewrite Ef).
    assert (Hbpp : 2 <= bpp_of fmt <= 8) by (destruct fmt; try discriminate Hfmt; cbn; lia).
    assert (Hdec : decode_index fmt src (b_srcptr s) (b_src_bit s) =
              Some (texel_field fmt src t, ((t + 1) * bpp_of fmt) / 8,
                    ((t + 1) * bpp_of fmt) mod 8)).
    { rewrite Hp, Hbit, decode_index_bits;
        [ | assumption | assumption | apply Z.div_pos; nia | now apply phase_ok_mul
          | rewrite cursor_eq; nia ].
      rewrite cursor_eq. unfold texel_field.
      now replace (t * bpp_of fmt + bpp_of fmt) with ((t + 1) * bpp_of fmt) by lia. }
    assert (Hraw : 0 <= texel_field fmt src t < 2 ^ bpp_of fmt)
      by (apply Z.mod_pos_bound; apply Z.pow_pos_nonneg; lia).
    set (raw := texel_field fmt src t) in *.
    assert (Hbody : sample_texel src fmt pal0 pal1 s =
              (if raw =? 0 then
                 Some (mk_blit (((t + 1) * bpp_of fmt) / 8) (((t + 1) * bpp_of fmt) mod 8)
                               0x8000 0x8000 (b_dst s))
               else
                 argb0 ← match pal0 with
                          | Some pal => pal_entry pal raw
                          | None => Some (b_argb0 s)
                          end;
                 argb1 ← match pal1 with
                          | Some pal => pal_entry pal raw
                          | None => Some (b_argb1 s)
                          end;
                 Some (mk_blit (((t + 1) * bpp_of fmt) / 8) (((t + 1) * bpp_of fmt) mod 8)
                               argb0 argb1 (b_dst s)))).
    { unfold sample_texel. destruct fmt; try discriminate Hfmt; now rewrite Hdec. }
    rewrite Hbody.
    assert (Hts : forall p, texel_sample fmt src p t =
              (if raw =? 0 then Some 0x8000 else pal_entry p raw)).
    { intros p. unfold texel_sample. fold raw. destruct fmt; try discriminate Hfmt; reflexivity. }
    destruct (Z.eqb_spec raw 0) as [E0 | E0].
    + eexists. split; [reflexivity |]. cbn [b_srcptr b_src_bit b_dst b_argb0 b_argb1].
      assert (is_u16 0x8000) by (unfold is_u16; lia).
      repeat (split; [first [reflexivity | assumption] |]).
      split; intros p _; rewrite Hts; destruct (Z.eqb_spec raw 0); congruence.
    + destruct (bank_sample fmt pal0 raw (b_argb0 s) Hfmt F0 Hraw U0) as (v0 & E0' & V0 & S0).
      destruct (bank_sample fmt pal1 raw (b_argb1 s) Hfmt F1 Hraw U1) as (v1 & E1' & V1 & S1).
      rewrite E0'. cbn [mbind option_bind]. rewrite E1'. cbn [mbind option_bind].
      eexists. split; [reflexivity |]. cbn [b_srcptr b_src_bit b_dst b_argb0 b_argb1].
      repeat (split; [first [reflexivity | assumption] |]).
      split; intros p [Hc | Hc]; try (subst fmt; discriminate Ef);
        rewrite Hts; destruct (Z.eqb_spec raw 0); try congruence; auto.
Qed.

Lemma in_layer_true (dw dh dx dy : Z) :
  in_layer dw dh dx dy = true <-> 0 <= dx < dw /\ 0 <= dy < dh.
Proof.
  unfold in_layer. rewrite !andb_true_iff, !Z.leb_le, !Z.ltb_lt. lia.
Qed.

(** Two cells of the layer with the same index are the same cell. *)
Lemma cell_index_inj (ds dw dx dy dx' dy' : Z) :
  dw <= ds -> 0 <= dx < dw -> 0 <= dx' < dw ->
  dy * ds + dx = dy' * ds + dx' -> dx = dx' /\ dy = dy'.
Proof.
  intros Hs Hx Hx' E.
  assert (dy = dy') by nia. subst. lia.
Qed.

Lemma texel_index_inj (sw sx sy sx' sy' : Z) :
  0 <= sx < sw -> 0 <= sx' < sw -> sy * sw + sx = sy' * sw + sx' -> sx = sx' /\ sy = sy'.
Proof. intros Hx Hx' E. assert (sy = sy') by nia. subst. lia. Qed.

Section Blit.

Variables (sw sh : Z) (src : list Z) (dw dh ds x y : Z) (dst : list Z).
Variables (fmt : ColourMode) (pal0 pal1 : option (list Z)).

Hypothesis Hsw : 0 <= sw.
Hypothesis Hsh : 0 <= sh.
Hypothesis Hsrc : Forall is_u8 src.
Hypothesis Hlen : sw * sh * bpp_of fmt <= 8 * Z.of_nat (length src).
Hypothesis F0 : pal_fits fmt pal0.
Hypothesis F1 : pal_fits fmt pal1.
Hypothesis Hds : dw <= ds.
Hypothesis Hdst : dh * ds <= Z.of_nat (length dst).
Hypothesis Udst : Forall is_u32 dst.

Local Abbreviation inv := (blit_inv sw src dw dh ds x y dst fmt pal0 pal1).

Lemma blit_inv_step (sx sy : Z) (s : blit_state) :
  0 <= sy < sh -> 0 <= sx < sw ->
  inv (sy * sw + sx) s ->
  exists s',
    blit_texel src fmt pal0 pal1 dw dh ds (x + sx) (y + sy) s = Some s' /\
    inv (sy * sw + sx + 1) s'.
Proof.
  intros Hy Hx (Hp & Hb & U0 & U1 & Hl & Hu & Hcells & Hframe).
  set (t := sy * sw + sx) in *.
  assert (Ht : 0 <= t) by (subst t; nia).
  assert (Htl : (t + 1) * bpp_of fmt <= 8 * Z.of_nat (length src)).
  { assert (2 <= bpp_of fmt) by (destruct fmt; cbn; lia).
    assert (t + 1 <= sw * sh) by (subst t; nia). nia. }
  destruct (sample_texel_at fmt src pal0 pal1 t s Hsrc Ht Htl F0 F1 Hp Hb U0 U1)
    as (s1 & Hs1 & Hp1 & Hb1 & Hd1 & V0 & V1 & S0 & S1).
  unfold blit_texel. rewrite Hs1. cbn [mbind option_bind]. rewrite Hd1.
  set (k := (y + sy) * ds + (x + sx)).
  assert (Hnew : forall sx' sy', 0 <= sx' < sw -> sy' * sw + sx' < t + 1 ->
            sy' * sw + sx' < t \/ (sx' = sx /\ sy' = sy)).
  { intros sx' sy' Hx' Hlt.
    destruct (Z.eq_dec (sy' * sw + sx') t) as [E | E]; [right | left; lia].
    subst t. now apply (texel_index_inj sw). }
  destruct (in_layer dw dh (x + sx) (y + sy)) eqn:Hin.
  - (* the texel lies in the layer *)
    apply in_layer_true in Hin as Hin'.
    assert (Hk : 0 <= k < Z.of_nat (length dst)) by (subst k; nia).
    assert (Hfresh : forall sx' sy', 0 <= sy' -> 0 <= sx' < sw -> sy' * sw + sx' < t ->
              in_layer dw dh (x + sx') (y + sy') = true ->
              (y + sy') * ds + (x + sx') <> k).
    { intros sx' sy' Hy' Hx' Hlt Hin2 E. apply in_layer_true in Hin2.
      destruct (cell_index_inj ds dw (x + sx') (y + sy') (x + sx) (y + sy)
                  Hds ltac:(lia) ltac:(lia) E) as (E1 & E2).
      assert (sx' = sx) by lia. assert (sy' = sy) by lia. subst. subst t. lia. }
    destruct (lookup_lt_is_Some_2 dst (Z.to_nat k) ltac:(lia)) as [old Hold].
    assert (Hcur : b_dst s !! Z.to_nat k = Some old).
    { rewrite Hframe; [exact Hold |].
      intros sx' sy' Hy' Hx' Hlt Hin2. rewrite Z2Nat.id by lia.
      intros E. now apply (Hfresh sx' sy'). }
    assert (Uold : is_u32 old) by (eapply Forall_lookup_1; [exact Udst | exact Hold]).
    destruct (put_texel_mix dw dh ds (x + sx) (y + sy) (b_argb0 s1) (b_argb1 s1) old (b_dst s)
                V0 V1) as (_ & Hput).
    rewrite Hput; [| exact Hin | rewrite load_lookup by (fold k; lia); exact Hcur | exact Uold].
    fold k. cbn [mbind option_bind].
    destruct (mix_cell_halves (b_argb0 s1) (b_argb1 s1) old V0 V1) as (Mlo & Mhi & Mu).
    eexists. split; [reflexivity |].
    unfold blit_inv. cbn [b_srcptr b_src_bit b_argb0 b_argb1 b_dst].
    rewrite length_insert.
    split; [exact Hp1 |]. split; [exact Hb1 |]. split; [exact V0 |]. split; [exact V1 |].
    split; [exact Hl |]. split; [now apply Forall_insert |]. split.
    + intros sx' sy' Hy' Hx' Hlt Hin2.
      destruct (Hnew sx' sy' Hx' Hlt) as [Hold' | (-> & ->)].
      * destruct (Hcells sx' sy' Hy' Hx' Hold' Hin2) as (o & c & Ho & Hc & Hd).
        exists o, c. split; [exact Ho |]. split; [| exact Hd].
        rewrite list_lookup_insert_ne; [exact Hc |].
        specialize (Hfresh sx' sy' Hy' Hx' Hold' Hin2).
        apply in_layer_true in Hin2. intros E. apply Hfresh.
        apply (f_equal Z.of_nat) in E. rewrite !Z2Nat.id in E by nia. lia.
      * exists old, (mix_cell (b_argb0 s1) (b_argb1 s1) old). fold k.
        split; [exact Hold |]. split; [apply list_lookup_insert_eq; lia |].
        split; intros p Hdef.
        -- exists (b_argb0 s1). split; [now apply S0 | exact Mlo].
        -- exists (b_argb1 s1). split; [now apply S1 | exact Mhi].
    + intros i Hi.
      rewrite list_lookup_insert_ne.
      * apply Hframe. intros sx' sy' Hy' Hx' Hlt Hin2. apply Hi; try assumption. lia.
      * specialize (Hi sx sy ltac:(lia) Hx ltac:(lia) Hin). fold k in Hi. lia.
  - (* the texel is clipped *)
    destruct (put_texel_mix dw dh ds (x + sx) (y + sy) (b_argb0 s1) (b_argb1 s1) 0 (b_dst s)
                V0 V1) as (Hput & _).
    rewrite Hput by exact Hin. cbn [mbind option_bind].
    eexists. split; [reflexivity |].
    unfold blit_inv. cbn [b_srcptr b_src_bit b_argb0 b_argb1 b_dst].
    split; [exact Hp1 |]. split; [exact Hb1 |]. split; [exact V0 |]. split; [exact V1 |].
    split; [exact Hl |]. split; [exact Hu |]. split.
    + intros sx' sy' Hy' Hx' Hlt Hin2.
      destruct (Hnew sx' sy' Hx' Hlt) as [Hold' | (-> & ->)]; [now apply Hcells | congruence].
    + intros i Hi. apply Hframe. intros sx' sy' Hy' Hx' Hlt Hin2.
      apply Hi; try assumption. lia.
Qed.

(** The whole blit. *)
Lemma vt_blit_run (junk0 junk1 : Z) :
  is_u16 junk0 -> is_u16 junk1 ->
  exists s,
    vt_blit sw sh src dw dh ds x y dst fmt pal0 pal1 junk0 junk1 = Some (b_dst s) /\
    inv (sh * sw) s.
Proof.
  intros J0 J1. unfold vt_blit.
  destruct (for_range_nest inv
              (fun sy sx s => blit_texel src fmt pal0 pal1 dw dh ds (x + sx) (y + sy) s)
              (Z.to_nat sw) (Z.to_nat sh) (mk_blit 0 0 junk0 junk1 dst))
    as (s' & Hrun & Hs').
  - unfold blit_inv. cbn [b_srcptr b_src_bit b_argb0 b_argb1 b_dst].
    rewrite Z.mul_0_l. change (0 / 8) with 0. change (0 mod 8) with 0.
    repeat (split; [first [reflexivity | assumption] |]).
    split; [intros; lia | reflexivity].
  - intros sy sx t Hy Hx Ht. rewrite Z2Nat.id in * by lia.
    apply blit_inv_step; [lia | lia | exact Ht].
  - rewrite !Z2Nat.id in Hs' by lia.
    exists s'. cbv zeta. rewrite Hrun. cbn [mbind option_bind]. auto.
Qed.

Lemma vt_blit_clip (junk0 junk1 : Z) :
  is_u16 junk0 -> is_u16 junk1 ->
  exists dst',
    vt_blit sw sh src dw dh ds x y dst fmt pal0 pal1 junk0 junk1 = Some dst' /\
    length dst' = length dst /\ Forall is_u32 dst' /\
    forall i : nat,
      (forall sx sy, 0 <= sx < sw -> 0 <= sy < sh ->
         in_layer dw dh (x + sx) (y + sy) = true ->
         Z.of_nat i <> (y + sy) * ds + (x + sx)) ->
      dst' !! i = dst !! i.
Proof.
  intros J0 J1.
  destruct (vt_blit_run junk0 junk1 J0 J1) as (s & Hrun & _ & _ & _ & _ & Hl & Hu & _ & Hframe).
  exists (b_dst s). split; [exact Hrun |]. split; [exact Hl |]. split; [exact Hu |].
  intros i Hi. apply Hframe. intros sx sy Hy Hx Hlt Hin.
  apply Hi; [exact Hx | | exact Hin]. split; [exact Hy | nia].
Qed.

(** X14.  Memory safety and clipping.  When the source holds every texel, the
    palettes every index and the layer every row, [vt_blit] returns: no read
    or write leaves a buffer and no assertion fails.  The layer keeps its
    size, and every cell that is not the image of a texel inside the layer
    bounds keeps its value. *)
Theorem vt_blit_safe (junk0 junk1 : Z) :
  is_u16 junk0 -> is_u16 junk1 ->
  exists dst',
    vt_blit sw sh src dw dh ds x y dst fmt pal0 pal1 junk0 junk1 = Some dst' /\
    length dst' = length dst /\ Forall is_u32 dst' /\
    forall i : nat,
      (forall sx sy, 0 <= sx < sw -> 0 <= sy < sh ->
         in_layer dw dh (x + sx) (y + sy) = true ->
         Z.of_nat i <> (y + sy) * ds + (x + sx)) ->
      dst' !! i = dst !! i.
Proof. exact (vt_blit_clip junk0 junk1). Qed.

(** X15.  What the blit leaves in the layer.  The cell under each texel that lies
    inside the layer bounds has, in each bank whose sample the source
    defines (any bank in ARGB1555, a bank with a palette otherwise), the
    sample of that texel if it is solid and its old half if not. *)
Theorem vt_blit_cells (junk0 junk1 : Z) :
  is_u16 junk0 -> is_u16 junk1 ->
  exists dst',
    vt_blit sw sh src dw dh ds x y dst fmt pal0 pal1 junk0 junk1 = Some dst' /\
    forall sx sy, 0 <= sx < sw -> 0 <= sy < sh ->
      in_layer dw dh (x + sx) (y + sy) = true ->
      exists old c,
        dst !! Z.to_nat ((y + sy) * ds + (x + sx)) = Some old /\
        dst' !! Z.to_nat ((y + sy) * ds + (x + sx)) = Some c /\
        texel_done fmt src pal0 pal1 sw sx sy old c.
Proof.
  intros J0 J1.
  destruct (vt_blit_run junk0 junk1 J0 J1) as (s & Hrun & _ & _ & _ & _ & _ & _ & Hcells & _).
  exists (b_dst s). split; [exact Hrun |].
  intros sx sy Hx Hy Hin. apply Hcells; [lia | exact Hx | nia | exact Hin].
Qed.

End Blit.

Lemma vt_blit_safe_witness :
  exists dst',
    vt_blit 2 1 [0x10] 2 1 2 0 0 [0x12345678; 0x80008000] IDX_16
            None (Some (replicate 32 0x1F)) 0 0 = Some dst' /\
    length dst' = 2%nat.
Proof.
  destruct (vt_blit_safe 2 1 [0x10] 2 1 2 0 0 [0x12345678; 0x80008000] IDX_16
              None (Some (replicate 32 0x1F))) with (junk0 := 0) (junk1 := 0)
    as (dst' & Hrun & Hl & _);
    try (cbn; lia); try exact I; try (unfold is_u16; lia);
    try (repeat constructor; unfold is_u8, is_u32; lia).
  exists dst'. split; [exact Hrun | exact Hl].
Defined.

Lemma vt_blit_cells_witness :
  exists dst' c,
    vt_blit 2 1 [0x10] 2 1 2 0 0 [0x12345678; 0x80008000] IDX_16
            None (Some (replicate 32 0x1F)) 0 0 = Some dst' /\
    dst' !! 1%nat = Some c /\ cell_hi c = 0x1F1F.
Proof.
  destruct (vt_blit_cells 2 1 [0x10] 2 1 2 0 0 [0x12345678; 0x80008000] IDX_16
              None (Some (replicate 32 0x1F))) with (junk0 := 0) (junk1 := 0)
    as (dst' & Hrun & Hcells);
    try (cbn; lia); try exact I; try (unfold is_u16; lia);
    try (repeat constructor; unfold is_u8, is_u32; lia).
  destruct (Hcells 1 0 ltac:(lia) ltac:(lia) eq_refl) as (old & c & _ & Hc & _ & H1).
  destruct (H1 (replicate 32 0x1F) (or_intror eq_refl)) as (v & Hv & Hhi).
  exists dst', c. split; [exact Hrun |]. split; [exact Hc |].
  vm_compute in Hv. injection Hv as <-. exact Hhi.
Defined.

(** ** More of the tile map *)

Lemma get_tile_addr_bmp (tx ty size : Z) (y8 x8 : bool) (scrl : BkgScrollMode) :
  0 <= ty -> size <> 8 -> size <> 16 ->
  get_tile_addr tx ty y8 x8 size true 0 scrl =
    Some (bmp_base scrl tx ty y8 x8 + (ty mod 256) * 2, bmp_mapped scrl tx ty) /\
  0 <= bmp_base scrl tx ty y8 x8 <= 1536 /\ bmp_base scrl tx ty y8 x8 mod 2 = 0.
Proof.
  intros Hy H8 H16. unfold get_tile_addr.
  apply Z.eqb_neq in H8. apply Z.eqb_neq in H16. rewrite H8, H16.
  cbn [Z.eqb negb]. rewrite Z.rem_mod_nonneg by lia.
  pose proof (Z.mod_pos_bound ty 256 ltac:(lia)) as Ho.
  rewrite (to_u16_id (ty mod 256 * 2)) by (unfold is_u16; lia).
  set (o := ty mod 256 * 2) in *.
  unfold bmp_base, bmp_mapped.
  destruct scrl, y8, x8, (1 <? tx), (256 <? ty); cbn [negb eqb xorb Z.b2z];
    match goal with
    | |- Some (to_u16 (?b + o), _) = _ /\ _ =>
        let v := eval vm_compute in b in change b with v
    end;
    (split; [rewrite to_u16_id by (unfold is_u16; lia); reflexivity
            | split; [vm_compute; split; discriminate | reflexivity]]).
Qed.

(** X16.  The tile map table of bitmap mode (layer 0, lines 256 pixels wide and
    one pixel high): the cell of line [ty] is at offset [(ty mod 256) * 2]
    from a base chosen like the page bits of 16-pixel tiles, with the
    thresholds [tx > 1] and [ty > 256]. *)
Theorem get_tile_addr_bitmap (tx ty size : Z) (y8 x8 : bool) (scrl : BkgScrollMode) :
  0 <= ty -> size <> 8 -> size <> 16 ->
  get_tile_addr tx ty y8 x8 size true 0 scrl =
    Some (bmp_base scrl tx ty y8 x8 + (ty mod 256) * 2, bmp_mapped scrl tx ty).
Proof. intros Hy H8 H16. exact (proj1 (get_tile_addr_bmp tx ty size y8 x8 scrl Hy H8 H16)). Qed.

Lemma get_tile_addr_bitmap_witness :
  get_tile_addr 0 300 true false 256 true 0 SCROLL_V = Some (44 * 2, true).
Proof.
  exact (get_tile_addr_bitmap 0 300 256 true false SCROLL_V
           ltac:(lia) ltac:(discriminate) ltac:(discriminate)).
Defined.

Lemma get_tile_addr_stops (tx ty size layer : Z) (y8 x8 bmp : bool) (scrl : BkgScrollMode) :
  get_tile_addr tx ty y8 x8 size bmp layer scrl = None <->
  (size = 8 /\ scrl = SCROLL_4P) \/
  (size <> 8 /\ size <> 16 /\ (bmp = false \/ layer <> 0)).
Proof.
  unfold get_tile_addr.
  destruct (Z.eqb_spec size 8) as [E8 | E8];
    [| destruct (Z.eqb_spec size 16) as [E16 | E16]].
  - destruct scrl; cbn [mbind option_bind]; split; try discriminate; try tauto;
      intros [(_ & H) | (H & _)]; congruence.
  - destruct scrl; cbn [mbind option_bind]; split; try discriminate;
      intros [(H & _) | (_ & H & _)]; congruence.
  - destruct bmp; [destruct (Z.eqb_spec layer 0) as [E0 | E0]; cbn [negb] |].
    + destruct scrl; (split; [discriminate |]);
        intros [(H & _) | (_ & _ & [H | H])]; congruence.
    + split; [tauto | reflexivity].
    + split; [tauto | reflexivity].
Qed.

(** X17.  [get_tile_addr] stops at an assertion in exactly two situations:
    four-pane scrolling with 8-pixel tiles, and a tile size other than 8 or
    16 outside bitmap mode on layer 0. *)
Theorem get_tile_addr_None (tx ty size layer : Z) (y8 x8 bmp : bool) (scrl : BkgScrollMode) :
  get_tile_addr tx ty y8 x8 size bmp layer scrl = None <->
  (size = 8 /\ scrl = SCROLL_4P) \/
  (size <> 8 /\ size <> 16 /\ (bmp = false \/ layer <> 0)).
Proof. apply get_tile_addr_stops. Qed.

Lemma page16_even scrl tx ty y8 x8 : page16 scrl tx ty y8 x8 mod 2 = 0.
Proof. unfold page16. destruct scrl, y8, x8, (16 <? tx), (16 <? ty); reflexivity. Qed.

Lemma get_tile_addr_bounds (tx ty size layer a : Z) (y8 x8 bmp m : bool)
    (scrl : BkgScrollMode) :
  0 <= tx -> 0 <= ty -> 0 <= layer <= 1 ->
  get_tile_addr tx ty y8 x8 size bmp layer scrl = Some (a, m) ->
  0 <= a <= 0x0FFE /\ a mod 2 = 0.
Proof.
  intros Hx Hy Hl Hg.
  destruct (Z.eq_dec size 8) as [-> | H8]; [| destruct (Z.eq_dec size 16) as [-> | H16]].
  - assert (H4 : scrl <> SCROLL_4P) by (intros ->; discriminate Hg).
    rewrite (get_tile_addr_8 tx ty layer y8 x8 bmp scrl Hx Hy H4) in Hg.
    injection Hg as <- _.
    destruct (offset8_code tx ty Hx Hy) as (_ & Ho).
    assert (He : spec_offset8 tx ty mod 2 = 0)
      by (unfold spec_offset8; apply Z.mod_mul; lia).
    assert (Hb : spec_base8 scrl tx ty y8 x8 = 0 \/ spec_base8 scrl tx ty y8 x8 = 2048).
    { unfold spec_base8. destruct scrl, y8, x8, (32 <? tx), (32 <? ty); cbn; auto. }
    destruct Hb as [-> | ->]; split; try lia; Z.div_mod_to_equations; lia.
  - rewrite (get_tile_addr_16 tx ty layer y8 x8 bmp scrl Hx Hy ltac:(lia)) in Hg.
    injection Hg as <- _.
    destruct (offset16_code tx ty Hx Hy) as (_ & Ho).
    assert (He : spec_offset16 tx ty mod 2 = 0)
      by (unfold spec_offset16; apply Z.mod_mul; lia).
    destruct (spec_base16_sum scrl layer tx ty y8 x8) as (-> & Hp).
    pose proof (page16_even scrl tx ty y8 x8) as Hpe.
    split; [lia |]. Z.div_mod_to_equations. lia.
  - destruct bmp.
    + destruct (Z.eq_dec layer 0) as [-> | H0].
      * destruct (get_tile_addr_bmp tx ty size y8 x8 scrl Hy H8 H16) as (E & Hb & Hbe).
        rewrite E in Hg. injection Hg as <- _.
        pose proof (Z.mod_pos_bound ty 256 ltac:(lia)).
        split; [lia |]. Z.div_mod_to_equations. lia.
      * exfalso. assert (Hn : get_tile_addr tx ty y8 x8 size true layer scrl = None)
          by (apply get_tile_addr_stops; right; auto).
        congruence.
    + exfalso. assert (Hn : get_tile_addr tx ty y8 x8 size false layer scrl = None)
        by (apply get_tile_addr_stops; right; auto).
      congruence.
Qed.

(** X18.  Every address [get_tile_addr] returns for the renderer's arguments
    (tile indices from 0, layer 0 or 1) is even and at most [0x0FFE]: the
    two-byte cell lies in the first half of VRAM, below the palettes at
    [0x1C00]. *)
Theorem get_tile_addr_range (tx ty size layer a : Z) (y8 x8 bmp m : bool)
    (scrl : BkgScrollMode) :
  0 <= tx -> 0 <= ty -> 0 <= layer <= 1 ->
  get_tile_addr tx ty y8 x8 size bmp layer scrl = Some (a, m) ->
  0 <= a <= 0x0FFE /\ a mod 2 = 0.
Proof. exact (get_tile_addr_bounds tx ty size layer a y8 x8 bmp m scrl). Qed.

Lemma get_tile_addr_range_witness : 0 <= 0x800 + (1 + 32 * 5) * 2 <= 0x0FFE.
Proof.
  exact (proj1 (get_tile_addr_range 33 5 8 1 _ false false false true SCROLL_H
                  ltac:(lia) ltac:(lia) ltac:(lia) eq_refl)).
Defined.

(** ** Clearing and merging *)

Lemma clear_layer_spec (ptr : list Z) (w h : Z) :
  0 <= w * h <= Z.of_nat (length ptr) ->
  exists l,
    clear_layer ptr w h = Some l /\ length l = length ptr /\
    (forall k, 0 <= k < w * h -> l !! Z.to_nat k = Some 0x80008000) /\
    (forall k : nat, w * h <= Z.of_nat k -> l !! k = ptr !! k).
Proof.
  intros Hwh. unfold clear_layer.
  destruct (for_range_store (fun _ => 0x80008000) (Z.to_nat (w * h)) 0 ptr)
    as (l & Hrun & Hl & Hin & Hout); [lia | lia |].
  exists l. split; [exact Hrun |]. split; [exact Hl |]. split.
  - intros k Hk. apply Hin. lia.
  - intros k Hk. apply Hout. lia.
Qed.

Lemma clear_layers_cells (l0 l1 l2 l3 : list Z) (lw lh : Z) :
  Forall (fun l : list Z => 0 <= lw * lh <= Z.of_nat (length l)) [l0; l1; l2; l3] ->
  exists c0 c1 c2 c3,
    clear_layers [l0; l1; l2; l3] lw lh = Some [c0; c1; c2; c3] /\
    Forall2 (fun c l : list Z =>
      length c = length l /\
      (forall k, 0 <= k < lw * lh -> c !! Z.to_nat k = Some 0x80008000) /\
      (forall k : nat, lw * lh <= Z.of_nat k -> c !! k = l !! k))
      [c0; c1; c2; c3] [l0; l1; l2; l3].
Proof.
  intros Hall. rewrite !Forall_cons in Hall. destruct Hall as (H0 & H1 & H2 & H3 & _).
  destruct (clear_layer_spec l0 lw lh H0) as (c0 & E0 & S0).
  destruct (clear_layer_spec l1 lw lh H1) as (c1 & E1 & S1).
  destruct (clear_layer_spec l2 lw lh H2) as (c2 & E2 & S2).
  destruct (clear_layer_spec l3 lw lh H3) as (c3 & E3 & S3).
  exists c0, c1, c2, c3. split.
  - unfold clear_layers. cbn [for_range].
    change (Z.to_nat 0) with 0%nat. change (Z.to_nat (0 + 1)) with 1%nat.
    change (Z.to_nat (0 + 1 + 1)) with 2%nat. change (Z.to_nat (0 + 1 + 1 + 1)) with 3%nat.
    cbn [lookup list_lookup mbind option_bind].
    rewrite E0. cbn [mbind option_bind insert list_insert lookup list_lookup].
    rewrite E1. cbn [mbind option_bind insert list_insert lookup list_lookup].
    rewrite E2. cbn [mbind option_bind insert list_insert lookup list_lookup].
    rewrite E3. reflexivity.
  - constructor; [exact S0 |]. constructor; [exact S1 |].
    constructor; [exact S2 |]. constructor; [exact S3 |]. constructor.
Qed.

(** X19.  [clear_layers] makes the first [layer_width * layer_height] cells of
    each of the four layers transparent in both banks and changes nothing
    else. *)
Theorem clear_layers_spec (l0 l1 l2 l3 : list Z) (lw lh : Z) :
  Forall (fun l : list Z => 0 <= lw * lh <= Z.of_nat (length l)) [l0; l1; l2; l3] ->
  exists c0 c1 c2 c3,
    clear_layers [l0; l1; l2; l3] lw lh = Some [c0; c1; c2; c3] /\
    Forall2 (fun c l : list Z =>
      length c = length l /\
      (forall k, 0 <= k < lw * lh -> c !! Z.to_nat k = Some 0x80008000) /\
      (forall k : nat, lw * lh <= Z.of_nat k -> c !! k = l !! k))
      [c0; c1; c2; c3] [l0; l1; l2; l3].
Proof. exact (clear_layers_cells l0 l1 l2 l3 lw lh). Qed.

Lemma clear_layers_spec_witness :
  clear_layers [[1; 2]; [3; 4]; [5; 6]; [7; 8]] 1 1
  = Some [[0x80008000; 2]; [0x80008000; 4]; [0x80008000; 6]; [0x80008000; 8]].
Proof.
  destruct (clear_layers_spec [1; 2] [3; 4] [5; 6] [7; 8] 1 1)
    as (c0 & c1 & c2 & c3 & Hrun & _).
  - repeat constructor; cbn; lia.
  - rewrite Hrun. vm_compute in Hrun. injection Hrun as <- <- <- <-. reflexivity.
Defined.

(** The cells [merge_layers] writes, in terms of the scan and the choice of
    colour. *)
Lemma merge_layers_cells (regs l0 l1 l2 l3 obuf : list Z) (lw ow oh pal_sel : Z)
    (lcd : bool) :
  load regs reg_pal_sel = Some pal_sel ->
  0 <= ow <= lw -> 0 <= oh ->
  Forall (fun l : list Z => oh * lw <= Z.of_nat (length l)) [l0; l1; l2; l3] ->
  oh * ow <= Z.of_nat (length obuf) ->
  exists obuf',
    merge_layers regs [l0; l1; l2; l3] lw ow oh obuf lcd = Some obuf' /\
    length obuf' = length obuf /\
    (forall x y, 0 <= x < ow -> 0 <= y < oh ->
       obuf' !! Z.to_nat (y * ow + x) =
         Some (argb1555_to_rgb8888
                 (merge_res (get_bit pal_sel (if lcd then 0 else 1))
                            (get_bit pal_sel (if lcd then 2 else 3))
                            (get_bit pal_sel (if lcd then 5 else 4))
                    (topmost (map (fun l => cell_lo (cell_at l lw x y)) [l0; l1; l2; l3]))
                    (topmost (map (fun l => cell_hi (cell_at l lw x y)) [l0; l1; l2; l3]))))) /\
    (forall j : nat, oh * ow <= Z.of_nat j -> obuf' !! j = obuf !! j).
Proof.
  intros Hsel Hw Hh Hlay Hob.
  rewrite !Forall_cons in Hlay. destruct Hlay as (L0 & L1 & L2 & L3 & _).
  unfold merge_layers. bind_with Hsel.
  set (o0 := get_bit pal_sel (if lcd then 0 else 1)).
  set (o1 := get_bit pal_sel (if lcd then 2 else 3)).
  set (bl := get_bit pal_sel (if lcd then 5 else 4)).
  set (f := fun y x =>
    argb1555_to_rgb8888 (merge_res o0 o1 bl
      (topmost (map (fun l => cell_lo (cell_at l lw x y)) [l0; l1; l2; l3]))
      (topmost (map (fun l => cell_hi (cell_at l lw x y)) [l0; l1; l2; l3])))).
  set (g := fun y x =>
    '(pal0, pal1) ← scan_layers [l0; l1; l2; l3] lw x y;
    Some (argb1555_to_rgb8888 (merge_res o0 o1 bl pal0 pal1))).
  assert (Hg : forall x y, 0 <= x < ow -> 0 <= y < oh -> g y x = Some (f y x)).
  { intros x y Hx Hy. unfold g, f.
    rewrite (scan_layers_topmost l0 l1 l2 l3 lw x y
               (cell_at l0 lw x y) (cell_at l1 lw x y) (cell_at l2 lw x y) (cell_at l3 lw x y))
      by (apply load_cell_at; nia).
    reflexivity. }
  edestruct (for_range_rows
               (fun y obuf => for_range (Z.to_nat ow) 0 (fun x obuf =>
                  '(pal0, pal1) ← scan_layers [l0; l1; l2; l3] lw x y;
                  let res := merge_res o0 o1 bl pal0 pal1 in
                  store obuf (y * ow + x) (argb1555_to_rgb8888 res)) obuf)
               f ow (Z.to_nat oh) 0 obuf)
    as (obuf' & Hrun & Hlen & Hin & Hout); [lia | lia | lia | |].
  - intros y b Hy Hb.
    rewrite (for_range_ext _ (fun x b => v ← g y x; store b (y * ow + x) v)).
    2: { intros j t. unfold g.
         now destruct (scan_layers [l0; l1; l2; l3] lw j y) as [[p0 p1] |]. }
    destruct (for_range_store_at (g y) (f y) (y * ow) (Z.to_nat ow) 0 b)
      as (b' & Hr & Hl & Hi & Ho); [nia | rewrite Hb; nia | |].
    + intros k Hk. apply Hg; lia.
    + exists b'. split; [exact Hr |]. split; [exact Hl |]. split.
      * intros x Hx. apply Hi. lia.
      * intros j Hj. apply Ho. lia.
  - exists obuf'. split; [exact Hrun |]. split; [exact Hlen |]. split.
    + intros x y Hx Hy. apply (Hin y x); lia.
    + intros j Hj. apply Hout. lia.
Qed.

(** The blend flag does not reach the picture: the blend is only kept when
    both scanned samples are transparent, and it is transparent then. *)
Lemma merge_res_blend_free (o0 o1 bl : bool) (pal0 pal1 : Z) :
  argb1555_to_rgb8888 (merge_res o0 o1 bl pal0 pal1) =
  argb1555_to_rgb8888 (merge_res o0 o1 false pal0 pal1).
Proof.
  unfold merge_res. rewrite !tst_bit15. cbn [andb].
  destruct (bl && o0 && o1) eqn:Eb; [| reflexivity].
  destruct o0, o1, bl; try discriminate Eb. cbn [andb negb].
  destruct (Z.testbit pal1 15) eqn:T1; [| reflexivity].
  destruct (Z.testbit pal0 15) eqn:T0; [| reflexivity]. cbn [negb].
  rewrite blend_argb1555_transparent_a by exact T0.
  now rewrite argb1555_to_rgb8888_transparent by exact T1.
Qed.

Lemma merge_res_transparent (o0 o1 bl : bool) (pal0 pal1 : Z) :
  (Z.testbit pal0 15 = true /\ Z.testbit pal1 15 = true) \/ (o0 = false /\ o1 = false) ->
  argb1555_to_rgb8888 (merge_res o0 o1 bl pal0 pal1) = 0xFF000000.
Proof.
  intros H. rewrite merge_res_blend_free. unfold merge_res. rewrite !tst_bit15.
  destruct H as [(T0 & T1) | (-> & ->)].
  - rewrite T0, T1. cbn. now rewrite !andb_false_r.
  - reflexivity.
Qed.

(** X20.  Two register files that agree on the two output bits of [reg_pal_sel]
    give the same picture, whatever their blend bits: [merge_layers] never
    shows an averaged colour. *)
Theorem merge_layers_blend_ignored (regs regs' : list Z) (layers : list (list Z))
    (lw ow oh ps ps' : Z) (obuf : list Z) (lcd : bool) :
  load regs reg_pal_sel = Some ps -> load regs' reg_pal_sel = Some ps' ->
  get_bit ps (if lcd then 0 else 1) = get_bit ps' (if lcd then 0 else 1) ->
  get_bit ps (if lcd then 2 else 3) = get_bit ps' (if lcd then 2 else 3) ->
  merge_layers regs layers lw ow oh obuf lcd = merge_layers regs' layers lw ow oh obuf lcd.
Proof.
  intros Hs Hs' E0 E1. unfold merge_layers. bind_with Hs. bind_with Hs'.
  rewrite E0, E1.
  apply for_range_ext. intros y b. apply for_range_ext. intros x b'.
  destruct (scan_layers layers lw x y) as [[p0 p1] |]; [| reflexivity].
  cbn [mbind option_bind]. cbv zeta.
  rewrite merge_res_blend_free.
  now rewrite (merge_res_blend_free _ _ (get_bit ps' (if lcd then 5 else 4))).
Qed.

Lemma merge_layers_blend_ignored_witness :
  merge_layers (<[14%nat := 0x1A]> (replicate 32 0))
               [[0x8000001F]; [0x03E08000]; [0x7C007C00]; [0]] 1 1 1 [0] false
  = merge_layers (<[14%nat := 0x0A]> (replicate 32 0))
               [[0x8000001F]; [0x03E08000]; [0x7C007C00]; [0]] 1 1 1 [0] false.
Proof.
  apply (merge_layers_blend_ignored _ _ _ 1 1 1 0x1A 0x0A); reflexivity.
Defined.

(** X21.  Every pixel [merge_layers] writes is opaque, and it is black when no
    bank is output or when no layer has a solid sample under it. *)
Theorem merge_layers_opaque (regs l0 l1 l2 l3 obuf : list Z) (lw ow oh pal_sel : Z)
    (lcd : bool) :
  load regs reg_pal_sel = Some pal_sel ->
  0 <= ow <= lw -> 0 <= oh ->
  Forall (fun l : list Z => oh * lw <= Z.of_nat (length l)) [l0; l1; l2; l3] ->
  oh * ow <= Z.of_nat (length obuf) ->
  exists obuf',
    merge_layers regs [l0; l1; l2; l3] lw ow oh obuf lcd = Some obuf' /\
    length obuf' = length obuf /\
    (forall j : nat, oh * ow <= Z.of_nat j -> obuf' !! j = obuf !! j) /\
    forall x y, 0 <= x < ow -> 0 <= y < oh ->
      exists c,
        obuf' !! Z.to_nat (y * ow + x) = Some c /\ Z.shiftr c 24 = 0xFF /\ is_u32 c /\
        ((get_bit pal_sel (if lcd then 0 else 1) = false /\
          get_bit pal_sel (if lcd then 2 else 3) = false) \/
         Forall (fun l => solid (cell_lo (cell_at l lw x y)) = false /\
                          solid (cell_hi (cell_at l lw x y)) = false) [l0; l1; l2; l3] ->
         c = 0xFF000000).
Proof.
  intros Hsel Hw Hh Hlay Hob.
  destruct (merge_layers_cells regs l0 l1 l2 l3 obuf lw ow oh pal_sel lcd Hsel Hw Hh Hlay Hob)
    as (obuf' & Hrun & Hlen & Hin & Hout).
  exists obuf'. split; [exact Hrun |]. split; [exact Hlen |]. split; [exact Hout |].
  intros x y Hx Hy. eexists. split; [apply Hin; assumption |].
  destruct (argb1555_to_rgb8888_shape
              (merge_res (get_bit pal_sel (if lcd then 0 else 1))
                 (get_bit pal_sel (if lcd then 2 else 3))
                 (get_bit pal_sel (if lcd then 5 else 4))
                 (topmost (map (fun l => cell_lo (cell_at l lw x y)) [l0; l1; l2; l3]))
                 (topmost (map (fun l => cell_hi (cell_at l lw x y)) [l0; l1; l2; l3]))))
    as (Hu & Ha & _).
  split; [exact Ha |]. split; [exact Hu |].
  intros Hblack. apply merge_res_transparent.
  destruct Hblack as [Hoff | Hclear]; [now right | left].
  rewrite !Forall_cons in Hclear. destruct Hclear as ((A0 & B0) & (A1 & B1) & (A2 & B2) & (A3 & B3) & _).
  cbn [map topmost]. rewrite A0, A1, A2, A3, B0, B1, B2, B3. split; reflexivity.
Qed.

Lemma merge_layers_opaque_witness :
  exists obuf',
    merge_layers (<[14%nat := 0x0A]> (replicate 32 0))
                 [[0x80008000]; [0x80008000]; [0x80008000]; [0x80008000]] 1 1 1 [0] false
      = Some obuf' /\
    obuf' !! 0%nat = Some 0xFF000000.
Proof.
  destruct (merge_layers_opaque (<[14%nat := 0x0A]> (replicate 32 0))
              [0x80008000] [0x80008000] [0x80008000] [0x80008000] [0] 1 1 1 0x0A false)
    as (obuf' & Hrun & _ & _ & Hpix);
    [vm_compute; reflexivity | lia | lia | repeat constructor; cbn; lia | cbn; lia |].
  exists obuf'. split; [exact Hrun |].
  destruct (Hpix 0 0 ltac:(lia) ltac:(lia)) as (c & Hc & _ & _ & Hblack).
  rewrite (Hblack ltac:(right; repeat constructor)) in Hc. exact Hc.
Defined.

(** ** Renderer *)

Lemma for_down_inv {St : Type} (P : St -> Prop) (body : Z -> St -> option St)
    (n : nat) (i0 : Z) (s : St) :
  P s ->
  (forall i t, i0 - Z.of_nat n < i <= i0 -> P t -> exists t', body i t = Some t' /\ P t') ->
  exists s', for_down n i0 body s = Some s' /\ P s'.
Proof.
  revert i0 s. induction n as [| n IH]; intros i0 s Hs Hstep.
  - exists s. auto.
  - cbn [for_down]. destruct (Hstep i0 s ltac:(lia) Hs) as (t & Hb & Ht).
    rewrite Hb. cbn [mbind option_bind].
    apply IH; [exact Ht |]. intros i u Hi Hu. apply Hstep; [lia | exact Hu].
Qed.

(** [get_char_data] stays inside a buffer that holds [w * h * bpp / 8]
    bytes and leaves bytes in it. *)
Lemma get_char_data_safe (mem : Z -> Z) (seg vector w h : Z) (fmt : ColourMode)
    (bmp : bool) (buf : list Z) :
  0 <= w -> 0 <= h -> w * h * bpp_of fmt <= 8 * Z.of_nat (length buf) ->
  (forall a, is_u8 (mem a)) -> Forall is_u8 buf ->
  exists buf',
    get_char_data mem seg vector w h fmt bmp buf = Some buf' /\
    length buf' = length buf /\ Forall is_u8 buf'.
Proof.
  intros Hw Hh Hlen Hmem Hbuf.
  assert (Hbpp : 2 <= bpp_of fmt <= 16) by (destruct fmt; cbn; lia).
  assert (Hl : char_len w h fmt = w * h * bpp_of fmt / 8)
    by (unfold char_len; apply Z.quot_div_nonneg; nia).
  assert (Hl0 : 0 <= w * h * bpp_of fmt / 8 <= Z.of_nat (length buf)).
  { split; [apply Z.div_pos; nia | apply Z.div_le_upper_bound; lia]. }
  unfold get_char_data. cbv zeta. rewrite Hl.
  destruct (for_range_store
              (fun i => mem (to_u32 (char_pa seg vector w h fmt bmp + i)))
              (Z.to_nat (w * h * bpp_of fmt / 8)) 0 buf)
    as (buf' & Hrun & Hlen' & Hin & Hout); [lia | lia |].
  exists buf'. split; [exact Hrun |]. split; [exact Hlen' |].
  apply Forall_lookup_2. intros k v Hk.
  destruct (Z_lt_dec (Z.of_nat k) (w * h * bpp_of fmt / 8)) as [Hlt | Hge].
  - rewrite <- (Nat2Z.id k) in Hk. rewrite Hin in Hk by lia. injection Hk as <-. apply Hmem.
  - rewrite Hout in Hk by lia. exact (Forall_lookup_1 _ _ _ _ Hbuf Hk).
Qed.

Lemma layers_wf_insert (lw lh : Z) (ls : list (list Z)) (k : nat) (l l' : list Z) :
  layers_wf lw lh ls -> ls !! k = Some l -> length l' = length l -> Forall is_u32 l' ->
  layers_wf lw lh (<[k := l']> ls) /\ length <$> <[k := l']> ls = length <$> ls.
Proof.
  intros (H4 & Hall) Hk Hl Hu. split; [split |].
  - now rewrite length_insert.
  - apply Forall_insert; [exact Hall |].
    destruct (Forall_lookup_1 _ _ _ _ Hall Hk) as (Hsz & _). split; [lia | exact Hu].
  - rewrite list_fmap_insert. apply list_insert_id.
    rewrite list_lookup_fmap, Hk. cbn. now rewrite Hl.
Qed.

Lemma layers_wf_lookup (lw lh : Z) (ls : list (list Z)) (k : Z) :
  layers_wf lw lh ls -> 0 <= k <= 3 ->
  exists l, ls !! Z.to_nat k = Some l /\
            lh * lw <= Z.of_nat (length l) /\ Forall is_u32 l.
Proof.
  intros (H4 & Hall) Hk.
  destruct (lookup_lt_is_Some_2 ls (Z.to_nat k) ltac:(lia)) as (l & Hl).
  exists l. split; [exact Hl |]. exact (Forall_lookup_1 _ _ _ _ Hall Hl).
Qed.

Lemma land_3_range (z : Z) : 0 <= Z.land z 0x03 <= 3.
Proof. pose proof (land_range z 2 ltac:(lia)). change (2 ^ 2 - 1) with 3 in *. lia. Qed.

Lemma land_F_range (z : Z) : 0 <= Z.land z 0x0F <= 15.
Proof. pose proof (land_range z 4 ltac:(lia)). change (2 ^ 4 - 1) with 15 in *. lia. Qed.

Lemma length_at_offset (mem : list Z) (off : Z) :
  0 <= off -> Z.of_nat (length (at_offset mem off)) = Z.max 0 (Z.of_nat (length mem) - off).
Proof. intros H. unfold at_offset. rewrite length_drop. lia. Qed.

(** The state of a render loop: the character buffer and the layers. *)
Lemma blit_into_layers (lw lh : Z) (ls ls0 : list (list Z)) (buf : list Z)
    (sw sh x y layer : Z) (fmt : ColourMode) (pal0 pal1 : option (list Z)) (junk : Z * Z) :
  0 <= lw -> 0 <= sw -> 0 <= sh ->
  Forall is_u8 buf -> sw * sh * bpp_of fmt <= 8 * Z.of_nat (length buf) ->
  pal_fits fmt pal0 -> pal_fits fmt pal1 -> junk_wf junk ->
  0 <= layer <= 3 -> layers_wf lw lh ls -> length <$> ls = length <$> ls0 ->
  exists l l',
    ls !! Z.to_nat layer = Some l /\
    vt_blit sw sh buf lw lh lw x y l fmt pal0 pal1 (fst junk) (snd junk) = Some l' /\
    layers_wf lw lh (<[Z.to_nat layer := l']> ls) /\
    length <$> <[Z.to_nat layer := l']> ls = length <$> ls0.
Proof.
  intros Hlw Hsw Hsh Hbuf Hlen F0 F1 (J0 & J1) Hlayer Hwf Hshape.
  destruct (layers_wf_lookup lw lh ls layer Hwf Hlayer) as (l & Hl & Hsz & Hu).
  destruct (vt_blit_clip sw sh buf lw lh lw x y l fmt pal0 pal1 Hsw Hsh Hbuf Hlen F0 F1
              ltac:(lia) Hsz Hu (fst junk) (snd junk) J0 J1)
    as (l' & Hrun & Hl' & Hu' & _).
  destruct (layers_wf_insert lw lh ls (Z.to_nat layer) l l' Hwf Hl Hl' Hu') as (Hwf' & Hm).
  exists l, l'. split; [exact Hl |]. split; [exact Hrun |]. split; [exact Hwf' |].
  now rewrite Hm.
Qed.

Section RenderSafe.

Variable read_mem_physical : Z -> Z.
Variables (regs vmem smem : list Z) (lw lh : Z).

Hypothesis Hmem : forall a, is_u8 (read_mem_physical a).
Hypothesis Hregs : Z.of_nat (length regs) = 256.
Hypothesis Hvram : Z.of_nat (length vmem) = 8192.
Hypothesis Hspram : Z.of_nat (length smem) = 2048.
Hypothesis Hlw : 0 <= lw.

Lemma render_sprite_safe (spalsel : bool) (sp_width sp_height sp_seg : Z) (junk : Z * Z)
    (idx : Z) (ls0 : list (list Z)) (st : list Z * list (list Z)) :
  sp_width = 8 \/ sp_width = 16 -> sp_height = 8 \/ sp_height = 16 ->
  0 <= idx < 240 -> junk_wf junk -> render_inv lw lh 256 ls0 st ->
  exists st',
    render_sprite read_mem_physical vmem smem lw lh spalsel sp_width sp_height sp_seg
      junk idx st = Some st' /\
    render_inv lw lh 256 ls0 st'.
Proof.
  intros Hw Hh Hidx Hj (Hn & Hb & Hwf & Hshape). unfold render_sprite. cbv zeta.
  destruct (load_Some smem (8 * idx + 1) ltac:(lia)) as (d1 & E1). bind_with E1.
  destruct (load_Some smem (8 * idx + 0) ltac:(lia)) as (d0 & E0). bind_with E0.
  destruct (_ =? 0); [exists st; split; [reflexivity | unfold render_inv; auto] |].
  destruct (load_Some smem (8 * idx + 3) ltac:(lia)) as (d3 & E3). bind_with E3.
  destruct (load_Some smem (8 * idx + 5) ltac:(lia)) as (d5 & E5). bind_with E5.
  destruct (load_Some smem (8 * idx + 2) ltac:(lia)) as (d2 & E2). bind_with E2.
  destruct (load_Some smem (8 * idx + 4) ltac:(lia)) as (d4 & E4). bind_with E4.
  destruct (get_char_data_safe read_mem_physical sp_seg
              (to_u16 (Z.lor (Z.shiftl (Z.land d1 0x0F) 8) d0))
              sp_width sp_height IDX_16 false (fst st))
    as (tb & Hg & Htl & Htb); [lia | lia | cbn [bpp_of]; nia | exact Hmem | exact Hb |].
  bind_with Hg.
  pose proof (land_F_range (Z.shiftr d1 4)) as Hpal.
  pose proof (land_3_range (Z.shiftr d3 3)) as Hlay.
  match goal with
  | |- context [vt_blit _ _ _ _ _ _ ?x ?y _ _ ?p0 ?p1 _ _] =>
      destruct (blit_into_layers lw lh (snd st) ls0 tb sp_width sp_height x y
                  (Z.land (Z.shiftr d3 3) 0x03) IDX_16 p0 p1 junk)
        as (l & l' & Hl & Hrun & Hwf' & Hshape')
  end; try assumption; try lia.
  - cbn [bpp_of]. nia.
  - destruct (spalsel || negb (get_bit d5 1)); cbn [pal_fits bpp_of]; [| exact I].
    rewrite length_at_offset by lia. change (2 * 2 ^ 4) with 32. lia.
  - destruct (spalsel || get_bit d5 1); cbn [pal_fits bpp_of]; [| exact I].
    rewrite length_at_offset by lia. change (2 * 2 ^ 4) with 32. lia.
  - bind_with Hl. bind_with Hrun. eexists. split; [reflexivity |].
    unfold render_inv. cbn [fst snd]. split; [lia |]. split; [exact Htb |]. split; assumption.
Qed.

Lemma render_sprites_run (tempbuf : list Z) (junk : Z -> Z * Z) (layers : list (list Z)) :
  Z.of_nat (length tempbuf) = 256 -> Forall is_u8 tempbuf ->
  (forall i, junk_wf (junk i)) -> layers_wf lw lh layers ->
  exists layers',
    render_sprites read_mem_physical regs vmem smem lw lh tempbuf junk layers
      = Some layers' /\
    layers_wf lw lh layers' /\ length <$> layers' = length <$> layers.
Proof.
  intros Hn Hb Hj Hwf. unfold render_sprites. cbv zeta.
  destruct (load_Some regs reg_sp_ctrl ltac:(unfold reg_sp_ctrl; lia)) as (ctrl & Ec).
  bind_with Ec.
  destruct (negb (get_bit ctrl 2)); [exists layers; auto |].
  destruct (load_Some regs reg_sp_seg_msb ltac:(unfold reg_sp_seg_msb; lia)) as (msb & Em).
  bind_with Em.
  destruct (load_Some regs reg_sp_seg_lsb ltac:(unfold reg_sp_seg_lsb; lia)) as (lsb & El).
  bind_with El.
  match goal with
  | |- context [for_down _ _ ?body ?s] =>
      destruct (for_down_inv (render_inv lw lh 256 layers) body 240 239 s)
        as (st' & Hrun & (_ & _ & Hwf' & Hshape'))
  end.
  - unfold render_inv. cbn [fst snd]. auto.
  - intros i t Hi Ht. apply render_sprite_safe; try assumption; try lia.
    + destruct (_ || _); auto.
    + destruct (_ || _); auto.
    + apply Hj.
  - rewrite Hrun. cbn [mbind option_bind]. exists (snd st'). auto.
Qed.

End RenderSafe.

Lemma shadow_reg_Some (regs table : list Z) (idx : Z) :
  Z.of_nat (length regs) = 256 -> Forall (fun r => 0 <= r < 256) table ->
  0 <= idx < Z.of_nat (length table) ->
  is_Some (shadow_reg regs table idx).
Proof.
  intros Hregs Htab Hidx. unfold shadow_reg.
  destruct (load_Some table idx Hidx) as (r & Er). bind_with Er.
  apply load_Some. rewrite load_lookup in Er by lia.
  pose proof (Forall_lookup_1 _ _ _ _ Htab Er) as Hr. cbn beta in Hr. lia.
Qed.

Lemma bkg_reg_Some (regs table : list Z) (idx : Z) :
  Z.of_nat (length regs) = 256 -> idx = 0 \/ idx = 1 ->
  In table [reg_bkg_x; reg_bkg_y; reg_bkg_ctrl1; reg_bkg_ctrl2;
            reg_bkg_seg_lsb; reg_bkg_seg_msb] ->
  is_Some (shadow_reg regs table idx).
Proof.
  intros Hregs Hidx Hin. apply shadow_reg_Some; [exact Hregs | |].
  - cbn [In] in Hin.
    repeat (destruct Hin as [<- | Hin]; [repeat constructor; lia |]). destruct Hin.
  - cbn [In] in Hin.
    repeat (destruct Hin as [<- | Hin]; [cbn; lia |]). destruct Hin.
Qed.

Lemma fmt_of_Some (z : Z) : exists fmt, fmt_of (Z.land z 0x03) = Some fmt.
Proof.
  pose proof (land_3_range z) as H. unfold fmt_of.
  destruct (Z.eqb_spec (Z.land z 3) 0); [eauto |].
  destruct (Z.eqb_spec (Z.land z 3) 1); [eauto |].
  destruct (Z.eqb_spec (Z.land z 3) 2); [eauto |].
  destruct (Z.eqb_spec (Z.land z 3) 3); [eauto | lia].
Qed.

Lemma scroll_of_Some (z : Z) :
  exists scrl, scroll_of (Z.land z 0x03) = Some scrl /\
               (scrl = SCROLL_4P <-> Z.land z 0x03 = 3).
Proof.
  pose proof (land_3_range z) as H. unfold scroll_of.
  destruct (Z.eqb_spec (Z.land z 3) 0);
    [eexists; split; [reflexivity | split; [discriminate | lia]] |].
  destruct (Z.eqb_spec (Z.land z 3) 1);
    [eexists; split; [reflexivity | split; [discriminate | lia]] |].
  destruct (Z.eqb_spec (Z.land z 3) 2);
    [eexists; split; [reflexivity | split; [discriminate | lia]] |].
  destruct (Z.eqb_spec (Z.land z 3) 3);
    [eexists; split; [reflexivity | split; auto] | lia].
Qed.

(** What the loops of [render_background] rely on in the values read from
    the registers. *)
Lemma bkg_registers_spec (regs : list Z) (idx ctrl1 ctrl2 : Z) :
  Z.of_nat (length regs) = 256 -> idx = 0 \/ idx = 1 ->
  shadow_reg regs reg_bkg_ctrl1 idx = Some ctrl1 ->
  shadow_reg regs reg_bkg_ctrl2 idx = Some ctrl2 ->
  exists b,
    bkg_registers regs idx = Some b /\
    bk_bmp b = (idx =? 0) && get_bit ctrl2 1 /\
    bk_tile_width b = (if bk_bmp b then 256 else if get_bit ctrl2 0 then 16 else 8) /\
    bk_tile_height b = (if bk_bmp b then 1 else if get_bit ctrl2 0 then 16 else 8) /\
    (bk_scrl_mode b = SCROLL_4P <-> Z.land (Z.shiftr ctrl1 2) 0x03 = 3) /\
    (bk_x0 b = 0 \/ (bk_x0 b = -256 /\ bk_bmp b = false)) /\
    (bk_y0 b = 0 \/ (bk_y0 b = -256 /\ bk_bmp b = false)) /\
    (bk_scrl_mode b = SCROLL_4P -> bk_bmp b = false -> bk_x0 b = -256 /\ bk_y0 b = -256).
Proof.
  intros Hregs Hidx E1 E2. unfold bkg_registers.
  bind_with E2. rewrite E1.
  destruct (bkg_reg_Some regs reg_bkg_x idx Hregs Hidx ltac:(cbn; tauto)) as (xo & Ex).
  destruct (bkg_reg_Some regs reg_bkg_y idx Hregs Hidx ltac:(cbn; tauto)) as (yo & Ey).
  destruct (bkg_reg_Some regs reg_bkg_seg_lsb idx Hregs Hidx ltac:(cbn; tauto)) as (sl & Esl).
  destruct (bkg_reg_Some regs reg_bkg_seg_msb idx Hregs Hidx ltac:(cbn; tauto)) as (sm & Esm).
  destruct (load_Some regs reg_bkg_pal_sel ltac:(unfold reg_bkg_pal_sel; lia)) as (ps & Eps).
  destruct (fmt_of_Some (Z.shiftr ctrl2 2)) as (f & Ef).
  destruct (scroll_of_Some (Z.shiftr ctrl1 2)) as (sc & Esc & H4).
  destruct (idx =? 0) eqn:Eidx; cbn [mbind option_bind] in *.
  - destruct (get_bit ctrl1 4); rewrite ?Ef; cbn [mbind option_bind];
      rewrite Eps; cbn [mbind option_bind]; rewrite Ex; cbn [mbind option_bind];
      rewrite Ey; cbn [mbind option_bind]; rewrite Esc; cbn [mbind option_bind];
      rewrite Esm; cbn [mbind option_bind]; rewrite Esl; cbn [mbind option_bind];
      (eexists; split; [reflexivity |]);
      cbn [bk_bmp bk_tile_width bk_tile_height bk_scrl_mode bk_x0 bk_y0 andb];
      (split; [reflexivity |]); (split; [reflexivity |]); (split; [reflexivity |]);
      (split; [exact H4 |]);
      destruct sc, (get_bit ctrl2 1); cbn [andb negb];
      repeat split; auto; try discriminate.
  - rewrite ?Ef; cbn [mbind option_bind];
      rewrite Eps; cbn [mbind option_bind]; rewrite Ex; cbn [mbind option_bind];
      rewrite Ey; cbn [mbind option_bind]; rewrite Esc; cbn [mbind option_bind];
      rewrite Esm; cbn [mbind option_bind]; rewrite Esl; cbn [mbind option_bind];
      (eexists; split; [reflexivity |]);
      cbn [bk_bmp bk_tile_width bk_tile_height bk_scrl_mode bk_x0 bk_y0 andb];
      (split; [reflexivity |]); (split; [reflexivity |]); (split; [reflexivity |]);
      (split; [exact H4 |]);
      destruct sc; cbn [andb negb]; repeat split; auto; try discriminate.
Qed.

Lemma lor_small (a b : Z) : 0 <= a <= 3 -> 0 <= b <= 3 -> 0 <= Z.lor a b <= 3.
Proof.
  intros Ha Hb.
  assert (Ea : a = 0 \/ a = 1 \/ a = 2 \/ a = 3) by lia.
  assert (Eb : b = 0 \/ b = 1 \/ b = 2 \/ b = 3) by lia.
  destruct Ea as [-> | [-> | [-> | ->]]], Eb as [-> | [-> | [-> | ->]]];
    vm_compute; split; discriminate.
Qed.

(** The palette a tile selects ends where the palette memory ends. *)
Lemma tile_palette_fits (bkx_pal : bool) (fmt : ColourMode) (ctrl2 cell_pal_bk : Z) :
  0 <= cell_pal_bk <= 15 -> is_indexed fmt = true ->
  0 <= tile_palette_offset fmt (tile_pal_bank bkx_pal fmt ctrl2 cell_pal_bk) /\
  tile_palette_offset fmt (tile_pal_bank bkx_pal fmt ctrl2 cell_pal_bk)
    + 2 * 2 ^ bpp_of fmt <= 512.
Proof.
  intros Hc Hfmt.
  assert (Hs : 0 <= Z.shiftr cell_pal_bk 2 <= 3).
  { rewrite Z.shiftr_div_pow2 by lia. change (2 ^ 2) with 4. Z.div_mod_to_equations. lia. }
  pose proof (lor_small _ _ (land_3_range (Z.shiftr ctrl2 4)) Hs) as Hl.
  unfold tile_palette_offset, tile_pal_bank.
  destruct fmt; try discriminate Hfmt; destruct bkx_pal; cbn [bpp_of];
    rewrite ?(to_u8_id cell_pal_bk), ?(to_u8_id (Z.shiftr cell_pal_bk 2)),
      ?(to_u8_id (Z.lor _ _)) by (unfold is_u8; lia);
    try (change (to_u8 0) with 0); try (change (to_u16 0) with 0);
    rewrite ?to_u16_id by (unfold is_u16; lia);
    try (change (2 ^ 2) with 4); try (change (2 ^ 4) with 16);
    try (change (2 ^ 6) with 64); try (change (2 ^ 8) with 256); lia.
Qed.

Lemma tile_pal_fits (vmem : list Z) (fmt : ColourMode) (use : bool) (base off : Z) :
  Z.of_nat (length vmem) = 8192 -> 0 <= base <= 0x1E00 -> 0 <= off ->
  (is_indexed fmt = true -> off + 2 * 2 ^ bpp_of fmt <= 512) ->
  pal_fits fmt (if use then Some (at_offset vmem (base + off)) else None).
Proof.
  intros Hv Hb Ho Hfit.
  destruct use; [| destruct fmt; exact I].
  destruct fmt; try exact I; cbn [pal_fits]; rewrite length_at_offset by lia;
    specialize (Hfit eq_refl); lia.
Qed.

Section BackgroundSafe.

Variable read_mem_physical : Z -> Z.
Variables (regs vmem : list Z) (lw lh idx : Z) (b : bkg_setup).

Hypothesis Hmem : forall a, is_u8 (read_mem_physical a).
Hypothesis Hregs : Z.of_nat (length regs) = 256.
Hypothesis Hvram : Z.of_nat (length vmem) = 8192.
Hypothesis Hlw : 0 <= lw.
Hypothesis Hidx : idx = 0 \/ idx = 1.
Hypothesis Hshape :
  (bk_bmp b = true /\ idx = 0 /\ bk_tile_width b = 256 /\ bk_tile_height b = 1) \/
  (bk_bmp b = false /\
   ((bk_tile_width b = 8 /\ bk_tile_height b = 8) \/
    (bk_tile_width b = 16 /\ bk_tile_height b = 16))).

Lemma render_tile_stops (junk : Z * Z) (x y : Z) (st : list Z * list (list Z)) :
  bk_tile_width b = 8 -> bk_scrl_mode b = SCROLL_4P ->
  render_tile read_mem_physical regs vmem lw lh idx b junk x y st = None.
Proof.
  intros Hw H4. unfold render_tile. cbv zeta.
  assert (E : forall tx ty, get_tile_addr tx ty (bk_y8 b) (bk_x8 b) (bk_tile_width b)
                (bk_bmp b) idx (bk_scrl_mode b) = None)
    by (intros; apply get_tile_addr_stops; left; auto).
  now rewrite E.
Qed.

Lemma render_tile_safe (junk : Z * Z) (kx ky : Z) (ls0 : list (list Z))
    (st : list Z * list (list Z)) :
  ~ (bk_tile_width b = 8 /\ bk_scrl_mode b = SCROLL_4P) ->
  0 <= kx -> 0 <= ky -> junk_wf junk -> render_inv lw lh 512 ls0 st ->
  exists st',
    render_tile read_mem_physical regs vmem lw lh idx b junk
      (bk_x0 b + kx * bk_tile_width b) (bk_y0 b + ky * bk_tile_height b) st = Some st' /\
    render_inv lw lh 512 ls0 st'.
Proof.
  intros Hn4 Hkx Hky Hj (Hn & Hb & Hwf & Hls). unfold render_tile. cbv zeta.
  assert (Hw : 0 < bk_tile_width b <= 256) by (destruct Hshape as [(_ & _ & -> & _) | (_ & [(-> & _) | (-> & _)])]; lia).
  assert (Hh : 0 < bk_tile_height b <= 16) by (destruct Hshape as [(_ & _ & _ & ->) | (_ & [(_ & ->) | (_ & ->)])]; lia).
  assert (Hwh : bk_tile_width b * bk_tile_height b <= 256)
    by (destruct Hshape as [(_ & _ & -> & ->) | (_ & [(-> & ->) | (-> & ->)])]; lia).
  replace (bk_x0 b + kx * bk_tile_width b - bk_x0 b) with (kx * bk_tile_width b) by lia.
  replace (bk_y0 b + ky * bk_tile_height b - bk_y0 b) with (ky * bk_tile_height b) by lia.
  rewrite !Z.quot_mul by lia.
  destruct (get_tile_addr kx ky (bk_y8 b) (bk_x8 b) (bk_tile_width b) (bk_bmp b) idx
              (bk_scrl_mode b)) as [[a m] |] eqn:Eg.
  2:{ exfalso. apply get_tile_addr_stops in Eg.
      destruct Eg as [(E8 & E4) | (N8 & N16 & Hbl)]; [tauto |].
      destruct Hshape as [(Eb & E0 & _) | (_ & [(E & _) | (E & _)])]; try lia.
      destruct Hbl as [Hbl | Hbl]; congruence. }
  destruct (get_tile_addr_bounds kx ky _ idx a _ _ _ m _ Hkx Hky ltac:(lia) Eg) as (Ha & _).
  cbn [mbind option_bind].
  destruct m; cbn [negb];
    [| exists st; split; [reflexivity | unfold render_inv; auto]].
  destruct (load_Some vmem (a + 1) ltac:(lia)) as (hi & Ehi). bind_with Ehi.
  destruct (load_Some vmem a ltac:(lia)) as (lo & Elo). bind_with Elo.
  destruct (_ =? 0); [exists st; split; [reflexivity | unfold render_inv; auto] |].
  destruct (bkg_reg_Some regs reg_bkg_ctrl2 idx Hregs Hidx ltac:(cbn; tauto)) as (c2 & E2).
  bind_with E2.
  assert (Hbpp : 2 <= bpp_of (bk_fmt b) <= 16) by (destruct (bk_fmt b); cbn; lia).
  match goal with
  | |- context [get_char_data _ ?seg ?v _ _ _ _ _] =>
      destruct (get_char_data_safe read_mem_physical seg v
                  (bk_tile_width b) (bk_tile_height b) (bk_fmt b) (bk_bmp b) (fst st))
        as (cb & Hg & Hcl & Hcb); [lia | lia | nia | exact Hmem | exact Hb |]
  end.
  bind_with Hg.
  set (cell_pal_bk := to_u8 (Z.land (Z.shiftr (to_u16 (Z.lor (Z.shiftl hi 8) lo)) 12) 0x0F)).
  assert (Hcp : 0 <= cell_pal_bk <= 15).
  { subst cell_pal_bk. pose proof (land_F_range (Z.shiftr (to_u16 (Z.lor (Z.shiftl hi 8) lo)) 12)).
    rewrite to_u8_id by (unfold is_u8; lia). lia. }
  assert (Hoff : 0 <= tile_palette_offset (bk_fmt b)
                        (tile_pal_bank (bk_pal b) (bk_fmt b) c2 cell_pal_bk)).
  { unfold tile_palette_offset. apply to_u16_range. }
  match goal with
  | |- context [vt_blit _ _ _ _ _ _ ?x ?y _ _ ?p0 ?p1 _ _] =>
      match goal with
      | |- context [_ !! Z.to_nat ?layer] =>
          destruct (blit_into_layers lw lh (snd st) ls0 cb
                      (bk_tile_width b) (bk_tile_height b) x y layer (bk_fmt b) p0 p1 junk)
            as (l & l' & Hl & Hrun & Hwf' & Hshape')
      end
  end; try assumption; try lia.
  - apply tile_pal_fits; try assumption; try lia.
    intros Hi. apply tile_palette_fits; assumption.
  - apply tile_pal_fits; try assumption; try lia.
    intros Hi. apply tile_palette_fits; assumption.
  - apply land_3_range.
  - bind_with Hl. bind_with Hrun. eexists. split; [reflexivity |].
    unfold render_inv. cbn [fst snd]. split; [lia |]. split; [exact Hcb |]. split; assumption.
Qed.

End BackgroundSafe.

Lemma render_background_run (read_mem_physical : Z -> Z) (regs vmem : list Z)
    (lw lh idx : Z) (char_buf : list Z) (junk : Z -> Z -> Z * Z) (layers : list (list Z)) :
  (forall a, is_u8 (read_mem_physical a)) ->
  Z.of_nat (length regs) = 256 -> Z.of_nat (length vmem) = 8192 -> 0 <= lw ->
  idx = 0 \/ idx = 1 ->
  Z.of_nat (length char_buf) = 512 -> Forall is_u8 char_buf ->
  (forall x y, junk_wf (junk x y)) -> layers_wf lw lh layers ->
  if bkg_stops regs idx
  then render_background read_mem_physical regs vmem lw lh idx char_buf junk layers = None
  else exists layers',
      render_background read_mem_physical regs vmem lw lh idx char_buf junk layers
        = Some layers' /\
      layers_wf lw lh layers' /\ length <$> layers' = length <$> layers.
Proof.
  intros Hmem Hregs Hvram Hlw Hidx Hcb Hcu Hj Hwf.
  destruct (bkg_reg_Some regs reg_bkg_ctrl1 idx Hregs Hidx ltac:(cbn; tauto)) as (c1 & E1).
  destruct (bkg_reg_Some regs reg_bkg_ctrl2 idx Hregs Hidx ltac:(cbn; tauto)) as (c2 & E2).
  unfold bkg_stops, render_background. rewrite E1, E2. cbn [mbind option_bind]. cbv zeta.
  destruct (get_bit c2 7) eqn:En; cbn [negb andb]; [| exists layers; auto].
  destruct (bkg_registers_spec regs idx c1 c2 Hregs Hidx E1 E2)
    as (b & Eb & Hbmp & Hw & Hh & H4 & Hx0 & Hy0 & H44).
  bind_with Eb.
  assert (Hshape :
    (bk_bmp b = true /\ idx = 0 /\ bk_tile_width b = 256 /\ bk_tile_height b = 1) \/
    (bk_bmp b = false /\
     ((bk_tile_width b = 8 /\ bk_tile_height b = 8) \/
      (bk_tile_width b = 16 /\ bk_tile_height b = 16)))).
  { rewrite Hw, Hh. destruct (bk_bmp b) eqn:Ebmp.
    - left. symmetry in Hbmp. apply andb_true_iff in Hbmp. destruct Hbmp as (Hi & _).
      apply Z.eqb_eq in Hi. auto.
    - right. destruct (get_bit c2 0); auto. }
  destruct (negb (get_bit c2 0) && negb ((idx =? 0) && get_bit c2 1)
            && (Z.land (Z.shiftr c1 2) 3 =? 3)) eqn:Estop.
  - apply andb_true_iff in Estop. destruct Estop as (Estop & E3).
    apply andb_true_iff in Estop. destruct Estop as (E0 & Enb).
    apply negb_true_iff in E0. apply negb_true_iff in Enb. apply Z.eqb_eq in E3.
    rewrite Enb in Hbmp. rewrite Hbmp, E0 in Hw, Hh.
    assert (Hs : bk_scrl_mode b = SCROLL_4P) by (apply H4; exact E3).
    destruct (H44 Hs Hbmp) as (Ex0 & Ey0).
    unfold for_step. rewrite Hw, Hh, Ex0, Ey0.
    change (Z.to_nat ((256 - -256 + 8 - 1) / 8)) with 64%nat.
    cbn [for_range].
    rewrite (render_tile_stops read_mem_physical regs vmem lw lh idx b) by assumption.
    reflexivity.
  - assert (Hn4 : ~ (bk_tile_width b = 8 /\ bk_scrl_mode b = SCROLL_4P)).
    { intros (E8 & E4). apply H4 in E4.
      destruct Hshape as [(_ & _ & E256 & _) | (Ebmp & _)]; [lia |].
      rewrite Hw, Ebmp in E8. rewrite Ebmp in Hbmp.
      destruct (get_bit c2 0) eqn:E0; [lia |].
      rewrite <- Hbmp in Estop. apply Z.eqb_eq in E4. rewrite E4 in Estop.
      discriminate Estop. }
    unfold for_step.
    match goal with
    | |- context [for_range ?n 0 ?body ?s] =>
        destruct (for_range_ind (fun _ st => render_inv lw lh 512 layers st) body n 0 s)
          as (st' & Hrun & (_ & _ & Hwf' & Hshape'))
    end.
    + unfold render_inv. cbn [fst snd]. auto.
    + intros ky t Hky Ht. cbv beta.
      match goal with
      | |- context [for_range ?n 0 ?body t] =>
          destruct (for_range_ind (fun _ st => render_inv lw lh 512 layers st) body n 0 t)
            as (t' & Hrow & Ht')
      end; [exact Ht | | eauto].
      intros kx u Hkx Hu. cbv beta.
      apply (render_tile_safe read_mem_physical regs vmem lw lh idx b);
        try assumption; try lia. apply Hj.
    + rewrite Hrun. cbn [mbind option_bind]. exists (snd st'). auto.
Qed.

(** X22.  [render_background] is memory safe, and stops only at the assertion of
    [get_tile_addr].  For a layer index 0 or 1, registers, VRAM and
    character buffer of the declared sizes and four layers that hold
    [layer_height] rows, whatever the memories contain: when the layer is
    enabled with 8-pixel tiles in four-pane scroll mode the function fails
    ([bkg_stops]); in every other case it returns, no access leaves an
    array, and the layers keep their sizes and hold 32-bit cells. *)
Theorem render_background_safe (read_mem_physical : Z -> Z) (regs vmem : list Z)
    (lw lh idx : Z) (char_buf : list Z) (junk : Z -> Z -> Z * Z) (layers : list (list Z)) :
  (forall a, is_u8 (read_mem_physical a)) ->
  Z.of_nat (length regs) = 256 -> Z.of_nat (length vmem) = 8192 -> 0 <= lw ->
  idx = 0 \/ idx = 1 ->
  Z.of_nat (length char_buf) = 512 -> Forall is_u8 char_buf ->
  (forall x y, junk_wf (junk x y)) -> layers_wf lw lh layers ->
  if bkg_stops regs idx
  then render_background read_mem_physical regs vmem lw lh idx char_buf junk layers = None
  else exists layers',
      render_background read_mem_physical regs vmem lw lh idx char_buf junk layers
        = Some layers' /\
      layers_wf lw lh layers' /\ length <$> layers' = length <$> layers.
Proof.
  exact (render_background_run read_mem_physical regs vmem lw lh idx char_buf junk layers).
Qed.

Lemma render_background_safe_witness :
  exists layers',
    render_background (fun _ => 0) (<[Z.to_nat 0x13 := 0x80]> (replicate (Z.to_nat 256) 0))
      (replicate (Z.to_nat 8192) 0) 4 4 0 (replicate (Z.to_nat 512) 0)
      (fun _ _ => (0, 0)) (replicate 4 (replicate 16 0x80008000)) = Some layers' /\
    length <$> layers' = [16%nat; 16%nat; 16%nat; 16%nat].
Proof.
  pose proof (render_background_safe (fun _ => 0)
                (<[Z.to_nat 0x13 := 0x80]> (replicate (Z.to_nat 256) 0))
                (replicate (Z.to_nat 8192) 0) 4 4 0 (replicate (Z.to_nat 512) 0)
                (fun _ _ => (0, 0)) (replicate 4 (replicate 16 0x80008000))) as H.
  change (bkg_stops _ 0) with false in H.
  destruct H as (layers' & Hrun & _ & Hlen).
  - intros _. unfold is_u8. lia.
  - rewrite length_insert, length_replicate. lia.
  - rewrite length_replicate. lia.
  - lia.
  - left. reflexivity.
  - rewrite length_replicate. lia.
  - apply Forall_replicate. unfold is_u8. lia.
  - intros _ _. split; unfold is_u16; cbn; lia.
  - split; [reflexivity |]. repeat constructor; cbn; unfold is_u32; lia.
  - exists layers'. split; [exact Hrun | exact Hlen].
Defined.

(** X23.  [render_sprites] is memory safe.  For registers, VRAM, SPRAM and
    [tempbuf] of the declared sizes and four layers that hold
    [layer_height] rows, whatever the memories contain, it returns: no
    access leaves an array and no assertion fails.  The layers keep their
    sizes and hold 32-bit cells. *)
Theorem render_sprites_safe (read_mem_physical : Z -> Z) (regs vmem smem : list Z)
    (lw lh : Z) (tempbuf : list Z) (junk : Z -> Z * Z) (layers : list (list Z)) :
  (forall a, is_u8 (read_mem_physical a)) ->
  Z.of_nat (length regs) = 256 -> Z.of_nat (length vmem) = 8192 ->
  Z.of_nat (length smem) = 2048 -> 0 <= lw ->
  Z.of_nat (length tempbuf) = 256 -> Forall is_u8 tempbuf ->
  (forall i, junk_wf (junk i)) -> layers_wf lw lh layers ->
  exists layers',
    render_sprites read_mem_physical regs vmem smem lw lh tempbuf junk layers
      = Some layers' /\
    layers_wf lw lh layers' /\ length <$> layers' = length <$> layers.
Proof.
  intros Hmem Hregs Hvram Hspram Hlw Hn Hb Hj Hwf.
  exact (render_sprites_run read_mem_physical regs vmem smem lw lh
           Hmem Hregs Hvram Hspram Hlw tempbuf junk layers Hn Hb Hj Hwf).
Qed.

Lemma render_sprites_safe_witness :
  exists layers',
    render_sprites (fun _ => 0x21)
      (<[Z.to_nat 0x18 := 0x04]> (replicate (Z.to_nat 256) 0))
      (replicate (Z.to_nat 8192) 0x1F)
      (<[Z.to_nat 0 := 1]> (replicate (Z.to_nat 2048) 0)) 8 8
      (replicate (Z.to_nat 256) 0) (fun _ => (0, 0))
      (replicate 4 (replicate 64 0x80008000)) = Some layers' /\
    length <$> layers' = [64%nat; 64%nat; 64%nat; 64%nat].
Proof.
  destruct (render_sprites_safe (fun _ => 0x21)
              (<[Z.to_nat 0x18 := 0x04]> (replicate (Z.to_nat 256) 0))
              (replicate (Z.to_nat 8192) 0x1F)
              (<[Z.to_nat 0 := 1]> (replicate (Z.to_nat 2048) 0)) 8 8
              (replicate (Z.to_nat 256) 0) (fun _ => (0, 0))
              (replicate 4 (replicate 64 0x80008000)))
    as (layers' & Hrun & _ & Hlen).
  - intros _. unfold is_u8. lia.
  - rewrite length_insert, length_replicate. lia.
  - rewrite length_replicate. lia.
  - rewrite length_insert, length_replicate. lia.
  - lia.
  - rewrite length_replicate. lia.
  - apply Forall_replicate. unfold is_u8. lia.
  - intros _. split; unfold is_u16; cbn; lia.
  - split; [reflexivity |].
    apply Forall_replicate. split; [rewrite length_replicate; lia |].
    apply Forall_replicate. unfold is_u32. lia.
  - exists layers'. split; [exact Hrun | exact Hlen].
Defined.

Lemma four_layers (ls : list (list Z)) :
  length ls = 4%nat -> exists l0 l1 l2 l3, ls = [l0; l1; l2; l3].
Proof.
  intros H. destruct ls as [| l0 [| l1 [| l2 [| l3 [| l4 ls]]]]]; try discriminate H.
  eauto.
Qed.

Lemma clear_layers_wf (lw lh : Z) (layers : list (list Z)) :
  0 <= lh * lw -> layers_wf lw lh layers ->
  exists cleared,
    clear_layers layers lw lh = Some cleared /\
    layers_wf lw lh cleared /\ length <$> cleared = length <$> layers /\
    Forall (fun c : list Z =>
              forall k, 0 <= k < lw * lh -> c !! Z.to_nat k = Some 0x80008000) cleared.
Proof.
  intros Hsz (H4 & Hall).
  destruct (four_layers layers H4) as (l0 & l1 & l2 & l3 & ->).
  destruct (clear_layers_cells l0 l1 l2 l3 lw lh) as (c0 & c1 & c2 & c3 & Hrun & Hc).
  { eapply Forall_impl; [exact Hall |]. cbn beta. intros l (Hl & _). lia. }
  exists [c0; c1; c2; c3]. split; [exact Hrun |].
  apply Forall2_cons_1 in Hc. destruct Hc as ((A0 & B0 & C0) & Hc).
  apply Forall2_cons_1 in Hc. destruct Hc as ((A1 & B1 & C1) & Hc).
  apply Forall2_cons_1 in Hc. destruct Hc as ((A2 & B2 & C2) & Hc).
  apply Forall2_cons_1 in Hc. destruct Hc as ((A3 & B3 & C3) & _).
  rewrite !Forall_cons in Hall.
  destruct Hall as ((S0 & U0) & (S1 & U1) & (S2 & U2) & (S3 & U3) & _).
  assert (Hu : forall (c l : list Z),
             length c = length l ->
             (forall k, 0 <= k < lw * lh -> c !! Z.to_nat k = Some 0x80008000) ->
             (forall k : nat, lw * lh <= Z.of_nat k -> c !! k = l !! k) ->
             Forall is_u32 l -> Forall is_u32 c).
  { intros c l Hl Hin Hout Ul. apply Forall_lookup_2. intros k v Hk.
    destruct (Z_lt_dec (Z.of_nat k) (lw * lh)) as [Hlt | Hge].
    - rewrite <- (Nat2Z.id k) in Hk. rewrite Hin in Hk by lia. injection Hk as <-.
      unfold is_u32. lia.
    - rewrite Hout in Hk by lia. exact (Forall_lookup_1 _ _ _ _ Ul Hk). }
  split; [split; [reflexivity |] |].
  - rewrite !Forall_cons. rewrite A0, A1, A2, A3.
    repeat split; eauto; try apply Forall_nil_2.
  - split.
    + cbn [fmap list_fmap]. now rewrite A0, A1, A2, A3.
    + rewrite !Forall_cons. repeat split; auto.
Qed.

Lemma merge_layers_frame (regs : list Z) (layers : list (list Z)) (obuf : list Z)
    (lw lh ow oh : Z) :
  Z.of_nat (length regs) = 256 -> length layers = 4%nat ->
  Forall (fun l : list Z => lh * lw <= Z.of_nat (length l)) layers ->
  0 <= ow <= lw -> 0 <= oh <= lh -> oh * ow <= Z.of_nat (length obuf) ->
  exists obuf',
    merge_layers regs layers lw ow oh obuf false = Some obuf' /\
    length obuf' = length obuf /\
    (forall x y, 0 <= x < ow -> 0 <= y < oh ->
       exists c, obuf' !! Z.to_nat (y * ow + x) = Some c /\
                 Z.shiftr c 24 = 0xFF /\ is_u32 c /\
                 (Forall (fun l : list Z => l !! Z.to_nat (y * lw + x) = Some 0x80008000)
                         layers -> c = 0xFF000000)) /\
    (forall j : nat, oh * ow <= Z.of_nat j -> obuf' !! j = obuf !! j).
Proof.
  intros Hregs H4 Hall Hw Hh Hob.
  destruct (four_layers layers H4) as (l0 & l1 & l2 & l3 & ->).
  destruct (load_Some regs reg_pal_sel ltac:(unfold reg_pal_sel; lia)) as (ps & Eps).
  destruct (merge_layers_cells regs l0 l1 l2 l3 obuf lw ow oh ps false Eps Hw
              ltac:(lia)) as (obuf' & Hrun & Hlen & Hin & Hout); [| exact Hob |].
  { eapply Forall_impl; [exact Hall |]. cbn beta. intros l Hl. nia. }
  exists obuf'. split; [exact Hrun |]. split; [exact Hlen |]. split; [| exact Hout].
  intros x y Hx Hy. eexists. split; [apply Hin; assumption |].
  match goal with
  | |- Z.shiftr (argb1555_to_rgb8888 ?r) 24 = _ /\ _ =>
      destruct (argb1555_to_rgb8888_shape r) as (Hu & Ha & _)
  end.
  split; [exact Ha |]. split; [exact Hu |].
  intros Hclear. apply merge_res_transparent. left.
  rewrite !Forall_cons in Hclear. destruct Hclear as (C0 & C1 & C2 & C3 & _).
  unfold cell_at. cbn [map].
  rewrite (list_lookup_total_correct _ _ _ C0), (list_lookup_total_correct _ _ _ C1),
    (list_lookup_total_correct _ _ _ C2), (list_lookup_total_correct _ _ _ C3).
  split; reflexivity.
Qed.

(** X24.  [do_render] is memory safe, and stops only at the assertion of
    [get_tile_addr].  For a state of the declared sizes, four layers that
    hold [layer_height] rows, an output buffer that holds the picture and
    an output no larger than a layer, whatever the memories and the
    uninitialised locals contain: a frame fails when a background layer is
    enabled with 8-pixel tiles in four-pane scroll mode; every other frame
    completes with [render_done] set, the layers and the output buffer keep
    their sizes, every pixel of the picture is a 32-bit value with alpha
    [0xFF], and the buffer beyond the picture is unchanged. *)
Theorem do_render_safe (read_mem_physical : Z -> Z) (st : ppu_state)
    (lw lh ow oh : Z) (layers : list (list Z)) (obuf : list Z) (u : stale) :
  (forall a, is_u8 (read_mem_physical a)) -> wf_state st ->
  0 <= ow <= lw -> 0 <= oh <= lh -> layers_wf lw lh layers ->
  oh * ow <= Z.of_nat (length obuf) -> stale_wf u ->
  if bkg_stops (ppu_regs st) 1 || bkg_stops (ppu_regs st) 0
  then do_render read_mem_physical st lw lh ow oh layers obuf u = None
  else exists fr,
      do_render read_mem_physical st lw lh ow oh layers obuf u = Some fr /\
      f_render_done fr = true /\ f_shadow fr = ppu_regs st /\
      layers_wf lw lh (f_layers fr) /\ length <$> f_layers fr = length <$> layers /\
      length (f_obuf fr) = length obuf /\
      (forall x y, 0 <= x < ow -> 0 <= y < oh ->
         exists c, f_obuf fr !! Z.to_nat (y * ow + x) = Some c /\
                   Z.shiftr c 24 = 0xFF /\ is_u32 c) /\
      (forall j : nat, oh * ow <= Z.of_nat j -> f_obuf fr !! j = obuf !! j).
Proof.
  intros Hmem (Hregs & _ & Hvram & Hspram) Hw Hh Hwf Hob (Ht & Htu & Hcb & Hjs & Hjt).
  unfold do_render. cbv zeta.
  destruct (clear_layers_wf lw lh layers ltac:(nia) Hwf) as (c & Ec & Hc & Hcl & _).
  bind_with Ec. cbn [for_down]. change (1 - 1) with 0.
  pose proof (render_background_run read_mem_physical (ppu_regs st) (vram st) lw lh 1
                (s_char_buf u 1) (s_tile u 1) c Hmem Hregs Hvram ltac:(lia)
                ltac:(now right) (proj1 (Hcb 1)) (proj2 (Hcb 1)) (Hjt 1) Hc) as H1.
  destruct (bkg_stops (ppu_regs st) 1); cbn [orb]; [now rewrite H1 |].
  destruct H1 as (b1 & E1 & Hb1 & Hl1). bind_with E1.
  pose proof (render_background_run read_mem_physical (ppu_regs st) (vram st) lw lh 0
                (s_char_buf u 0) (s_tile u 0) b1 Hmem Hregs Hvram ltac:(lia)
                ltac:(now left) (proj1 (Hcb 0)) (proj2 (Hcb 0)) (Hjt 0) Hb1) as H0.
  destruct (bkg_stops (ppu_regs st) 0); [now rewrite H0 |].
  destruct H0 as (b0 & E0 & Hb0 & Hl0). bind_with E0.
  destruct (render_sprites_run read_mem_physical (ppu_regs st) (vram st) (spram st) lw lh
              Hmem Hregs Hvram Hspram ltac:(lia) (s_tempbuf u) (s_sprite u) b0
              Ht Htu Hjs Hb0) as (sp & Es & Hsp & Hls).
  bind_with Es.
  destruct (merge_layers_frame (ppu_regs st) sp obuf lw lh ow oh Hregs (proj1 Hsp))
    as (ob & Em & Hlen & Hpix & Hout); try assumption.
  { eapply Forall_impl; [exact (proj2 Hsp) |]. cbn beta. tauto. }
  bind_with Em. eexists. split; [reflexivity |].
  cbn [f_render_done f_shadow f_layers f_obuf].
  split; [reflexivity |]. split; [reflexivity |]. split; [exact Hsp |].
  split; [congruence |]. split; [exact Hlen |]. split; [| exact Hout].
  intros x y Hx Hy. destruct (Hpix x y Hx Hy) as (v & Hv & Ha & Hu & _). eauto.
Qed.

Lemma do_render_safe_witness :
  exists fr,
    do_render (fun _ => 0) ppu_reset 256 256 256 240
      (replicate 4 (replicate (Z.to_nat 65536) 0)) (replicate (Z.to_nat 61440) 0)
      (mk_stale (replicate (Z.to_nat 256) 0) (fun _ => replicate (Z.to_nat 512) 0)
                (fun _ => (0, 0)) (fun _ _ _ => (0, 0))) = Some fr /\
    f_render_done fr = true /\ length (f_obuf fr) = Z.to_nat 61440.
Proof.
  pose proof (do_render_safe (fun _ => 0) ppu_reset 256 256 256 240
                (replicate 4 (replicate (Z.to_nat 65536) 0)) (replicate (Z.to_nat 61440) 0)
                (mk_stale (replicate (Z.to_nat 256) 0) (fun _ => replicate (Z.to_nat 512) 0)
                          (fun _ => (0, 0)) (fun _ _ _ => (0, 0)))) as H.
  change (bkg_stops (ppu_regs ppu_reset) 1 || bkg_stops (ppu_regs ppu_reset) 0)
    with false in H.
  destruct H as (fr & Hrun & Hd & _ & _ & _ & Hl & _).
  - intros _. unfold is_u8. lia.
  - apply (bool_decide_unpack _). vm_compute. exact I.
  - lia.
  - lia.
  - split; [reflexivity |].
    apply Forall_replicate. split; [rewrite length_replicate; lia |].
    apply Forall_replicate. unfold is_u32. lia.
  - rewrite length_replicate. lia.
  - unfold stale_wf. cbn [s_tempbuf s_char_buf s_sprite s_tile].
    split; [rewrite length_replicate; lia |].
    split; [apply Forall_replicate; unfold is_u8; lia |].
    split; [intros _; split;
            [rewrite length_replicate; lia | apply Forall_replicate; unfold is_u8; lia] |].
    split; [intros _ | intros _ _ _]; split; unfold is_u16; cbn; lia.
  - exists fr. split; [exact Hrun |]. split; [exact Hd |].
    rewrite Hl. apply length_replicate.
Defined.

(** X25.  A frame with both backgrounds and the sprites switched off is black:
    [do_render] leaves every layer cell transparent in both banks and every
    pixel of the picture [0xFF000000], whatever the layers and the output
    buffer held before. *)
Theorem do_render_blank (read_mem_physical : Z -> Z) (st : ppu_state)
    (lw lh ow oh : Z) (layers : list (list Z)) (obuf : list Z) (u : stale)
    (bk0 bk1 sp : Z) :
  Z.of_nat (length (ppu_regs st)) = 256 -> length layers = 4%nat ->
  Forall (fun l : list Z => lh * lw <= Z.of_nat (length l)) layers ->
  0 <= ow <= lw -> 0 <= oh <= lh -> oh * ow <= Z.of_nat (length obuf) ->
  shadow_reg (ppu_regs st) reg_bkg_ctrl2 0 = Some bk0 -> get_bit bk0 7 = false ->
  shadow_reg (ppu_regs st) reg_bkg_ctrl2 1 = Some bk1 -> get_bit bk1 7 = false ->
  load (ppu_regs st) reg_sp_ctrl = Some sp -> get_bit sp 2 = false ->
  exists fr,
    do_render read_mem_physical st lw lh ow oh layers obuf u = Some fr /\
    Forall (fun l : list Z =>
              forall k, 0 <= k < lw * lh -> l !! Z.to_nat k = Some 0x80008000)
           (f_layers fr) /\
    forall x y, 0 <= x < ow -> 0 <= y < oh ->
      f_obuf fr !! Z.to_nat (y * ow + x) = Some 0xFF000000.
Proof.
  intros Hregs H4 Hall Hw Hh Hob E0 B0 E1 B1 Es Bs.
  destruct (four_layers layers H4) as (l0 & l1 & l2 & l3 & ->).
  destruct (clear_layers_cells l0 l1 l2 l3 lw lh) as (c0 & c1 & c2 & c3 & Hrun & Hc).
  { eapply Forall_impl; [exact Hall |]. cbn beta. intros l Hl. nia. }
  apply Forall2_cons_1 in Hc. destruct Hc as ((A0 & C0 & _) & Hc).
  apply Forall2_cons_1 in Hc. destruct Hc as ((A1 & C1 & _) & Hc).
  apply Forall2_cons_1 in Hc. destruct Hc as ((A2 & C2 & _) & Hc).
  apply Forall2_cons_1 in Hc. destruct Hc as ((A3 & C3 & _) & _).
  rewrite !Forall_cons in Hall. destruct Hall as (S0 & S1 & S2 & S3 & _).
  unfold do_render. cbv zeta. bind_with Hrun.
  cbn [for_down]. change (1 - 1) with 0.
  unfold render_background. rewrite E1, E0. cbn [mbind option_bind]. cbv zeta.
  rewrite B1, B0. cbn [negb mbind option_bind].
  unfold render_sprites. bind_with Es. cbv zeta. rewrite Bs. cbn [negb mbind option_bind].
  destruct (merge_layers_frame (ppu_regs st) [c0; c1; c2; c3] obuf lw lh ow oh Hregs eq_refl)
    as (ob & Em & _ & Hpix & _); try assumption.
  { rewrite !Forall_cons. rewrite A0, A1, A2, A3. repeat split; auto. }
  bind_with Em. eexists. split; [reflexivity |]. cbn [f_layers f_obuf]. split.
  - rewrite !Forall_cons. repeat split; auto.
  - intros x y Hx Hy. destruct (Hpix x y Hx Hy) as (v & Hv & _ & _ & Hblack).
    rewrite Hv. f_equal. apply Hblack.
    rewrite !Forall_cons. repeat split; auto; [apply C0 | apply C1 | apply C2 | apply C3]; nia.
Qed.

Lemma do_render_blank_witness :
  exists fr,
    do_render (fun _ => 0) ppu_reset 256 256 256 240
      (replicate 4 (replicate (Z.to_nat 65536) 0x12345678))
      (replicate (Z.to_nat 61440) 0x00C0FFEE)
      (mk_stale [] (fun _ => []) (fun _ => (0, 0)) (fun _ _ _ => (0, 0))) = Some fr /\
    f_obuf fr !! Z.to_nat (239 * 256 + 255) = Some 0xFF000000.
Proof.
  destruct (do_render_blank (fun _ => 0) ppu_reset 256 256 256 240
              (replicate 4 (replicate (Z.to_nat 65536) 0x12345678))
              (replicate (Z.to_nat 61440) 0x00C0FFEE)
              (mk_stale [] (fun _ => []) (fun _ => (0, 0)) (fun _ _ _ => (0, 0))) 0 0 0)
    as (fr & Hrun & _ & Hpix);
    [reflexivity | apply length_replicate
    | apply Forall_replicate; rewrite length_replicate; lia
    | lia | lia | rewrite length_replicate; lia
    | reflexivity | reflexivity | reflexivity | reflexivity | reflexivity | reflexivity |].
  exists fr. split; [exact Hrun |]. apply Hpix; lia.
Defined.

(** A 16-bit cell whose low byte is 0 and whose high byte has a clear low
    nibble has vector 0. *)
Lemma vector_zero (hi : Z) :
  Z.land hi 0x0F = 0 ->
  to_u16 (Z.land (to_u16 (Z.lor (Z.shiftl hi 8) 0)) 0xFFF) = 0.
Proof.
  intros H. rewrite Z.lor_0_r. unfold to_u16.
  change 0x0F with (2 ^ 4 - 1) in H. rewrite land_ones_mod in H by lia.
  rewrite !land_FFFF_mod. change 0xFFF with (2 ^ 12 - 1). rewrite land_ones_mod by lia.
  rewrite Z.shiftl_mul_pow2 by lia.
  change (2 ^ 4) with 16 in H. change (2 ^ 8) with 256. change (2 ^ 12) with 4096.
  Z.div_mod_to_equations. lia.
Qed.

(** X26.  Sprite entries whose vector is 0 are skipped: when every one of the 240
    entries of SPRAM has vector 0 (byte 0 zero and the low nibble of byte 1
    clear), [render_sprites] returns the layers as they were, whatever the
    other bytes, the registers and the uninitialised locals hold. *)
Theorem render_sprites_no_vector (read_mem_physical : Z -> Z) (regs vmem smem : list Z)
    (lw lh : Z) (tempbuf : list Z) (junk : Z -> Z * Z) (layers : list (list Z)) :
  Z.of_nat (length regs) = 256 ->
  (forall idx, 0 <= idx < 240 ->
     load smem (8 * idx) = Some 0 /\
     exists d1, load smem (8 * idx + 1) = Some d1 /\ Z.land d1 0x0F = 0) ->
  render_sprites read_mem_physical regs vmem smem lw lh tempbuf junk layers = Some layers.
Proof.
  intros Hregs Hvec. unfold render_sprites. cbv zeta.
  destruct (load_Some regs reg_sp_ctrl ltac:(unfold reg_sp_ctrl; lia)) as (ctrl & Ec).
  bind_with Ec.
  destruct (negb (get_bit ctrl 2)); [reflexivity |].
  destruct (load_Some regs reg_sp_seg_msb ltac:(unfold reg_sp_seg_msb; lia)) as (msb & Em).
  bind_with Em.
  destruct (load_Some regs reg_sp_seg_lsb ltac:(unfold reg_sp_seg_lsb; lia)) as (lsb & El).
  bind_with El.
  match goal with
  | |- context [for_down _ _ ?body ?s] =>
      destruct (for_down_inv (fun st => st = s) body 240 239 s) as (st' & Hrun & ->)
  end.
  - reflexivity.
  - intros i t Hi ->. eexists. split; [| reflexivity].
    destruct (Hvec i ltac:(lia)) as (E0 & d1 & E1 & Hd1).
    unfold render_sprite. cbv zeta. bind_with E1.
    replace (8 * i + 0) with (8 * i) by lia. bind_with E0.
    rewrite Hd1. reflexivity.
  - now rewrite Hrun.
Qed.

Lemma render_sprites_no_vector_witness :
  render_sprites (fun _ => 0xFF)
    (<[Z.to_nat 0x18 := 0x0F]> (replicate (Z.to_nat 256) 0))
    [] (replicate (Z.to_nat 2048) 0) 256 256 [] (fun _ => (0, 0)) [[1]; [2]; [3]; [4]]
  = Some [[1]; [2]; [3]; [4]].
Proof.
  apply render_sprites_no_vector.
  - rewrite length_insert, length_replicate. lia.
  - intros idx Hidx. split; [| exists 0; split; [| reflexivity]];
      rewrite load_lookup by lia; apply lookup_replicate_2; lia.
Defined.

Lemma render_tile_empty (read_mem_physical : Z -> Z) (regs vmem : list Z) (lw lh idx : Z)
    (b : bkg_setup) (junk : Z * Z) (kx ky : Z) (st : list Z * list (list Z)) :
  idx = 0 \/ idx = 1 ->
  (bk_bmp b = true /\ idx = 0 /\ bk_tile_width b = 256 /\ bk_tile_height b = 1) \/
  (bk_bmp b = false /\
   ((bk_tile_width b = 8 /\ bk_tile_height b = 8) \/
    (bk_tile_width b = 16 /\ bk_tile_height b = 16))) ->
  ~ (bk_tile_width b = 8 /\ bk_scrl_mode b = SCROLL_4P) ->
  (forall a, 0 <= a <= 0x0FFE -> a mod 2 = 0 ->
     load vmem a = Some 0 /\
     exists hi, load vmem (a + 1) = Some hi /\ Z.land hi 0x0F = 0) ->
  0 <= kx -> 0 <= ky ->
  render_tile read_mem_physical regs vmem lw lh idx b junk
    (bk_x0 b + kx * bk_tile_width b) (bk_y0 b + ky * bk_tile_height b) st = Some st.
Proof.
  intros Hidx Hshape Hn4 Hmap Hkx Hky. unfold render_tile. cbv zeta.
  assert (Hw : 0 < bk_tile_width b)
    by (destruct Hshape as [(_ & _ & -> & _) | (_ & [(-> & _) | (-> & _)])]; lia).
  assert (Hh : 0 < bk_tile_height b)
    by (destruct Hshape as [(_ & _ & _ & ->) | (_ & [(_ & ->) | (_ & ->)])]; lia).
  replace (bk_x0 b + kx * bk_tile_width b - bk_x0 b) with (kx * bk_tile_width b) by lia.
  replace (bk_y0 b + ky * bk_tile_height b - bk_y0 b) with (ky * bk_tile_height b) by lia.
  rewrite !Z.quot_mul by lia.
  destruct (get_tile_addr kx ky (bk_y8 b) (bk_x8 b) (bk_tile_width b) (bk_bmp b) idx
              (bk_scrl_mode b)) as [[a m] |] eqn:Eg.
  2:{ exfalso. apply get_tile_addr_stops in Eg.
      destruct Eg as [(E8 & E4) | (N8 & N16 & Hbl)]; [tauto |].
      destruct Hshape as [(Eb & E0 & _) | (_ & [(E & _) | (E & _)])]; try lia.
      destruct Hbl as [Hbl | Hbl]; congruence. }
  destruct (get_tile_addr_bounds kx ky _ idx a _ _ _ m _ Hkx Hky ltac:(lia) Eg) as (Ha & He).
  cbn [mbind option_bind]. destruct m; cbn [negb]; [| reflexivity].
  destruct (Hmap a Ha He) as (Elo & hi & Ehi & Hhi).
  bind_with Ehi. bind_with Elo. now rewrite (vector_zero hi Hhi).
Qed.

(** X27.  Map cells whose vector is 0 are skipped: when every two-byte cell of
    the tile map area of VRAM (even addresses up to [0x0FFE]) has vector 0
    (low byte zero and low nibble of the high byte clear), a background
    that does not stop at the assertion draws nothing, whatever its mode
    bits, scroll registers and palettes are. *)
Theorem render_background_empty_map (read_mem_physical : Z -> Z) (regs vmem : list Z)
    (lw lh idx : Z) (char_buf : list Z) (junk : Z -> Z -> Z * Z) (layers : list (list Z)) :
  Z.of_nat (length regs) = 256 -> idx = 0 \/ idx = 1 ->
  bkg_stops regs idx = false ->
  (forall a, 0 <= a <= 0x0FFE -> a mod 2 = 0 ->
     load vmem a = Some 0 /\
     exists hi, load vmem (a + 1) = Some hi /\ Z.land hi 0x0F = 0) ->
  render_background read_mem_physical regs vmem lw lh idx char_buf junk layers
    = Some layers.
Proof.
  intros Hregs Hidx Hstop Hmap.
  destruct (bkg_reg_Some regs reg_bkg_ctrl1 idx Hregs Hidx ltac:(cbn; tauto)) as (c1 & E1).
  destruct (bkg_reg_Some regs reg_bkg_ctrl2 idx Hregs Hidx ltac:(cbn; tauto)) as (c2 & E2).
  unfold bkg_stops in Hstop. rewrite E1, E2 in Hstop.
  unfold render_background. rewrite E2. cbn [mbind option_bind]. cbv zeta.
  destruct (get_bit c2 7) eqn:En; cbn [negb andb] in *; [| reflexivity].
  destruct (bkg_registers_spec regs idx c1 c2 Hregs Hidx E1 E2)
    as (b & Eb & Hbmp & Hw & Hh & H4 & _).
  bind_with Eb.
  assert (Hshape :
    (bk_bmp b = true /\ idx = 0 /\ bk_tile_width b = 256 /\ bk_tile_height b = 1) \/
    (bk_bmp b = false /\
     ((bk_tile_width b = 8 /\ bk_tile_height b = 8) \/
      (bk_tile_width b = 16 /\ bk_tile_height b = 16)))).
  { rewrite Hw, Hh. destruct (bk_bmp b) eqn:Ebmp.
    - left. symmetry in Hbmp. apply andb_true_iff in Hbmp. destruct Hbmp as (Hi & _).
      apply Z.eqb_eq in Hi. auto.
    - right. destruct (get_bit c2 0); auto. }
  assert (Hn4 : ~ (bk_tile_width b = 8 /\ bk_scrl_mode b = SCROLL_4P)).
  { intros (E8 & E4). apply H4 in E4.
    destruct Hshape as [(_ & _ & E256 & _) | (Ebmp & _)]; [lia |].
    rewrite Hw, Ebmp in E8. rewrite Ebmp in Hbmp.
    destruct (get_bit c2 0) eqn:E0; [lia |].
    rewrite <- Hbmp in Hstop. apply Z.eqb_eq in E4. rewrite E4 in Hstop.
    discriminate Hstop. }
  unfold for_step.
  match goal with
  | |- context [for_range ?n 0 ?body ?s] =>
      destruct (for_range_ind (fun _ st => st = s) body n 0 s) as (st' & Hrun & ->)
  end.
  - reflexivity.
  - intros ky t Hky ->. cbv beta.
    match goal with
    | |- context [for_range ?n 0 ?body ?s] =>
        destruct (for_range_ind (fun _ st => st = s) body n 0 s) as (t' & Hrow & ->)
    end; [reflexivity | | eauto].
    intros kx u Hkx ->. cbv beta. eexists. split; [| reflexivity].
    apply render_tile_empty; try assumption; lia.
  - now rewrite Hrun.
Qed.

Lemma render_background_empty_map_witness :
  render_background (fun _ => 0xFF)
    (<[Z.to_nat 0x13 := 0x85]> (replicate (Z.to_nat 256) 0))
    (replicate (Z.to_nat 8192) 0) 256 256 0 [] (fun _ _ => (0, 0)) [[1]; [2]; [3]; [4]]
  = Some [[1]; [2]; [3]; [4]].
Proof.
  apply render_background_empty_map.
  - rewrite length_insert, length_replicate. lia.
  - left. reflexivity.
  - reflexivity.
  - intros a Ha _. split; [| exists 0; split; [| reflexivity]];
      rewrite load_lookup by lia; apply lookup_replicate_2; lia.
Defined.

Lemma list_all_same (l : list Z) (n : Z) (v : Z) :
  Z.of_nat (length l) = n ->
  (forall k, 0 <= k < n -> l !! Z.to_nat k = Some v) ->
  l = replicate (Z.to_nat n) v.
Proof.
  intros Hl Hin. apply list_eq. intros i.
  destruct (Z_lt_dec (Z.of_nat i) n) as [Hlt | Hge].
  - rewrite (lookup_replicate_2 (Z.to_nat n) v i) by lia.
    rewrite <- (Nat2Z.id i). apply Hin. lia.
  - rewrite (lookup_ge_None_2 l i) by lia.
    symmetry. apply lookup_ge_None_2. rewrite length_replicate. lia.
Qed.

(** Layers of exactly [layer_width * layer_height] cells are cleared to the
    same value whatever they held. *)
Lemma clear_layers_fresh (lw lh : Z) (layers : list (list Z)) :
  0 <= lw * lh -> length layers = 4%nat ->
  Forall (fun l : list Z => Z.of_nat (length l) = lw * lh) layers ->
  clear_layers layers lw lh =
    Some (replicate 4 (replicate (Z.to_nat (lw * lh)) 0x80008000)).
Proof.
  intros Hsz H4 Hall.
  destruct (four_layers layers H4) as (l0 & l1 & l2 & l3 & ->).
  destruct (clear_layers_cells l0 l1 l2 l3 lw lh) as (c0 & c1 & c2 & c3 & Hrun & Hc).
  { eapply Forall_impl; [exact Hall |]. cbn beta. intros l Hl. lia. }
  rewrite Hrun.
  apply Forall2_cons_1 in Hc. destruct Hc as ((A0 & C0 & _) & Hc).
  apply Forall2_cons_1 in Hc. destruct Hc as ((A1 & C1 & _) & Hc).
  apply Forall2_cons_1 in Hc. destruct Hc as ((A2 & C2 & _) & Hc).
  apply Forall2_cons_1 in Hc. destruct Hc as ((A3 & C3 & _) & _).
  rewrite !Forall_cons in Hall. destruct Hall as (S0 & S1 & S2 & S3 & _).
  rewrite (list_all_same c0 (lw * lh) 0x80008000) by (try assumption; lia).
  rewrite (list_all_same c1 (lw * lh) 0x80008000) by (try assumption; lia).
  rewrite (list_all_same c2 (lw * lh) 0x80008000) by (try assumption; lia).
  rewrite (list_all_same c3 (lw * lh) 0x80008000) by (try assumption; lia).
  reflexivity.
Qed.

(** An output buffer of exactly [out_height * out_width] cells is overwritten
    in full. *)
Lemma merge_layers_fresh (regs : list Z) (layers : list (list Z)) (obuf obuf' : list Z)
    (lw lh ow oh : Z) :
  Z.of_nat (length regs) = 256 -> length layers = 4%nat ->
  Forall (fun l : list Z => lh * lw <= Z.of_nat (length l)) layers ->
  0 <= ow <= lw -> 0 <= oh <= lh ->
  Z.of_nat (length obuf) = oh * ow -> Z.of_nat (length obuf') = oh * ow ->
  merge_layers regs layers lw ow oh obuf false = merge_layers regs layers lw ow oh obuf' false.
Proof.
  intros Hregs H4 Hall Hw Hh Hob Hob'.
  destruct (four_layers layers H4) as (l0 & l1 & l2 & l3 & ->).
  destruct (load_Some regs reg_pal_sel ltac:(unfold reg_pal_sel; lia)) as (ps & Eps).
  assert (Hall' : Forall (fun l : list Z => oh * lw <= Z.of_nat (length l)) [l0; l1; l2; l3]).
  { eapply Forall_impl; [exact Hall |]. cbn beta. intros l Hl. nia. }
  destruct (merge_layers_cells regs l0 l1 l2 l3 obuf lw ow oh ps false Eps Hw
              ltac:(lia) Hall' ltac:(lia)) as (b & Hrun & Hlen & Hin & _).
  destruct (merge_layers_cells regs l0 l1 l2 l3 obuf' lw ow oh ps false Eps Hw
              ltac:(lia) Hall' ltac:(lia)) as (b' & Hrun' & Hlen' & Hin' & _).
  rewrite Hrun, Hrun'. f_equal. apply list_eq. intros j.
  destruct (Z_lt_dec (Z.of_nat j) (oh * ow)) as [Hlt | Hge].
  - assert (Hpos : 0 < ow) by nia.
    assert (Ej : Z.of_nat j = Z.of_nat j / ow * ow + Z.of_nat j mod ow)
      by (rewrite Z.mul_comm; apply Z.div_mod; lia).
    pose proof (Z.mod_pos_bound (Z.of_nat j) ow Hpos) as Hx.
    assert (Hy : 0 <= Z.of_nat j / ow < oh).
    { split; [apply Z.div_pos; lia |]. apply Z.div_lt_upper_bound; nia. }
    rewrite <- (Nat2Z.id j), Ej.
    rewrite Hin, Hin' by assumption. reflexivity.
  - rewrite (lookup_ge_None_2 b j), (lookup_ge_None_2 b' j) by lia. reflexivity.
Qed.

(** X28.  No state leaks from one frame into the next.  With layers of exactly
    [layer_width * layer_height] cells and an output buffer of exactly
    [out_height * out_width] cells, what [do_render] returns (failure, or
    the layers, the picture and the flags) is the same whatever the layers
    and the output buffer held before the call. *)
Theorem do_render_fresh (read_mem_physical : Z -> Z) (st : ppu_state)
    (lw lh ow oh : Z) (layers layers' : list (list Z)) (obuf obuf' : list Z) (u : stale) :
  (forall a, is_u8 (read_mem_physical a)) -> wf_state st ->
  0 <= ow <= lw -> 0 <= oh <= lh -> stale_wf u ->
  length layers = 4%nat -> length layers' = 4%nat ->
  Forall (fun l : list Z => Z.of_nat (length l) = lw * lh) layers ->
  Forall (fun l : list Z => Z.of_nat (length l) = lw * lh) layers' ->
  Z.of_nat (length obuf) = oh * ow -> Z.of_nat (length obuf') = oh * ow ->
  do_render read_mem_physical st lw lh ow oh layers obuf u =
  do_render read_mem_physical st lw lh ow oh layers' obuf' u.
Proof.
  intros Hmem (Hregs & _ & Hvram & Hspram) Hw Hh (Ht & Htu & Hcb & Hjs & Hjt)
    H4 H4' Hall Hall' Hob Hob'.
  unfold do_render. cbv zeta.
  rewrite (clear_layers_fresh lw lh layers) by (try assumption; nia).
  rewrite (clear_layers_fresh lw lh layers') by (try assumption; nia).
  cbn [mbind option_bind for_down]. change (1 - 1) with 0.
  set (c := replicate 4 (replicate (Z.to_nat (lw * lh)) 0x80008000)).
  assert (Hc : layers_wf lw lh c).
  { split; [reflexivity |]. apply Forall_replicate.
    split; [rewrite length_replicate; nia |]. apply Forall_replicate. unfold is_u32. lia. }
  pose proof (render_background_run read_mem_physical (ppu_regs st) (vram st) lw lh 1
                (s_char_buf u 1) (s_tile u 1) c Hmem Hregs Hvram ltac:(lia)
                ltac:(now right) (proj1 (Hcb 1)) (proj2 (Hcb 1)) (Hjt 1) Hc) as H1.
  destruct (bkg_stops (ppu_regs st) 1); [now rewrite H1 |].
  destruct H1 as (b1 & E1 & Hb1 & _). bind_with E1.
  pose proof (render_background_run read_mem_physical (ppu_regs st) (vram st) lw lh 0
                (s_char_buf u 0) (s_tile u 0) b1 Hmem Hregs Hvram ltac:(lia)
                ltac:(now left) (proj1 (Hcb 0)) (proj2 (Hcb 0)) (Hjt 0) Hb1) as H0.
  destruct (bkg_stops (ppu_regs st) 0); [now rewrite H0 |].
  destruct H0 as (b0 & E0 & Hb0 & _). bind_with E0.
  destruct (render_sprites_run read_mem_physical (ppu_regs st) (vram st) (spram st) lw lh
              Hmem Hregs Hvram Hspram ltac:(lia) (s_tempbuf u) (s_sprite u) b0
              Ht Htu Hjs Hb0) as (sp & Es & Hsp & _).
  bind_with Es.
  rewrite (merge_layers_fresh (ppu_regs st) sp obuf obuf' lw lh ow oh Hregs (proj1 Hsp));
    try assumption; [reflexivity |].
  eapply Forall_impl; [exact (proj2 Hsp) |]. cbn beta. tauto.
Qed.

Lemma do_render_fresh_witness :
  do_render (fun _ => 0) ppu_reset 256 256 256 240
    (replicate 4 (replicate (Z.to_nat 65536) 0x12345678)) (replicate (Z.to_nat 61440) 1)
    (mk_stale (replicate (Z.to_nat 256) 0) (fun _ => replicate (Z.to_nat 512) 0)
              (fun _ => (0, 0)) (fun _ _ _ => (0, 0)))
  = do_render (fun _ => 0) ppu_reset 256 256 256 240
    (replicate 4 (replicate (Z.to_nat 65536) 0)) (replicate (Z.to_nat 61440) 2)
    (mk_stale (replicate (Z.to_nat 256) 0) (fun _ => replicate (Z.to_nat 512) 0)
              (fun _ => (0, 0)) (fun _ _ _ => (0, 0))).
Proof.
  apply do_render_fresh.
  - intros _. unfold is_u8. lia.
  - apply (bool_decide_unpack _). vm_compute. exact I.
  - lia.
  - lia.
  - unfold stale_wf. cbn [s_tempbuf s_char_buf s_sprite s_tile].
    split; [rewrite length_replicate; lia |].
    split; [apply Forall_replicate; unfold is_u8; lia |].
    split; [intros _; split;
            [rewrite length_replicate; lia | apply Forall_replicate; unfold is_u8; lia] |].
    split; [intros _ | intros _ _ _]; split; unfold is_u16; cbn; lia.
  - apply length_replicate.
  - apply length_replicate.
  - apply Forall_replicate. rewrite length_replicate. lia.
  - apply Forall_replicate. rewrite length_replicate. lia.
  - rewrite length_replicate. lia.
  - rewrite length_replicate. lia.
Defined.
